(** * Document conversion service: the bounded-concurrency conversion pipeline

    A shallow embedding of [main.py]: the format table [CONVERSIONS],
    [get_input_ext], [get_client_ip], [log_event], [verify_auth], the
    formatters of the log and the request handler [convert], together with
    the parts of the Python runtime and of the web framework the handler
    relies on ([str] methods, [pathlib], [asyncio.Semaphore],
    [tempfile.TemporaryDirectory], [subprocess.run], the constructor of
    Starlette's [Response]), and of the worker processes [gunicorn.conf.py]
    configures.

    Python values are represented as follows.
    - [str] is a list of Unicode code points ([N]); string literals are
      written [py "..."].  [str.lower] is modelled on the letters A-Z and
      keeps every other code point (the Unicode case tables are outside
      the model).
    - [bytes] is a list of [Byte.byte].
    - [int] is [Z].
    - a [dict] is an association list in insertion order.
    - the handler is a coroutine: it is a function from the shared state of
      the worker process to a result that is a returned value, a raised
      exception, or a suspension at an [await] with the rest of the
      coroutine as a continuation. *)

From Stdlib Require Import List NArith ZArith Bool Lia.
From Stdlib Require Import Strings.String Strings.Ascii Strings.Byte.
From Stdlib Require Import Numbers.DecimalString.
From Stdlib Require Import Sorting.Sorted Sorting.Permutation.
Import ListNotations.

Local Open Scope list_scope.

(* ------------------------------------------------------------------------- *)
(** ** Python built-ins *)
(* ------------------------------------------------------------------------- *)

Module Py.

Definition char := N.
Definition str := list char.
Definition bytes := list byte.

(** A string literal. *)
Definition py (s : string) : str := map N_of_ascii (list_ascii_of_string s).
Arguments py s%_string.

Definition char_eqb : char -> char -> bool := N.eqb.

Fixpoint str_eqb (a b : str) : bool :=
  match a, b with
  | [], [] => true
  | x :: a', y :: b' => char_eqb x y && str_eqb a' b'
  | _, _ => false
  end.

(** [a < b] on [str]: lexicographic on code points. *)
Fixpoint str_ltb (a b : str) : bool :=
  match a, b with
  | _, [] => false
  | [], _ :: _ => true
  | x :: a', y :: b' => N.ltb x y || (N.eqb x y && str_ltb a' b')
  end.

(** [len(x)] as a Python [int]. *)
Definition len {A : Type} (l : list A) : Z := Z.of_nat (List.length l).

(** Truth value of a sequence: empty sequences are falsy. *)
Definition truthy {A : Type} (l : list A) : bool :=
  match l with [] => false | _ :: _ => true end.

Definition lower_char (c : char) : char :=
  if (N.leb 65 c && N.leb c 90)%bool then (c + 32)%N else c.

(** [s.lower()] *)
Definition lower (s : str) : str := map lower_char s.

(** [s.lstrip(chars)] *)
Fixpoint lstrip (chars : str) (s : str) : str :=
  match s with
  | [] => []
  | c :: s' => if existsb (char_eqb c) chars then lstrip chars s' else s
  end.

(** [s.rstrip(chars)] *)
Definition rstrip (chars : str) (s : str) : str := rev (lstrip chars (rev s)).

(** The code points with [isspace()], as removed by [s.strip()]. *)
Definition whitespace : str :=
  [9; 10; 11; 12; 13; 28; 29; 30; 31; 32; 133; 160; 5760; 8192; 8193; 8194;
   8195; 8196; 8197; 8198; 8199; 8200; 8201; 8202; 8232; 8233; 8239; 8287;
   12288]%N.

(** [s.strip()] *)
Definition strip (s : str) : str := rstrip whitespace (lstrip whitespace s).

(** [s.rfind(c)] for a single character [c]: the highest index of [c] in [s],
    [None] standing for Python's [-1]. *)
Fixpoint rfind (c : char) (s : str) : option nat :=
  match s with
  | [] => None
  | x :: s' =>
      match rfind c s' with
      | Some i => Some (S i)
      | None => if char_eqb x c then Some 0 else None
      end
  end.

(** [s.split(sep)] for a single character [sep]. *)
Fixpoint split (sep : char) (s : str) : list str :=
  match s with
  | [] => [[]]
  | c :: s' =>
      if char_eqb c sep then [] :: split sep s'
      else match split sep s' with
           | [] => [[c]]
           | w :: ws => (c :: w) :: ws
           end
  end.

(** [sep.join(items)] *)
Fixpoint join (sep : str) (items : list str) : str :=
  match items with
  | [] => []
  | [x] => x
  | x :: rest => x ++ sep ++ join sep rest
  end.

(** [s.startswith(p)] *)
Fixpoint startswith (p s : str) : bool :=
  match p, s with
  | [], _ => true
  | _ :: _, [] => false
  | x :: p', y :: s' => char_eqb x y && startswith p' s'
  end.

(** [s.endswith(p)] *)
Definition endswith (p s : str) : bool := startswith (rev p) (rev s).

(** [p in s]: the string [p] occurs in the string [s]. *)
Fixpoint str_in (p s : str) : bool :=
  startswith p s || match s with [] => false | _ :: s' => str_in p s' end.

(** [str(n)] for an [int]: decimal digits, with a sign when negative. *)
Definition str_of_int (n : Z) : str := py (NilZero.string_of_int (Z.to_int n)).

(** [sorted(items)] on strings.  Python's sort is stable and only uses [<];
    so does this insertion sort. *)
Fixpoint insert (x : str) (l : list str) : list str :=
  match l with
  | [] => [x]
  | y :: l' => if str_ltb y x then y :: insert x l' else x :: l
  end.

Definition sorted (items : list str) : list str := fold_right insert [] items.

(** *** [dict] with [str] keys, in insertion order *)

Definition dict (V : Type) := list (str * V).

(** [d.keys()] *)
Definition keys {V : Type} (d : dict V) : list str := map fst d.

(** [d.get(k)], [None] when the key is absent. *)
Fixpoint get {V : Type} (d : dict V) (k : str) : option V :=
  match d with
  | [] => None
  | (k', v) :: d' => if str_eqb k k' then Some v else get d' k
  end.

(** [k in d] *)
Definition contains {V : Type} (d : dict V) (k : str) : bool :=
  match get d k with Some _ => true | None => false end.

(** [d.get(k, default)] *)
Definition get_default {V : Type} (d : dict V) (k : str) (default : V) : V :=
  match get d k with Some v => v | None => default end.

(** *** [bytes.decode()]: strict UTF-8 *)

Definition cont (b : N) : bool := (N.leb 128 b && N.leb b 191)%bool.

Definition within (lo b hi : N) : bool := (N.leb lo b && N.leb b hi)%bool.

Fixpoint utf8 (bs : list N) : option str :=
  match bs with
  | [] => Some []
  | b0 :: r0 =>
      if N.ltb b0 128 then option_map (cons b0) (utf8 r0)
      else if within 194 b0 223 then
        match r0 with
        | b1 :: r1 =>
            if cont b1
            then option_map (cons ((b0 - 192) * 64 + (b1 - 128))%N) (utf8 r1)
            else None
        | _ => None
        end
      else if within 224 b0 239 then
        match r0 with
        | b1 :: b2 :: r2 =>
            if (within (if N.eqb b0 224 then 160 else 128) b1
                       (if N.eqb b0 237 then 159 else 191) && cont b2)%bool
            then option_map
                   (cons ((b0 - 224) * 4096 + (b1 - 128) * 64 + (b2 - 128))%N)
                   (utf8 r2)
            else None
        | _ => None
        end
      else if within 240 b0 244 then
        match r0 with
        | b1 :: b2 :: b3 :: r3 =>
            if (within (if N.eqb b0 240 then 144 else 128) b1
                       (if N.eqb b0 244 then 143 else 191)
                && cont b2 && cont b3)%bool
            then option_map
                   (cons ((b0 - 240) * 262144 + (b1 - 128) * 4096
                          + (b2 - 128) * 64 + (b3 - 128))%N)
                   (utf8 r3)
            else None
        | _ => None
        end
      else None
  end.

(** [b.decode()]; [None] stands for [UnicodeDecodeError]. *)
Definition decode (b : bytes) : option str := utf8 (map Byte.to_N b).

(** [s.encode()] restricted to ASCII text, used to write byte literals. *)
Definition ascii_bytes (s : string) : bytes := list_byte_of_string s.

End Py.

Import Py.

(* ------------------------------------------------------------------------- *)
(** ** pathlib (POSIX flavour) *)
(* ------------------------------------------------------------------------- *)

Module Pathlib.

Definition dot : char := 46%N.
Definition sep : char := 47%N.

(** The components of a path: empty components and [.] are dropped. *)
Definition parts (p : str) : list str :=
  filter (fun x => truthy x && negb (str_eqb x [dot]))%bool (split sep p).

Definition is_absolute (p : str) : bool := startswith [sep] p.

(** [Path(p).name]: the final component, if any. *)
Definition name (p : str) : str := last (parts p) [].

(** [Path(p).suffix]: the final component's last suffix, with its period. *)
Definition suffix (p : str) : str :=
  let n := name p in
  match rfind dot n with
  | Some i => if (Nat.ltb 0 i && Nat.ltb i (List.length n - 1))%bool then skipn i n else []
  | None => []
  end.

(** [Path(p).stem]: the final component without its last suffix. *)
Definition stem (p : str) : str :=
  let n := name p in
  match rfind dot n with
  | Some i => if (Nat.ltb 0 i && Nat.ltb i (List.length n - 1))%bool then firstn i n else n
  | None => n
  end.

(** [str(Path(base) / p)] for a normalised absolute [base]. *)
Definition joinpath (base p : str) : str :=
  if is_absolute p then
    (if (startswith [sep; sep] p && negb (startswith [sep; sep; sep] p))%bool
     then [sep; sep] else [sep]) ++ join [sep] (parts p)
  else join [sep] (base :: parts p).

End Pathlib.

Import Pathlib.

(* ------------------------------------------------------------------------- *)
(** ** The state of one worker process *)
(* ------------------------------------------------------------------------- *)

(** [Config]: the values read from the environment at import time. *)
Record Config := {
  TIMEOUT : Z;
  MAX_FILE_SIZE : Z;
  MAX_CONCURRENT : Z
}.

(** [asyncio.Semaphore]: the counter and the number of coroutines waiting in
    its queue. *)
Record Semaphore := {
  _value : Z;
  _waiters : nat
}.

(** The value of a keyword argument of [log_event]. *)
Inductive value :=
| VStr (s : str)
| VInt (n : Z)
| VBool (b : bool).

(** A [logging.LogRecord] as built by [log_event]: level, message and the
    [extra] dictionary. *)
Record LogRecord := {
  levelno : Z;
  msg : str;
  extra : dict value
}.

(** A directory listing: entries in the order the file system yields them. *)
Definition directory := list (str * bytes).

Record State := {
  conversion_semaphore : Semaphore;
  scratch : list (nat * directory);   (* the temporary directories that exist *)
  next_tmp : nat;                     (* names the next temporary directory *)
  sink : list LogRecord;              (* what the logger has handled, oldest first *)
  reads : nat;                        (* payloads read into memory so far *)
  clock : Z                           (* [time.time()], in milliseconds *)
}.

Definition set_semaphore (sem : Semaphore) (s : State) : State :=
  {| conversion_semaphore := sem; scratch := scratch s; next_tmp := next_tmp s;
     sink := sink s; reads := reads s; clock := clock s |}.

Definition set_scratch (fs : list (nat * directory)) (s : State) : State :=
  {| conversion_semaphore := conversion_semaphore s; scratch := fs;
     next_tmp := next_tmp s; sink := sink s; reads := reads s; clock := clock s |}.

Definition set_next_tmp (n : nat) (s : State) : State :=
  {| conversion_semaphore := conversion_semaphore s; scratch := scratch s;
     next_tmp := n; sink := sink s; reads := reads s; clock := clock s |}.

Definition set_sink (l : list LogRecord) (s : State) : State :=
  {| conversion_semaphore := conversion_semaphore s; scratch := scratch s;
     next_tmp := next_tmp s; sink := l; reads := reads s; clock := clock s |}.

Definition set_reads (n : nat) (s : State) : State :=
  {| conversion_semaphore := conversion_semaphore s; scratch := scratch s;
     next_tmp := next_tmp s; sink := sink s; reads := n; clock := clock s |}.

Definition set_clock (now : Z) (s : State) : State :=
  {| conversion_semaphore := conversion_semaphore s; scratch := scratch s;
     next_tmp := next_tmp s; sink := sink s; reads := reads s; clock := now |}.

(** Exceptions. [HTTPException(status_code, detail)] is the only one the
    handler raises itself. *)
Inductive exn :=
| HTTPException (status_code : Z) (detail : str)
| TimeoutExpired
| OSError
| UnicodeDecodeError
| UnicodeEncodeError
| KeyError.

(** What [subprocess.run] observes of the external engine: it ran to an exit
    status, it was killed at the timeout, or it could not be started.  The
    engine is a black box; [outdir] is the listing of the output directory it
    leaves behind. *)
Inductive engine_result :=
| Completed (returncode : Z) (stderr : bytes) (outdir : directory)
| Killed (outdir : directory)
| NotStarted.

(** The result of running a coroutine from a state up to its next
    suspension. *)
Inductive res (A : Type) : Type :=
| Val (a : A) (s : State)
    (* returned [a] *)
| Exn (e : exn) (s : State)
    (* raised [e] *)
| Susp (argv : list str) (s : State) (k : engine_result -> State -> res A)
    (* awaits the executor running [argv]; [k] is the rest of the coroutine *)
| Parked (s : State).
    (* waits in the semaphore's queue *)

Arguments Val {A} a s.
Arguments Exn {A} e s.
Arguments Susp {A} argv s k.
Arguments Parked {A} s.

Definition M (A : Type) : Type := State -> res A.

Definition ret {A : Type} (a : A) : M A := fun s => Val a s.

Definition raise {A : Type} (e : exn) : M A := fun s => Exn e s.

Fixpoint bind_res {A B : Type} (r : res A) (f : A -> M B) : res B :=
  match r with
  | Val a s => f a s
  | Exn e s => Exn e s
  | Susp argv s k => Susp argv s (fun er s' => bind_res (k er s') f)
  | Parked s => Parked s
  end.

Definition bind {A B : Type} (m : M A) (f : A -> M B) : M B :=
  fun s => bind_res (m s) f.

Notation "x <- c1 ;; c2" := (bind c1 (fun x => c2))
  (at level 61, c1 at next level, right associativity).
Notation "' pat <- c1 ;; c2" := (bind c1 (fun x => match x with pat => c2 end))
  (at level 61, pat pattern, c1 at next level, right associativity).
Notation "c1 ;; c2" := (bind c1 (fun _ => c2))
  (at level 61, right associativity).

(** [try: body finally: cleanup], where [cleanup] cannot fail. *)
Fixpoint finally_res {A : Type} (r : res A) (cleanup : State -> State) : res A :=
  match r with
  | Val a s => Val a (cleanup s)
  | Exn e s => Exn e (cleanup s)
  | Susp argv s k => Susp argv s (fun er s' => finally_res (k er s') cleanup)
  | Parked s => Parked s
  end.

Definition try_finally {A : Type} (body : M A) (cleanup : State -> State) : M A :=
  fun s => finally_res (body s) cleanup.

(** [try: body except E: handler] for the exceptions selected by [caught]. *)
Fixpoint except_res {A : Type} (r : res A) (caught : exn -> bool) (handler : M A)
  : res A :=
  match r with
  | Val a s => Val a s
  | Exn e s => if caught e then handler s else Exn e s
  | Susp argv s k => Susp argv s (fun er s' => except_res (k er s') caught handler)
  | Parked s => Parked s
  end.

Definition try_except {A : Type} (body : M A) (caught : exn -> bool) (handler : M A)
  : M A :=
  fun s => except_res (body s) caught handler.

(** An optional value whose absence raises [e]. *)
Definition or_raise {A : Type} (o : option A) (e : exn) : M A :=
  match o with Some a => ret a | None => raise e end.

(* ------------------------------------------------------------------------- *)
(** ** asyncio.Semaphore *)
(* ------------------------------------------------------------------------- *)

Module Asyncio.

(** [Semaphore(value)]; [None] stands for the [ValueError] raised on a
    negative initial value. *)
Definition new (value : Z) : option Semaphore :=
  if (value <? 0)%Z then None else Some {| _value := value; _waiters := 0 |}.

(** [sem.locked()]: the semaphore cannot be acquired immediately. *)
Definition locked (sem : Semaphore) : bool :=
  ((_value sem =? 0)%Z || negb (Nat.eqb (_waiters sem) 0))%bool.

(** [await sem.acquire()]: take a permit at once when the semaphore is not
    locked, else join the queue and wait. *)
Definition acquire : M unit := fun s =>
  let sem := conversion_semaphore s in
  if negb (locked sem)
  then Val tt (set_semaphore {| _value := _value sem - 1; _waiters := _waiters sem |} s)
  else Parked (set_semaphore {| _value := _value sem; _waiters := S (_waiters sem) |} s).

(** [sem._wake_up_next()]: hand a permit to the first waiter, if there is
    one. *)
Definition _wake_up_next (sem : Semaphore) : Semaphore :=
  match _waiters sem with
  | O => sem
  | S _ => {| _value := _value sem - 1; _waiters := _waiters sem |}
  end.

(** [sem.release()] *)
Definition release (s : State) : State :=
  let sem := conversion_semaphore s in
  set_semaphore
    (_wake_up_next {| _value := _value sem + 1; _waiters := _waiters sem |}) s.

(** [async with conversion_semaphore: body] *)
Definition async_with {A : Type} (body : M A) : M A :=
  acquire ;; try_finally body release.

End Asyncio.

(* ------------------------------------------------------------------------- *)
(** ** Temporary directories, files and the external process *)
(* ------------------------------------------------------------------------- *)

Module Os.

(** The path of the temporary directory numbered [d]. *)
Definition tmp_path (d : nat) : str := py "/tmp/tmp" ++ str_of_int (Z.of_nat d).

Definition listdir (d : nat) (s : State) : directory :=
  match find (fun e => Nat.eqb (fst e) d) (scratch s) with
  | Some (_, entries) => entries
  | None => []
  end.

Definition set_dir (d : nat) (entries : directory) (s : State) : State :=
  set_scratch
    (map (fun e => if Nat.eqb (fst e) d then (d, entries) else e) (scratch s)) s.

Definition exists_dir (d : nat) (s : State) : bool :=
  existsb (fun e => Nat.eqb (fst e) d) (scratch s).

(** [tempfile.mkdtemp()]: a fresh, empty directory. *)
Definition mkdtemp : M nat := fun s =>
  let d := next_tmp s in
  Val d (set_next_tmp (S d) (set_scratch ((d, []) :: scratch s) s)).

(** [shutil.rmtree]: the directory and everything in it. *)
Definition rmtree (d : nat) (s : State) : State :=
  set_scratch (filter (fun e => negb (Nat.eqb (fst e) d)) (scratch s)) s.

(** [with tempfile.TemporaryDirectory() as tmpdir: body] *)
Definition with_TemporaryDirectory {A : Type} (body : nat -> M A) : M A :=
  tmpdir <- mkdtemp ;; try_finally (body tmpdir) (rmtree tmpdir).

(** Writing a file into a directory listing: an existing entry is truncated
    and rewritten, a new one is added. *)
Fixpoint write_entry (n : str) (data : bytes) (entries : directory) : directory :=
  match entries with
  | [] => [(n, data)]
  | (n', data') :: rest =>
      if str_eqb n n' then (n, data) :: rest
      else (n', data') :: write_entry n data rest
  end.

(** Where [Path(tmpdir) / filename] points for a fresh [tmpdir]: at an entry
    of [tmpdir], outside of it, or at something that cannot be opened for
    writing (a directory, or a path through a directory that does not
    exist).  The filename is taken to be one the file system accepts (no NUL,
    components within the length limit). *)
Inductive placement :=
| InScratch (n : str)
| Elsewhere
| Unwritable.

Definition dotdot : str := [dot; dot].

Definition place (filename : str) : placement :=
  if is_absolute filename then Elsewhere
  else match parts filename with
       | [] => Unwritable
       | [n] => if str_eqb n dotdot then Unwritable else InScratch n
       | n :: _ => if str_eqb n dotdot then Elsewhere else Unwritable
       end.

(** [with open(Path(tmpdir) / filename, "wb") as f: f.write(data)].  The
    state only holds the temporary directories: a write that lands outside
    of [tmpdir] is taken to succeed in a place that is none of them, and
    leaves the state as it is. *)
Definition open_write (tmpdir : nat) (filename : str) (data : bytes) : M unit :=
  match place filename with
  | InScratch n =>
      fun s => Val tt (set_dir tmpdir (write_entry n data (listdir tmpdir s)) s)
  | Elsewhere => ret tt
  | Unwritable => raise OSError
  end.

(** [fnmatch] for patterns made of [*], [?] and literal characters. *)
Fixpoint fnmatch (pat : str) (n : str) : bool :=
  match pat with
  | [] => negb (truthy n)
  | p :: pat' =>
      if char_eqb p 42%N then
        (fix star (n : str) : bool :=
           fnmatch pat' n || match n with [] => false | _ :: n' => star n' end) n
      else
        match n with
        | [] => false
        | c :: n' => (char_eqb p 63%N || char_eqb p c) && fnmatch pat' n'
        end
  end.

(** [list(Path(tmpdir).glob(pattern))] for a pattern without [/]: the matching
    entries, in listing order. *)
Definition glob (tmpdir : nat) (pattern : str) : M (list (str * bytes)) := fun s =>
  Val (filter (fun e => fnmatch pattern (fst e)) (listdir tmpdir s)) s.

(** [subprocess.CompletedProcess] *)
Record CompletedProcess := {
  returncode : Z;
  stderr : bytes
}.

(** [await loop.run_in_executor(None, lambda: subprocess.run(argv,
    capture_output=True, timeout=...))] with [outdir] the directory the
    process writes to: the coroutine is suspended until the process is
    over. *)
Definition run_in_executor (argv : list str) (outdir : nat) : M CompletedProcess :=
  fun s =>
    Susp argv s
      (fun er s' =>
         match er with
         | Completed rc err entries =>
             Val {| returncode := rc; stderr := err |} (set_dir outdir entries s')
         | Killed entries => Exn TimeoutExpired (set_dir outdir entries s')
         | NotStarted => Exn OSError s'
         end).

(** [time.time()] *)
Definition time_time : M Z := fun s => Val (clock s) s.

End Os.

Import Asyncio Os.

(* ------------------------------------------------------------------------- *)
(** ** Logging *)
(* ------------------------------------------------------------------------- *)

Definition INFO : Z := 20.

(** [log_event(event, **kwargs)]: one record, always at level INFO, handed to
    the logger ([Logger.handle] does not filter by level). *)
Definition log_event (event : str) (kwargs : dict value) : M unit := fun s =>
  Val tt
    (set_sink
       (sink s ++ [{| levelno := INFO; msg := event;
                      extra := (py "event", VStr event) :: kwargs |}]) s).

(* ------------------------------------------------------------------------- *)
(** ** Format definitions *)
(* ------------------------------------------------------------------------- *)

(** A conversion rule: (filter name, MIME type). *)
Definition rule : Type := str * str.

Definition CONVERSIONS : dict (dict rule) :=
  [ (* Document formats *)
    (py "doc",
     [ (py "docx", (py "MS Word 2007 XML", py "application/vnd.openxmlformats-officedocument.wordprocessingml.document"));
       (py "pdf", (py "writer_pdf_Export", py "application/pdf"));
       (py "odt", (py "writer8", py "application/vnd.oasis.opendocument.text"));
       (py "txt", (py "Text", py "text/plain"));
       (py "rtf", (py "Rich Text Format", py "application/rtf"));
       (py "html", (py "HTML (StarWriter)", py "text/html")) ]);
    (py "docx",
     [ (py "doc", (py "MS Word 97", py "application/msword"));
       (py "pdf", (py "writer_pdf_Export", py "application/pdf"));
       (py "odt", (py "writer8", py "application/vnd.oasis.opendocument.text"));
       (py "txt", (py "Text", py "text/plain"));
       (py "rtf", (py "Rich Text Format", py "application/rtf"));
       (py "html", (py "HTML (StarWriter)", py "text/html")) ]);
    (py "odt",
     [ (py "doc", (py "MS Word 97", py "application/msword"));
       (py "docx", (py "MS Word 2007 XML", py "application/vnd.openxmlformats-officedocument.wordprocessingml.document"));
       (py "pdf", (py "writer_pdf_Export", py "application/pdf"));
       (py "txt", (py "Text", py "text/plain"));
       (py "rtf", (py "Rich Text Format", py "application/rtf"));
       (py "html", (py "HTML (StarWriter)", py "text/html")) ]);
    (py "rtf",
     [ (py "doc", (py "MS Word 97", py "application/msword"));
       (py "docx", (py "MS Word 2007 XML", py "application/vnd.openxmlformats-officedocument.wordprocessingml.document"));
       (py "pdf", (py "writer_pdf_Export", py "application/pdf"));
       (py "odt", (py "writer8", py "application/vnd.oasis.opendocument.text")) ]);
    (* Spreadsheet formats *)
    (py "xls",
     [ (py "xlsx", (py "Calc MS Excel 2007 XML", py "application/vnd.openxmlformats-officedocument.spreadsheetml.sheet"));
       (py "pdf", (py "calc_pdf_Export", py "application/pdf"));
       (py "ods", (py "calc8", py "application/vnd.oasis.opendocument.spreadsheet"));
       (py "csv", (py "Text - txt - csv (StarCalc):44,34,76", py "text/csv")) ]);
    (py "xlsx",
     [ (py "xls", (py "MS Excel 97", py "application/vnd.ms-excel"));
       (py "pdf", (py "calc_pdf_Export", py "application/pdf"));
       (py "ods", (py "calc8", py "application/vnd.oasis.opendocument.spreadsheet"));
       (py "csv", (py "Text - txt - csv (StarCalc):44,34,76", py "text/csv")) ]);
    (py "ods",
     [ (py "xls", (py "MS Excel 97", py "application/vnd.ms-excel"));
       (py "xlsx", (py "Calc MS Excel 2007 XML", py "application/vnd.openxmlformats-officedocument.spreadsheetml.sheet"));
       (py "pdf", (py "calc_pdf_Export", py "application/pdf"));
       (py "csv", (py "Text - txt - csv (StarCalc):44,34,76", py "text/csv")) ]);
    (py "csv",
     [ (py "xls", (py "MS Excel 97", py "application/vnd.ms-excel"));
       (py "xlsx", (py "Calc MS Excel 2007 XML", py "application/vnd.openxmlformats-officedocument.spreadsheetml.sheet"));
       (py "ods", (py "calc8", py "application/vnd.oasis.opendocument.spreadsheet")) ]);
    (* Presentation formats *)
    (py "ppt",
     [ (py "pptx", (py "Impress MS PowerPoint 2007 XML", py "application/vnd.openxmlformats-officedocument.presentationml.presentation"));
       (py "pdf", (py "impress_pdf_Export", py "application/pdf"));
       (py "odp", (py "impress8", py "application/vnd.oasis.opendocument.presentation")) ]);
    (py "pptx",
     [ (py "ppt", (py "MS PowerPoint 97", py "application/vnd.ms-powerpoint"));
       (py "pdf", (py "impress_pdf_Export", py "application/pdf"));
       (py "odp", (py "impress8", py "application/vnd.oasis.opendocument.presentation")) ]);
    (py "odp",
     [ (py "ppt", (py "MS PowerPoint 97", py "application/vnd.ms-powerpoint"));
       (py "pptx", (py "Impress MS PowerPoint 2007 XML", py "application/vnd.openxmlformats-officedocument.presentationml.presentation"));
       (py "pdf", (py "impress_pdf_Export", py "application/pdf")) ]) ].

(** [get_input_ext(filename)]: extract and validate the input extension. *)
Definition get_input_ext (filename : str) : M str :=
  let ext := lstrip [dot] (lower (suffix filename)) in
  if negb (contains CONVERSIONS ext) then
    let supported := join (py ", ") (sorted (keys CONVERSIONS)) in
    raise (HTTPException 400
             (py "Unsupported input format: ." ++ ext ++ py ". Supported: "
                ++ supported))
  else ret ext.

(** The part of a [Request] the handler looks at. *)
Record Request := {
  x_forwarded_for : option str;   (* [request.headers.get("x-forwarded-for")] *)
  client : option str             (* [request.client.host], if there is a client *)
}.

(** [get_client_ip(request)] *)
Definition get_client_ip (request : Request) : str :=
  match x_forwarded_for request with
  | Some forwarded =>
      if truthy forwarded then strip (hd [] (split 44%N forwarded))
      else match client request with Some host => host | None => py "unknown" end
  | None => match client request with Some host => host | None => py "unknown" end
  end.

(** An [UploadFile]: the filename of the multipart part and its payload. *)
Record UploadFile := {
  filename : option str;
  payload : bytes
}.

(** [await file.read()]: the whole payload, in memory. *)
Definition file_read (file : UploadFile) : M bytes := fun s =>
  Val (payload file) (set_reads (S (reads s)) s).

(** A [fastapi.responses.Response] (the class of Starlette), once
    constructed: its body, its media type and its headers.  The headers are
    those of [raw_headers], in order, written as text (they are latin-1
    bytes, which decode to the same code points). *)
Record Response := {
  content : bytes;
  media_type : str;
  headers : dict str
}.

Module Starlette.

(** [s.encode("latin-1")] raises [UnicodeEncodeError] unless every code point
    of [s] is below 256. *)
Definition encodable_latin1 (s : str) : bool := forallb (fun c => N.ltb c 256) s.

(** [Response.init_headers(headers)] for a response with a body, a media
    type and the status 200: the headers given, with their names in lower
    case, followed by [content-length] and [content-type] unless they were
    given.  [None] stands for the [UnicodeEncodeError] of a name or a value
    that latin-1 cannot encode. *)
Definition init_headers (body : bytes) (media_type : str) (headers : dict str)
  : option (dict str) :=
  if forallb (fun h => encodable_latin1 (lower (fst h)) && encodable_latin1 (snd h))%bool
       headers
  then
    let raw_headers := map (fun h => (lower (fst h), snd h)) headers in
    let keys := map fst raw_headers in
    let populate_content_length :=
      negb (existsb (str_eqb (py "content-length")) keys) in
    let populate_content_type :=
      negb (existsb (str_eqb (py "content-type")) keys) in
    let raw_headers :=
      if populate_content_length
      then raw_headers ++ [(py "content-length", str_of_int (len body))]
      else raw_headers in
    if populate_content_type then
      let content_type :=
        if (startswith (py "text/") media_type
            && negb (str_in (py "charset=") (lower media_type)))%bool
        then media_type ++ py "; charset=" ++ py "utf-8"
        else media_type in
      if encodable_latin1 content_type
      then Some (raw_headers ++ [(py "content-type", content_type)])
      else None
    else Some raw_headers
  else None.

(** [Response(content=content, media_type=media_type, headers=headers)] *)
Definition Response_init (content : bytes) (media_type : str) (headers : dict str)
  : M Response :=
  match init_headers content media_type headers with
  | Some raw_headers =>
      ret {| content := content; media_type := media_type;
             headers := raw_headers |}
  | None => raise UnicodeEncodeError
  end.

End Starlette.

Import Starlette.

Definition is_TimeoutExpired (e : exn) : bool :=
  match e with TimeoutExpired => true | _ => false end.

Section Service.

Variable config : Config.

(** The first action of [lifespan]: the state in which requests are served.
    [None] when [Semaphore] rejects a negative [MAX_CONCURRENT]. *)
Definition lifespan (auth_enabled : bool) (now : Z) : option State :=
  match Asyncio.new (MAX_CONCURRENT config) with
  | None => None
  | Some sem =>
      Some {| conversion_semaphore := sem; scratch := []; next_tmp := 0;
              sink := [{| levelno := INFO; msg := py "startup";
                          extra := [(py "event", VStr (py "startup"));
                                    (py "auth_enabled", VBool auth_enabled);
                                    (py "max_concurrent", VInt (MAX_CONCURRENT config));
                                    (py "max_file_size", VInt (MAX_FILE_SIZE config));
                                    (py "timeout", VInt (TIMEOUT config))] |}];
              reads := 0; clock := now |}
  end.

(** The handler of [POST /convert] is given in four pieces, cut where the
    source has its comments and blank lines: [admission_check] (the test of
    the semaphore), [convert_job] (the two [with] blocks),
    [convert_response] (the lines after them) and [convert] (the validation,
    followed by the three others). *)

(** [if not conversion_semaphore.locked() or conversion_semaphore._value > 0:
    pass else: raise HTTPException(429, ...)] *)
Definition admission_check : M unit := fun s =>
  let sem := conversion_semaphore s in
  if (negb (locked sem) || (_value sem >? 0)%Z)%bool
  then Val tt s
  else Exn (HTTPException 429
              (py "Too many concurrent requests. Please retry later.")) s.

(** [async with conversion_semaphore: with tempfile.TemporaryDirectory() as
    tmpdir: ...], which leaves the converted bytes in [content]. *)
Definition convert_job (client_ip file_filename : str) (file_content : bytes)
    (input_ext output_ext filter_name : str) (input_size : Z) : M bytes :=
  async_with
    (with_TemporaryDirectory (fun tmpdir =>
       let input_path := joinpath (tmp_path tmpdir) file_filename in
       open_write tmpdir file_filename file_content ;;
       (* Build convert command *)
       let convert_to_arg :=
         if truthy filter_name then output_ext ++ py ":" ++ filter_name
         else output_ext in
       result <-
         try_except
           (run_in_executor
              [py "libreoffice"; py "--headless"; py "--convert-to";
               convert_to_arg; py "--outdir"; tmp_path tmpdir; input_path]
              tmpdir)
           is_TimeoutExpired
           (log_event (py "conversion_timeout")
              [(py "input_format", VStr input_ext);
               (py "output_format", VStr output_ext);
               (py "input_size_bytes", VInt input_size);
               (py "client_ip", VStr client_ip)] ;;
            raise (HTTPException 504 (py "Conversion timed out"))) ;;
       (if negb (returncode result =? 0)%Z then
          error <- or_raise (decode (stderr result)) UnicodeDecodeError ;;
          log_event (py "conversion_error")
            [(py "input_format", VStr input_ext);
             (py "output_format", VStr output_ext);
             (py "error", VStr (firstn 500 error));
             (py "client_ip", VStr client_ip)] ;;
          detail <- or_raise (decode (stderr result)) UnicodeDecodeError ;;
          raise (HTTPException 500 (py "Conversion failed: " ++ detail))
        else ret tt) ;;
       (* Find output file *)
       output_files <- glob tmpdir (py "*." ++ output_ext) ;;
       match output_files with
       | [] => raise (HTTPException 500 (py "Conversion produced no output"))
       | (_, data) :: _ => ret data
       end)).

(** The end of the handler, from [output_size = len(content)] on. *)
Definition convert_response (start_time : Z) (client_ip file_filename : str)
    (input_ext output_ext : str) (input_size : Z) (mime_type : str)
    (content : bytes) : M Response :=
  let output_size := len content in
  now <- time_time ;;
  let duration_ms := (now - start_time)%Z in
  log_event (py "conversion_complete")
    [(py "input_format", VStr input_ext);
     (py "output_format", VStr output_ext);
     (py "input_size_bytes", VInt input_size);
     (py "output_size_bytes", VInt output_size);
     (py "duration_ms", VInt duration_ms);
     (py "client_ip", VStr client_ip)] ;;
  let output_filename := stem file_filename ++ py "." ++ output_ext in
  Response_init content mime_type
    [(py "Content-Disposition",
      py "attachment; filename=" ++ [34%N] ++ output_filename ++ [34%N])].

(** [convert(request, file, to)], entered once [verify_auth] has let the
    request through. *)
Definition convert (request : Request) (file : UploadFile) (to : str) : M Response :=
  start_time <- time_time ;;
  let client_ip := get_client_ip request in
  match filename file with
  | None => raise (HTTPException 400 (py "Filename required"))
  | Some file_filename =>
  if negb (truthy file_filename)
  then raise (HTTPException 400 (py "Filename required"))
  else
  input_ext <- get_input_ext file_filename ;;
  let output_ext := lstrip [dot] (lower to) in
  if negb (contains (get_default CONVERSIONS input_ext []) output_ext) then
    outputs <- or_raise (get CONVERSIONS input_ext) KeyError ;;
    let available := join (py ", ") (sorted (keys outputs)) in
    raise (HTTPException 400
             (py "Cannot convert ." ++ input_ext ++ py " to ." ++ output_ext
                ++ py ". Available: " ++ available))
  else
  (* Read file content and check size *)
  file_content <- file_read file ;;
  let input_size := len file_content in
  if (input_size >? MAX_FILE_SIZE config)%Z then
    raise (HTTPException 413
             (py "File too large: " ++ str_of_int input_size ++ py " bytes. Max: "
                ++ str_of_int (MAX_FILE_SIZE config) ++ py " bytes"))
  else
  outputs <- or_raise (get CONVERSIONS input_ext) KeyError ;;
  '(filter_name, mime_type) <- or_raise (get outputs output_ext) KeyError ;;
  (* Acquire semaphore for concurrency control *)
  admission_check ;;
  content <- convert_job client_ip file_filename file_content input_ext
               output_ext filter_name input_size ;;
  convert_response start_time client_ip file_filename input_ext output_ext
    input_size mime_type content
  end.

End Service.

(* ------------------------------------------------------------------------- *)
(** ** Running a request to its end *)
(* ------------------------------------------------------------------------- *)

(** How a coroutine ends when nothing else runs in the process: it returns,
    raises, or waits for a permit for ever. *)
Inductive outcome (A : Type) : Type :=
| Returned (a : A) (s : State)
| Raised (e : exn) (s : State)
| Waiting (s : State).

Arguments Returned {A} a s.
Arguments Raised {A} e s.
Arguments Waiting {A} s.

(** The external engine as a function of the command line and of the
    temporary directories it finds. *)
Definition engine_model : Type := list str -> list (nat * directory) -> engine_result.

(** [run engine r]: resume the coroutine at every suspension with what
    [engine] answers. *)
Fixpoint run {A : Type} (engine : engine_model) (r : res A) : outcome A :=
  match r with
  | Val a s => Returned a s
  | Exn e s => Raised e s
  | Susp argv s k => run engine (k (engine argv (scratch s)) s)
  | Parked s => Waiting s
  end.

Definition final_state {A : Type} (o : outcome A) : State :=
  match o with Returned _ s | Raised _ s | Waiting s => s end.

(* ------------------------------------------------------------------------- *)
(** ** The worker process: requests served concurrently *)
(* ------------------------------------------------------------------------- *)

(** A worker process is the shared state and the handlers that are suspended
    while their engine runs.  The event loop runs one handler at a time, from
    one suspension to the next.  ([await file.read()] may suspend the handler
    too; nothing of the shared state is written before it and nothing is
    awaited between it and the [async with], so a handler is run in one piece
    from its entry to the await of the engine.) *)
Record Process := {
  shared : State;
  in_flight : list (engine_result -> State -> res Response)
}.

(** Where a handler stands when it gives control back to the event loop. *)
Definition settle (r : res Response)
    (others : list (engine_result -> State -> res Response)) : Process :=
  match r with
  | Val _ s => {| shared := s; in_flight := others |}
  | Exn _ s => {| shared := s; in_flight := others |}
  | Susp _ s k => {| shared := s; in_flight := k :: others |}
  | Parked s => {| shared := s; in_flight := others |}
  end.

Section Concurrency.

Variable config : Config.

Inductive step : Process -> Process -> Prop :=
| step_request (p : Process) (request : Request) (file : UploadFile) (to : str) :
    (* a request arrives and its handler runs up to its first suspension *)
    step p (settle (convert config request file to (shared p)) (in_flight p))
| step_engine (p : Process) (before after : list (engine_result -> State -> res Response))
    (k : engine_result -> State -> res Response) (er : engine_result) :
    (* the engine of one suspended handler is over and the handler resumes *)
    in_flight p = before ++ k :: after ->
    step p (settle (k er (shared p)) (before ++ after))
| step_time (p : Process) (now : Z) :
    (* time passes *)
    step p {| shared := set_clock now (shared p); in_flight := in_flight p |}.

(** The states of a worker from the start of [lifespan] on. *)
Inductive reachable : Process -> Prop :=
| reach_start (auth_enabled : bool) (now : Z) (s0 : State) :
    lifespan config auth_enabled now = Some s0 ->
    reachable {| shared := s0; in_flight := [] |}
| reach_step (p p' : Process) :
    reachable p -> step p p' -> reachable p'.

End Concurrency.

(* ------------------------------------------------------------------------- *)
(** ** Authentication *)
(* ------------------------------------------------------------------------- *)

(** The two authentication settings of [Config]. *)
Record AuthConfig := {
  AUTH_ENABLED : bool;
  AUTH_TOKEN : str
}.

(** [fastapi.security.HTTPAuthorizationCredentials] *)
Record HTTPAuthorizationCredentials := {
  scheme : str;
  credentials : str
}.

(** [s.partition(" ")], without the separator: what is before the first
    space and what is after it; the whole string and the empty string when
    there is no space. *)
Fixpoint partition_space (s : str) : str * str :=
  match s with
  | [] => ([], [])
  | c :: s' =>
      if char_eqb c 32%N then ([], s')
      else let (before, after) := partition_space s' in (c :: before, after)
  end.

(** [fastapi.security.utils.get_authorization_scheme_param] *)
Definition get_authorization_scheme_param (authorization : option str) : str * str :=
  match authorization with
  | Some v => if truthy v then partition_space v else ([], [])
  | None => ([], [])
  end.

(** [security = HTTPBearer(auto_error=False)], called on the value of the
    [Authorization] header: the credentials of a bearer header, [None] for
    any other header and for no header. *)
Definition security (authorization : option str) : option HTTPAuthorizationCredentials :=
  let (sch, param) := get_authorization_scheme_param authorization in
  if negb (match authorization with Some v => truthy v | None => false end
           && truthy sch && truthy param)
  then None
  else if negb (str_eqb (lower sch) (py "bearer")) then None
  else Some {| scheme := sch; credentials := param |}.

(** [verify_auth(credentials)]: verify the bearer token if authentication is
    enabled. *)
Definition verify_auth (auth : AuthConfig)
    (creds : option HTTPAuthorizationCredentials) : M unit :=
  if negb (AUTH_ENABLED auth) then ret tt
  else
    match creds with
    | None => raise (HTTPException 401 (py "Authorization header required"))
    | Some c =>
        if negb (str_eqb (credentials c) (AUTH_TOKEN auth))
        then raise (HTTPException 401 (py "Invalid token"))
        else ret tt
    end.

(* ------------------------------------------------------------------------- *)
(** ** The endpoints *)
(* ------------------------------------------------------------------------- *)

(** [POST /convert]: the dependency [verify_auth] is resolved first, then
    [convert] is called. *)
Definition post_convert (auth : AuthConfig) (config : Config)
    (authorization : option str) (request : Request) (file : UploadFile)
    (to : str) : M Response :=
  verify_auth auth (security authorization) ;;
  convert config request file to.

(** [list_formats()]: every input format with the list of its output
    formats. *)
Definition list_formats : dict (list str) :=
  map (fun entry => (fst entry, keys (snd entry))) CONVERSIONS.

(** [GET /formats] *)
Definition get_formats (auth : AuthConfig) (authorization : option str)
  : M (dict (list str)) :=
  verify_auth auth (security authorization) ;;
  ret list_formats.

(** [health()], behind [GET /health]: no dependency, no state. *)
Definition health : dict str := [(py "status", py "ok")].

(* ------------------------------------------------------------------------- *)
(** ** Formatting the log records *)
(* ------------------------------------------------------------------------- *)

Module Json.

(** The lower-case hexadecimal digit of a number below 16. *)
Definition hex_digit (n : N) : char :=
  if N.ltb n 10 then (48 + n)%N else (87 + n)%N.

(** How [json.dumps(..., ensure_ascii=False)] writes one character of a
    string: the quote, the backslash and the characters below U+0020 are
    escaped, every other character is written as it is. *)
Definition escape_char (c : char) : str :=
  if N.eqb c 34 then [92; 34]%N
  else if N.eqb c 92 then [92; 92]%N
  else if N.eqb c 10 then [92; 110]%N
  else if N.eqb c 13 then [92; 114]%N
  else if N.eqb c 9 then [92; 116]%N
  else if N.eqb c 8 then [92; 98]%N
  else if N.eqb c 12 then [92; 102]%N
  else if N.ltb c 32 then
    [92; 117; 48; 48; hex_digit (c / 16); hex_digit (c mod 16)]%N
  else [c].

Definition dumps_str (s : str) : str :=
  34%N :: flat_map escape_char s ++ [34%N].

Definition dumps_value (v : value) : str :=
  match v with
  | VStr s => dumps_str s
  | VInt n => str_of_int n
  | VBool true => py "true"
  | VBool false => py "false"
  end.

(** [json.dumps(d, ensure_ascii=False)] for a flat dictionary. *)
Definition dumps (d : dict value) : str :=
  py "{"
  ++ join (py ", ")
       (map (fun item => dumps_str (fst item) ++ py ": " ++ dumps_value (snd item)) d)
  ++ py "}".

End Json.

(** [d[k] = v] *)
Fixpoint setitem {V : Type} (d : dict V) (k : str) (v : V) : dict V :=
  match d with
  | [] => [(k, v)]
  | (k', v') :: d' =>
      if str_eqb k k' then (k', v) :: d' else (k', v') :: setitem d' k v
  end.

(** [d.update(other)] *)
Definition update {V : Type} (d other : dict V) : dict V :=
  fold_left (fun acc item => setitem acc (fst item) (snd item)) other d.

(** [logging.getLevelName(levelno)] *)
Definition getLevelName (levelno : Z) : str :=
  if (levelno =? 50)%Z then py "CRITICAL"
  else if (levelno =? 40)%Z then py "ERROR"
  else if (levelno =? 30)%Z then py "WARNING"
  else if (levelno =? 20)%Z then py "INFO"
  else if (levelno =? 10)%Z then py "DEBUG"
  else if (levelno =? 0)%Z then py "NOTSET"
  else py "Level " ++ str_of_int levelno.

(** [JSONFormatter.format(record)], with [timestamp] for
    [datetime.now(timezone.utc).isoformat()]. *)
Definition JSONFormatter_format (timestamp : str) (record : LogRecord) : str :=
  let log_data :=
    [(py "timestamp", VStr timestamp);
     (py "level", VStr (lower (getLevelName (levelno record))));
     (py "message", VStr (msg record))] in
  Json.dumps (update log_data (extra record)).

(** [logging.Formatter("%(asctime)s - %(levelname)s - %(message)s").format],
    with [asctime] for the formatted time of the record. *)
Definition Formatter_format (asctime : str) (record : LogRecord) : str :=
  asctime ++ py " - " ++ getLevelName (levelno record) ++ py " - " ++ msg record.

(** [Config.LOG_FORMAT]: [os.getenv("LOG_FORMAT", "json").lower()], with
    [env] for the value of the variable in the environment, if it is set. *)
Definition Config_LOG_FORMAT (env : option str) : str :=
  lower (match env with Some v => v | None => py "json" end).

(** The formatter [setup_logging] installs for a value of [LOG_FORMAT]. *)
Definition setup_logging (LOG_FORMAT : str) : str -> LogRecord -> str :=
  if str_eqb LOG_FORMAT (py "json") then JSONFormatter_format
  else Formatter_format.

(* ------------------------------------------------------------------------- *)
(** ** Several workers *)
(* ------------------------------------------------------------------------- *)

(** The server [gunicorn.conf.py] configures: [workers] processes, each of
    which imports the application and runs its own [lifespan]. *)
Definition Server : Type := list Process.

Section Workers.

Variable config : Config.

(** A worker as [lifespan] starts it. *)
Definition fresh (p : Process) : Prop :=
  exists auth_enabled now s0,
    lifespan config auth_enabled now = Some s0
    /\ p = {| shared := s0; in_flight := [] |}.

Inductive server_step : Server -> Server -> Prop :=
| worker_step (before after : Server) (p p' : Process) :
    (* one worker serves a request or resumes a handler *)
    step config p p' ->
    server_step (before ++ p :: after) (before ++ p' :: after)
| worker_restart (before after : Server) (p p' : Process) :
    (* one worker is replaced by a new process ([max_requests]) *)
    fresh p' ->
    server_step (before ++ p :: after) (before ++ p' :: after).

Inductive server_reachable (workers : nat) : Server -> Prop :=
| server_start (ps : Server) :
    List.length ps = workers -> Forall fresh ps -> server_reachable workers ps
| server_next (ps ps' : Server) :
    server_reachable workers ps -> server_step ps ps' ->
    server_reachable workers ps'.

End Workers.

(** The conversions in flight in the whole server. *)
Definition total_in_flight (ps : Server) : nat :=
  list_sum (map (fun p => List.length (in_flight p)) ps).

Arguments py : simpl never.
Arguments decode : simpl never.

(* ========================================================================= *)
(** * The vocabulary of the properties *)
(* ========================================================================= *)

(** [a <= b] on [str]: [b < a] does not hold. *)
Definition str_le (a b : str) : Prop := str_ltb b a = false.

(** The input extension [get_input_ext] derives from a filename. *)
Definition input_ext_of (filename : str) : str :=
  lstrip [dot] (lower (suffix filename)).

(** The output extension [convert] derives from [to]. *)
Definition output_ext_of (to : str) : str := lstrip [dot] (lower to).

(** The state once the payload has been read. *)
Definition after_read (s : State) : State := set_reads (S (reads s)) s.

(** The state once [log_event] has handled [r]. *)
Definition logged (r : LogRecord) (s : State) : State := set_sink (sink s ++ [r]) s.

(** The record [log_event(name, **kwargs)] builds. *)
Definition event (name : str) (kwargs : dict value) : LogRecord :=
  {| levelno := INFO; msg := name; extra := (py "event", VStr name) :: kwargs |}.

Section Validation.

Variable config : Config.
Variable request : Request.
Variable file : UploadFile.
Variable to : str.

(** The five ways the validation at the head of [convert] can go. *)
Inductive validation : Prop :=
| no_filename :
    filename file = None \/ filename file = Some [] -> validation
| bad_input (f : str) :
    filename file = Some f -> f <> [] ->
    contains CONVERSIONS (input_ext_of f) = false -> validation
| bad_pair (f : str) (outputs : dict rule) :
    filename file = Some f -> f <> [] ->
    get CONVERSIONS (input_ext_of f) = Some outputs ->
    contains outputs (output_ext_of to) = false -> validation
| too_large (f : str) (outputs : dict rule) :
    filename file = Some f -> f <> [] ->
    get CONVERSIONS (input_ext_of f) = Some outputs ->
    contains outputs (output_ext_of to) = true ->
    (len (payload file) > MAX_FILE_SIZE config)%Z -> validation
| valid (f : str) (outputs : dict rule) (filter_name mime_type : str) :
    filename file = Some f -> f <> [] ->
    get CONVERSIONS (input_ext_of f) = Some outputs ->
    get outputs (output_ext_of to) = Some (filter_name, mime_type) ->
    (len (payload file) <= MAX_FILE_SIZE config)%Z -> validation.

End Validation.

Section AfterValidation.

Variables (start_time : Z) (client_ip f : str) (data : bytes).
Variables (input_ext output_ext filter_name mime_type : str) (input_size : Z).

(** What is left of [convert] once the request is validated. *)
Definition admit_and_convert : M Response :=
  admission_check ;;
  content <- convert_job client_ip f data input_ext output_ext filter_name
               input_size ;;
  convert_response start_time client_ip f input_ext output_ext input_size
    mime_type content.

(** The convert-to directive and the command line of the engine. *)
Definition directive : str :=
  if truthy filter_name then output_ext ++ py ":" ++ filter_name else output_ext.

Definition command (tmpdir : nat) : list str :=
  [py "libreoffice"; py "--headless"; py "--convert-to"; directive;
   py "--outdir"; tmp_path tmpdir; joinpath (tmp_path tmpdir) f].

(** The state with a permit taken and a fresh temporary directory made. *)
Definition entered (s : State) : State :=
  let sem := conversion_semaphore s in
  let s' := set_semaphore {| _value := _value sem - 1; _waiters := _waiters sem |} s in
  set_next_tmp (S (next_tmp s)) (set_scratch ((next_tmp s, []) :: scratch s') s').

(** The state in which the handler awaits the engine. *)
Definition staged (s : State) : State :=
  match place f with
  | InScratch n => set_dir (next_tmp s) [(n, data)] (entered s)
  | _ => entered s
  end.

(** Leaving the two [with] blocks. *)
Definition left (tmpdir : nat) (s : State) : State := release (rmtree tmpdir s).

Definition timeout_event : LogRecord :=
  event (py "conversion_timeout")
    [(py "input_format", VStr input_ext);
     (py "output_format", VStr output_ext);
     (py "input_size_bytes", VInt input_size);
     (py "client_ip", VStr client_ip)].

Definition error_event (text : str) : LogRecord :=
  event (py "conversion_error")
    [(py "input_format", VStr input_ext);
     (py "output_format", VStr output_ext);
     (py "error", VStr (firstn 500 text));
     (py "client_ip", VStr client_ip)].

Definition complete_event (output_size duration_ms : Z) : LogRecord :=
  event (py "conversion_complete")
    [(py "input_format", VStr input_ext);
     (py "output_format", VStr output_ext);
     (py "input_size_bytes", VInt input_size);
     (py "output_size_bytes", VInt output_size);
     (py "duration_ms", VInt duration_ms);
     (py "client_ip", VStr client_ip)].

(** The value of the [Content-Disposition] header. *)
Definition disposition : str :=
  py "attachment; filename=" ++ [34%N] ++ (stem f ++ py "." ++ output_ext)
    ++ [34%N].

(** The value of the [content-type] header: the media type, with the
    character set for the text types. *)
Definition content_type : str :=
  if (startswith (py "text/") mime_type
      && negb (str_in (py "charset=") (lower mime_type)))%bool
  then mime_type ++ py "; charset=utf-8"
  else mime_type.

(** The response can be constructed: its headers are latin-1 text. *)
Definition encodable : bool :=
  (encodable_latin1 disposition && encodable_latin1 content_type)%bool.

Definition response (content : bytes) : Response :=
  {| content := content;
     media_type := mime_type;
     headers := [(py "content-disposition", disposition);
                 (py "content-length", str_of_int (len content));
                 (py "content-type", content_type)] |}.

(** The files of [tmpdir] that match the output pattern. *)
Definition output_files (tmpdir : nat) (s : State) : list (str * bytes) :=
  filter (fun e => fnmatch (py "*." ++ output_ext) (fst e)) (listdir tmpdir s).

(** The rest of the handler once the engine is over, in closed form. *)
Definition resume (tmpdir : nat) (er : engine_result) (s : State) : res Response :=
  match er with
  | NotStarted => Exn OSError (left tmpdir s)
  | Killed entries =>
      Exn (HTTPException 504 (py "Conversion timed out"))
          (left tmpdir (logged timeout_event (set_dir tmpdir entries s)))
  | Completed rc err entries =>
      let s' := set_dir tmpdir entries s in
      if (rc =? 0)%Z then
        match output_files tmpdir s' with
        | [] => Exn (HTTPException 500 (py "Conversion produced no output"))
                    (left tmpdir s')
        | (_, content) :: _ =>
            let s'' := left tmpdir s' in
            let s3 :=
              logged (complete_event (len content) (clock s'' - start_time)) s'' in
            if encodable then Val (response content) s3
            else Exn UnicodeEncodeError s3
        end
      else
        match decode err with
        | None => Exn UnicodeDecodeError (left tmpdir s')
        | Some text =>
            Exn (HTTPException 500 (py "Conversion failed: " ++ text))
                (left tmpdir (logged (error_event text) s'))
        end
  end.

End AfterValidation.

Section Handled.

Variable config : Config.
Variable request : Request.
Variable file : UploadFile.
Variable to : str.

(** Every way [convert] can go from a state [s] up to its first suspension:
    the four validation failures, the rejection by [admission_check], the wait
    in the queue of the semaphore, the failure to write the input file, and
    the suspension while the engine runs, with the rest of the handler [k]. *)
Inductive handled (s : State) : res Response -> Prop :=
| handled_no_filename :
    filename file = None \/ filename file = Some [] ->
    handled s (Exn (HTTPException 400 (py "Filename required")) s)
| handled_bad_input (f : str) :
    filename file = Some f -> f <> [] ->
    contains CONVERSIONS (input_ext_of f) = false ->
    handled s
      (Exn (HTTPException 400
              (py "Unsupported input format: ." ++ input_ext_of f
                 ++ py ". Supported: "
                 ++ join (py ", ") (sorted (keys CONVERSIONS)))) s)
| handled_bad_pair (f : str) (outputs : dict rule) :
    filename file = Some f -> f <> [] ->
    get CONVERSIONS (input_ext_of f) = Some outputs ->
    contains outputs (output_ext_of to) = false ->
    handled s
      (Exn (HTTPException 400
              (py "Cannot convert ." ++ input_ext_of f ++ py " to ."
                 ++ output_ext_of to ++ py ". Available: "
                 ++ join (py ", ") (sorted (keys outputs)))) s)
| handled_too_large (f : str) (outputs : dict rule) :
    filename file = Some f -> f <> [] ->
    get CONVERSIONS (input_ext_of f) = Some outputs ->
    contains outputs (output_ext_of to) = true ->
    (len (payload file) > MAX_FILE_SIZE config)%Z ->
    handled s
      (Exn (HTTPException 413
              (py "File too large: " ++ str_of_int (len (payload file))
                 ++ py " bytes. Max: " ++ str_of_int (MAX_FILE_SIZE config)
                 ++ py " bytes")) (after_read s))
| handled_rejected (f : str) (outputs : dict rule) (filter_name mime_type : str) :
    filename file = Some f -> f <> [] ->
    get CONVERSIONS (input_ext_of f) = Some outputs ->
    get outputs (output_ext_of to) = Some (filter_name, mime_type) ->
    (len (payload file) <= MAX_FILE_SIZE config)%Z ->
    locked (conversion_semaphore s) = true ->
    (_value (conversion_semaphore s) >? 0)%Z = false ->
    handled s
      (Exn (HTTPException 429
              (py "Too many concurrent requests. Please retry later."))
           (after_read s))
| handled_parked (f : str) (outputs : dict rule) (filter_name mime_type : str) :
    filename file = Some f -> f <> [] ->
    get CONVERSIONS (input_ext_of f) = Some outputs ->
    get outputs (output_ext_of to) = Some (filter_name, mime_type) ->
    (len (payload file) <= MAX_FILE_SIZE config)%Z ->
    locked (conversion_semaphore s) = true ->
    (_value (conversion_semaphore s) >? 0)%Z = true ->
    handled s
      (Parked (set_semaphore
                 {| _value := _value (conversion_semaphore s);
                    _waiters := S (_waiters (conversion_semaphore s)) |}
                 (after_read s)))
| handled_unwritable (f : str) (outputs : dict rule) (filter_name mime_type : str) :
    filename file = Some f -> f <> [] ->
    get CONVERSIONS (input_ext_of f) = Some outputs ->
    get outputs (output_ext_of to) = Some (filter_name, mime_type) ->
    (len (payload file) <= MAX_FILE_SIZE config)%Z ->
    locked (conversion_semaphore s) = false ->
    place f = Unwritable ->
    handled s (Exn OSError (left (next_tmp s) (entered (after_read s))))
| handled_suspended (f : str) (outputs : dict rule) (filter_name mime_type : str)
    (k : engine_result -> State -> res Response) :
    filename file = Some f -> f <> [] ->
    get CONVERSIONS (input_ext_of f) = Some outputs ->
    get outputs (output_ext_of to) = Some (filter_name, mime_type) ->
    (len (payload file) <= MAX_FILE_SIZE config)%Z ->
    locked (conversion_semaphore s) = false ->
    place f <> Unwritable ->
    (forall er s2,
        k er s2
        = resume (clock s) (get_client_ip request) f (input_ext_of f)
            (output_ext_of to) mime_type (len (payload file)) (next_tmp s) er s2) ->
    handled s
      (Susp (command f (output_ext_of to) filter_name (next_tmp s))
            (staged f (payload file) (after_read s)) k).

End Handled.

(** The command a suspended coroutine has handed to the executor. *)
Definition awaited_argv {A : Type} (r : res A) : list str :=
  match r with Susp argv _ _ => argv | _ => [] end.

(** The state a coroutine has reached. *)
Definition state_of {A : Type} (r : res A) : State :=
  match r with Val _ s | Exn _ s | Susp _ s _ | Parked s => s end.

(** The rest of a suspended coroutine. *)
Definition rest_of (r : res Response) : engine_result -> State -> res Response :=
  match r with Susp _ _ k => k | _ => fun _ s => Parked s end.

(** The requests that get as far as [admission_check]: the filename is
    present, the pair of extensions is declared and the payload is not too
    large. *)
Definition reaches_admission (config : Config) (file : UploadFile) (to : str) : bool :=
  match filename file with
  | Some f =>
      truthy f
      && match get CONVERSIONS (input_ext_of f) with
         | Some outputs => contains outputs (output_ext_of to)
         | None => false
         end
      && (len (payload file) <=? MAX_FILE_SIZE config)%Z
  | None => false
  end.

(** The number of records the logger has handled between two states. *)
Definition events_between (before after : State) : Z :=
  len (sink after) - len (sink before).

(** No string occurs twice in [l]. *)
Fixpoint all_distinct (l : list str) : bool :=
  match l with
  | [] => true
  | x :: l' => negb (existsb (str_eqb x) l') && all_distinct l'
  end.

(** A non-empty word of the letters a-z. *)
Definition lowercase_word (w : str) : bool :=
  (truthy w && forallb (fun c => N.leb 97 c && N.leb c 122) w)%bool.

(** A pattern without [*] and [?] matches itself only. *)
Definition literal (pat : str) : bool :=
  forallb (fun c => negb (char_eqb c 42%N) && negb (char_eqb c 63%N))%bool pat.

Section PoolInvariant.

Variable config : Config.

(** A suspended handler that, once resumed, ends at once and gives its permit
    back. *)
Definition holds_permit (k : engine_result -> State -> res Response) : Prop :=
  forall er s, exists s',
    ((exists resp, k er s = Val resp s') \/ (exists e, k er s = Exn e s'))
    /\ conversion_semaphore s' = conversion_semaphore (release s).

(** What holds of the semaphore in every state of a worker: nothing waits in
    its queue, and its counter is [MAX_CONCURRENT] minus the number of
    handlers in flight, each of which holds a permit. *)
Definition pool_invariant (p : Process) : Prop :=
  let sem := conversion_semaphore (shared p) in
  _waiters sem = 0
  /\ (0 <= _value sem)%Z
  /\ (_value sem + Z.of_nat (List.length (in_flight p)) = MAX_CONCURRENT config)%Z
  /\ Forall holds_permit (in_flight p).

End PoolInvariant.

(* ------------------------------------------------------------------------- *)
(** ** Concrete requests, states and engines *)
(* ------------------------------------------------------------------------- *)

(** The default configuration, and one with room for a single conversion. *)
Definition demo_config : Config :=
  {| TIMEOUT := 300; MAX_FILE_SIZE := 524288000; MAX_CONCURRENT := 10 |}.

Definition small_config : Config :=
  {| TIMEOUT := 300; MAX_FILE_SIZE := 5; MAX_CONCURRENT := 1 |}.

Definition demo_state : State :=
  {| conversion_semaphore := {| _value := 10; _waiters := 0 |};
     scratch := []; next_tmp := 0; sink := []; reads := 0; clock := 0 |}.

Definition demo_request : Request :=
  {| x_forwarded_for := None; client := Some (py "203.0.113.7") |}.

Definition upload (name : string) (data : string) : UploadFile :=
  {| filename := Some (py name); payload := ascii_bytes data |}.

(** An engine that exits with status 0 and writes nothing. *)
Definition idle_engine : engine_model := fun _ fs =>
  Completed 0 [] (match fs with (_, entries) :: _ => entries | [] => [] end).

(** An engine that exits with status 0 after writing [report.pdf]. *)
Definition pdf_engine : engine_model := fun _ fs =>
  Completed 0 []
    (match fs with (_, entries) :: _ => entries | [] => [] end
     ++ [(py "report.pdf", ascii_bytes "%PDF-1.7")]).


(** A worker with [MAX_CONCURRENT = 1], as [lifespan] starts it. *)
Definition idle_process : Process :=
  {| shared :=
       {| conversion_semaphore := {| _value := 1; _waiters := 0 |};
          scratch := []; next_tmp := 0;
          sink := [event (py "startup")
                     [(py "auth_enabled", VBool false);
                      (py "max_concurrent", VInt 1);
                      (py "max_file_size", VInt 5);
                      (py "timeout", VInt 300)]];
          reads := 0; clock := 0 |};
     in_flight := [] |}.

(** A worker with [MAX_CONCURRENT = 1] and one conversion in flight. *)
Definition busy_process : Process :=
  settle (convert small_config demo_request (upload "first.docx" "abc") (py "pdf")
            {| conversion_semaphore := {| _value := 1; _waiters := 0 |};
               scratch := []; next_tmp := 0;
               sink := [event (py "startup")
                          [(py "auth_enabled", VBool false);
                           (py "max_concurrent", VInt 1);
                           (py "max_file_size", VInt 5);
                           (py "timeout", VInt 300)]];
               reads := 0; clock := 0 |}) [].

(** [n] requests arrive one after the other while no engine finishes. *)
Fixpoint arrivals (config : Config) (n : nat) (p : Process) : Process :=
  match n with
  | O => p
  | S n' =>
      arrivals config n'
        (settle (convert config demo_request (upload "report.docx" "hello")
                   (py "pdf") (shared p)) (in_flight p))
  end.

(** A deployment with authentication switched on. *)
Definition secured : AuthConfig :=
  {| AUTH_ENABLED := true; AUTH_TOKEN := py "s3cret" |}.

(** A string of ASCII characters.  On such strings [lower] is exactly
    [str.lower]. *)
Definition ascii_text (s : str) : bool := forallb (fun c => N.ltb c 128) s.

(** A filename that is a single path component: not empty, no [/], and
    neither [.] nor [..]. *)
Definition plain_name (f : str) : bool :=
  (truthy f && negb (existsb (char_eqb Pathlib.sep) f)
   && negb (str_eqb f [Pathlib.dot]) && negb (str_eqb f dotdot))%bool.

(** Two workers with one permit each, both busy: two conversions in flight
    with [MAX_CONCURRENT = 1]. *)
Definition two_busy_workers : Server := [busy_process; busy_process].

(** A deployment whose pool has no permit. *)
Definition closed_config : Config :=
  {| TIMEOUT := 300; MAX_FILE_SIZE := 524288000; MAX_CONCURRENT := 0 |}.

(** Evaluates the string literals of the goal. *)
Ltac py_eval :=
  repeat match goal with
         | |- context [py ?l] =>
             let v := eval vm_compute in (py l) in change (py l) with v
         end.

(* ========================================================================= *)
(** * Properties *)
(* ========================================================================= *)

(* ------------------------------------------------------------------------- *)
(** ** Strings, sorting and dictionaries *)
(* ------------------------------------------------------------------------- *)

Lemma str_eqb_eq (a b : str) : str_eqb a b = true <-> a = b.
Proof.
  revert b; induction a as [|x a IH]; intros [|y b]; simpl; split; intros H;
    try reflexivity; try discriminate.
  - apply andb_true_iff in H as [Hx Hab]. apply N.eqb_eq in Hx.
    apply IH in Hab. now subst.
  - injection H as -> ->. apply andb_true_iff. split.
    + apply N.eqb_refl.
    + now apply IH.
Qed.

Lemma str_eqb_refl (a : str) : str_eqb a a = true.
Proof. now apply str_eqb_eq. Qed.

Lemma str_eqb_neq (a b : str) : str_eqb a b = false <-> a <> b.
Proof.
  split.
  - intros H E. apply str_eqb_eq in E. congruence.
  - intros H. destruct (str_eqb a b) eqn:E; [|reflexivity].
    apply str_eqb_eq in E. contradiction.
Qed.

Lemma str_ltb_cons (x y : char) (a b : str) :
  str_ltb (x :: a) (y :: b) = true <-> (x < y)%N \/ (x = y /\ str_ltb a b = true).
Proof.
  simpl. rewrite orb_true_iff, andb_true_iff, N.ltb_lt, N.eqb_eq. tauto.
Qed.

Lemma str_ltb_asym (a b : str) : str_ltb a b = true -> str_ltb b a = false.
Proof.
  revert b; induction a as [|x a IH]; intros [|y b] H; try reflexivity;
    try discriminate.
  apply str_ltb_cons in H. apply not_true_is_false. intros H'.
  apply str_ltb_cons in H'.
  destruct H as [H|[-> H]], H' as [H'|[E H']]; try lia.
  apply IH in H. congruence.
Qed.

Lemma str_le_trans (a b c : str) : str_le a b -> str_le b c -> str_le a c.
Proof.
  unfold str_le. revert b c; induction a as [|x a IH]; intros b c Hab Hbc.
  - destruct c; reflexivity.
  - destruct b as [|y b]; [discriminate Hab|].
    destruct c as [|z c]; [discriminate Hbc|].
    apply not_true_is_false. intros Hca. apply str_ltb_cons in Hca.
    assert (Hba : ~ ((y < x)%N \/ (y = x /\ str_ltb b a = true))).
    { rewrite <- str_ltb_cons. congruence. }
    assert (Hcb : ~ ((z < y)%N \/ (z = y /\ str_ltb c b = true))).
    { rewrite <- str_ltb_cons. congruence. }
    destruct Hca as [Hca|[-> Hca]].
    + destruct (N.lt_trichotomy y x) as [?|[->|?]]; [tauto| |].
      * tauto.
      * destruct (N.lt_trichotomy z y) as [?|[->|?]]; [tauto| |]; lia.
    + destruct (N.lt_trichotomy y x) as [?|[->|?]]; [tauto| |].
      * destruct (str_ltb b a) eqn:Eba; [tauto|].
        destruct (str_ltb c b) eqn:Ecb; [tauto|].
        specialize (IH b c Eba Ecb). congruence.
      * tauto.
Qed.

Lemma str_le_total (a b : str) : str_le a b \/ str_le b a.
Proof.
  unfold str_le. destruct (str_ltb a b) eqn:E.
  - left. now apply str_ltb_asym.
  - now right.
Qed.

Lemma insert_Permutation (x : str) (l : list str) :
  Permutation (x :: l) (insert x l).
Proof.
  induction l as [|y l IH]; simpl; [reflexivity|].
  destruct (str_ltb y x); [|reflexivity].
  rewrite perm_swap. now constructor.
Qed.

Lemma sorted_Permutation (l : list str) : Permutation l (sorted l).
Proof.
  induction l as [|x l IH]; simpl; [constructor|].
  rewrite <- insert_Permutation. now constructor.
Qed.

Lemma insert_StronglySorted (x : str) (l : list str) :
  StronglySorted str_le l -> StronglySorted str_le (insert x l).
Proof.
  induction 1 as [|y l Hs IH Hall]; simpl.
  - constructor; constructor.
  - destruct (str_ltb y x) eqn:E.
    + constructor; [assumption|].
      eapply Permutation_Forall; [apply insert_Permutation|].
      constructor; [|assumption]. now apply str_ltb_asym.
    + constructor; [now constructor|].
      constructor; [exact E|].
      eapply Forall_impl; [|exact Hall].
      intros z Hz. now apply str_le_trans with y.
Qed.

Lemma sorted_StronglySorted (l : list str) : StronglySorted str_le (sorted l).
Proof.
  induction l as [|x l IH]; simpl; [constructor|].
  now apply insert_StronglySorted.
Qed.

Lemma sorted_In (l : list str) (x : str) : In x (sorted l) <-> In x l.
Proof.
  split; apply Permutation_in; [symmetry|]; apply sorted_Permutation.
Qed.

Lemma contains_keys {V : Type} (d : dict V) (k : str) :
  contains d k = true <-> In k (keys d).
Proof.
  unfold contains. induction d as [|[k' v] d IH]; simpl.
  - split; [discriminate|tauto].
  - destruct (str_eqb k k') eqn:E.
    + apply str_eqb_eq in E. subst. tauto.
    + apply str_eqb_neq in E. rewrite IH. split; [tauto|].
      intros [H|H]; [congruence|assumption].
Qed.

Lemma contains_get {V : Type} (d : dict V) (k : str) :
  contains d k = true -> exists v, get d k = Some v.
Proof.
  unfold contains. destruct (get d k) as [v|]; [eauto|discriminate].
Qed.

(* ------------------------------------------------------------------------- *)
(** ** The handler, stage by stage *)
(* ------------------------------------------------------------------------- *)

Section Stages.

Variable config : Config.
Variable request : Request.
Variable file : UploadFile.
Variable to : str.

Lemma validation_cases : validation config file to.
Proof.
  destruct (filename file) as [f|] eqn:Ef; [|apply no_filename; now left].
  destruct f as [|c f]; [apply no_filename; now right|].
  set (name := c :: f) in *.
  assert (Hname : name <> []) by (subst name; discriminate).
  destruct (get CONVERSIONS (input_ext_of name)) as [outputs|] eqn:Ei.
  - destruct (get outputs (output_ext_of to)) as [[filter_name mime_type]|] eqn:Eo.
    + destruct (Z_le_gt_dec (len (payload file)) (MAX_FILE_SIZE config)).
      * eapply valid; eauto.
      * eapply too_large; eauto. unfold contains. now rewrite Eo.
    + eapply bad_pair; eauto. unfold contains. now rewrite Eo.
  - eapply bad_input; eauto. unfold contains. now rewrite Ei.
Qed.

Lemma convert_no_filename (s : State) :
  filename file = None \/ filename file = Some [] ->
  convert config request file to s
  = Exn (HTTPException 400 (py "Filename required")) s.
Proof.
  intros [H|H]; unfold convert, bind; cbn [time_time bind_res]; rewrite H;
    reflexivity.
Qed.

Lemma convert_bad_input (s : State) (f : str) :
  filename file = Some f -> f <> [] ->
  contains CONVERSIONS (input_ext_of f) = false ->
  convert config request file to s
  = Exn (HTTPException 400
           (py "Unsupported input format: ." ++ input_ext_of f
              ++ py ". Supported: " ++ join (py ", ") (sorted (keys CONVERSIONS))))
        s.
Proof.
  intros Hf Hne Hc. unfold convert, bind; cbn [time_time bind_res]. rewrite Hf.
  destruct f as [|c f]; [contradiction|]. cbn [truthy negb].
  unfold get_input_ext. fold (input_ext_of (c :: f)). rewrite Hc. reflexivity.
Qed.

Lemma convert_bad_pair (s : State) (f : str) (outputs : dict rule) :
  filename file = Some f -> f <> [] ->
  get CONVERSIONS (input_ext_of f) = Some outputs ->
  contains outputs (output_ext_of to) = false ->
  convert config request file to s
  = Exn (HTTPException 400
           (py "Cannot convert ." ++ input_ext_of f ++ py " to ."
              ++ output_ext_of to ++ py ". Available: "
              ++ join (py ", ") (sorted (keys outputs))))
        s.
Proof.
  intros Hf Hne Hi Ho. unfold convert, bind; cbn [time_time bind_res]. rewrite Hf.
  destruct f as [|c f]; [contradiction|]. cbn [truthy negb].
  unfold get_input_ext. fold (input_ext_of (c :: f)). fold (output_ext_of to).
  unfold contains at 1. rewrite Hi. cbn [negb ret bind_res].
  unfold get_default. rewrite Hi, Ho. cbn [negb]. unfold bind.
  cbn [or_raise ret bind_res]. reflexivity.
Qed.

Lemma convert_too_large (s : State) (f : str) (outputs : dict rule) :
  filename file = Some f -> f <> [] ->
  get CONVERSIONS (input_ext_of f) = Some outputs ->
  contains outputs (output_ext_of to) = true ->
  (len (payload file) > MAX_FILE_SIZE config)%Z ->
  convert config request file to s
  = Exn (HTTPException 413
           (py "File too large: " ++ str_of_int (len (payload file))
              ++ py " bytes. Max: " ++ str_of_int (MAX_FILE_SIZE config)
              ++ py " bytes"))
        (after_read s).
Proof.
  intros Hf Hne Hi Ho Hsz. unfold convert, bind; cbn [time_time bind_res].
  rewrite Hf. destruct f as [|c f]; [contradiction|]. cbn [truthy negb].
  unfold get_input_ext. fold (input_ext_of (c :: f)). fold (output_ext_of to).
  unfold contains at 1. rewrite Hi. cbn [negb ret bind_res].
  unfold get_default. rewrite Hi, Ho. cbn [negb]. unfold bind.
  cbn [file_read bind_res].
  replace (len (payload file) >? MAX_FILE_SIZE config)%Z with true
    by (symmetry; apply Z.gtb_lt; lia).
  reflexivity.
Qed.

Lemma convert_valid (s : State) (f : str) (outputs : dict rule)
    (filter_name mime_type : str) :
  filename file = Some f -> f <> [] ->
  get CONVERSIONS (input_ext_of f) = Some outputs ->
  get outputs (output_ext_of to) = Some (filter_name, mime_type) ->
  (len (payload file) <= MAX_FILE_SIZE config)%Z ->
  convert config request file to s
  = (admission_check ;;
     content <- convert_job (get_client_ip request) f (payload file)
                  (input_ext_of f) (output_ext_of to) filter_name
                  (len (payload file)) ;;
     convert_response (clock s) (get_client_ip request) f (input_ext_of f)
       (output_ext_of to) (len (payload file)) mime_type content)
      (after_read s).
Proof.
  intros Hf Hne Hi Ho Hsz. unfold convert. unfold bind at 1.
  cbn [time_time bind_res].
  rewrite Hf. destruct f as [|c f]; [contradiction|]. cbn [truthy negb].
  unfold get_input_ext. fold (input_ext_of (c :: f)). fold (output_ext_of to).
  unfold contains at 1. rewrite Hi. cbn [negb]. unfold bind at 1.
  cbn [ret bind_res].
  unfold get_default, contains. rewrite Hi, Ho. cbn [negb]. unfold bind at 1.
  cbn [file_read bind_res]. fold (after_read s).
  replace (len (payload file) >? MAX_FILE_SIZE config)%Z with false
    by (symmetry; rewrite Z.gtb_ltb; apply Z.ltb_ge; lia).
  unfold bind at 1. cbn [or_raise ret bind_res].
  unfold bind at 1. rewrite Ho. cbn [or_raise ret bind_res].
  reflexivity.
Qed.

End Stages.

Section AfterValidationFacts.

Variables (start_time : Z) (client_ip f : str) (data : bytes).
Variables (input_ext output_ext filter_name mime_type : str) (input_size : Z).

Lemma admit_rejected (s : State) :
  locked (conversion_semaphore s) = true ->
  (_value (conversion_semaphore s) >? 0)%Z = false ->
  admit_and_convert start_time client_ip f data input_ext output_ext
    filter_name mime_type input_size s
  = Exn (HTTPException 429 (py "Too many concurrent requests. Please retry later.")) s.
Proof.
  intros Hl Hv. unfold admit_and_convert, bind at 1, admission_check.
  rewrite Hl, Hv. reflexivity.
Qed.

Lemma admit_parked (s : State) :
  locked (conversion_semaphore s) = true ->
  (_value (conversion_semaphore s) >? 0)%Z = true ->
  admit_and_convert start_time client_ip f data input_ext output_ext
    filter_name mime_type input_size s
  = Parked (set_semaphore
              {| _value := _value (conversion_semaphore s);
                 _waiters := S (_waiters (conversion_semaphore s)) |} s).
Proof.
  intros Hl Hv. unfold admit_and_convert, bind at 1, admission_check.
  rewrite Hl, Hv. cbn [negb orb bind_res].
  unfold bind at 1, convert_job, async_with, bind at 1, acquire.
  rewrite Hl. reflexivity.
Qed.

Lemma listdir_entered (s : State) : listdir (next_tmp s) (entered s) = [].
Proof. unfold listdir, entered. cbn. now rewrite Nat.eqb_refl. Qed.

Lemma admit_unwritable (s : State) :
  locked (conversion_semaphore s) = false ->
  place f = Unwritable ->
  admit_and_convert start_time client_ip f data input_ext output_ext
    filter_name mime_type input_size s = Exn OSError (left (next_tmp s) (entered s)).
Proof.
  intros Hl Hp. unfold admit_and_convert, bind at 1, admission_check.
  rewrite Hl. cbn [negb orb bind_res].
  unfold bind at 1, convert_job, async_with, bind at 1, acquire.
  rewrite Hl. cbn [negb bind_res].
  unfold try_finally, with_TemporaryDirectory, bind at 1, mkdtemp.
  cbn [bind_res]. unfold try_finally, bind at 1, open_write. rewrite Hp.
  reflexivity.
Qed.

(** The job on its own, for any filter name: when it awaits the engine, the
    command is [command]. *)
Lemma convert_job_command (s : State) (argv : list str) (s1 : State)
    (k : engine_result -> State -> res bytes) :
  convert_job client_ip f data input_ext output_ext filter_name input_size s
  = Susp argv s1 k ->
  locked (conversion_semaphore s) = false
  /\ place f <> Unwritable
  /\ argv = command f output_ext filter_name (next_tmp s)
  /\ s1 = staged f data s.
Proof.
  unfold convert_job, async_with, bind at 1, acquire.
  destruct (locked (conversion_semaphore s)) eqn:Hl; cbn [negb bind_res];
    [discriminate|].
  unfold try_finally, with_TemporaryDirectory, bind at 1, mkdtemp.
  cbn [bind_res]. fold (entered s).
  unfold try_finally, bind at 1, open_write, staged.
  destruct (place f) as [n| |] eqn:Ep.
  - change (listdir _ _) with (listdir (next_tmp s) (entered s)).
    rewrite listdir_entered. cbn [write_entry bind_res].
    unfold bind at 1, try_except, run_in_executor.
    cbn [except_res bind_res finally_res].
    intros [= <- <- _]. repeat split; discriminate.
  - cbn [ret bind_res].
    unfold bind at 1, try_except, run_in_executor.
    cbn [except_res bind_res finally_res].
    intros [= <- <- _]. repeat split; discriminate.
  - cbn [raise bind_res finally_res]. discriminate.
Qed.

(** The constructor of the response, called as [convert] calls it. *)
Lemma Response_init_disposition (content : bytes) (s : State) :
  Response_init content mime_type
    [(py "Content-Disposition", disposition f output_ext)] s
  = if encodable f output_ext mime_type
    then Val (response f output_ext mime_type content) s
    else Exn UnicodeEncodeError s.
Proof.
  unfold Response_init, init_headers, encodable, response.
  cbn [forallb map fst snd existsb].
  replace (encodable_latin1 (lower (py "Content-Disposition"))) with true
    by (vm_compute; reflexivity).
  replace (lower (py "Content-Disposition")) with (py "content-disposition")
    by (vm_compute; reflexivity).
  replace (str_eqb (py "content-length") (py "content-disposition")) with false
    by (vm_compute; reflexivity).
  replace (str_eqb (py "content-type") (py "content-disposition")) with false
    by (vm_compute; reflexivity).
  replace (py "; charset=" ++ py "utf-8") with (py "; charset=utf-8")
    by (vm_compute; reflexivity).
  cbn [andb orb negb app]. unfold content_type. rewrite andb_true_r.
  destruct (encodable_latin1 (disposition f output_ext)); [|reflexivity].
  cbn [andb].
  destruct (startswith (py "text/") mime_type
            && negb (str_in (py "charset=") (lower mime_type)))%bool;
    cbv iota;
    match goal with
    | |- context [if ?b then Some _ else None] => destruct b
    end; reflexivity.
Qed.

(** The end of the handler: one record, then the response or the failure to
    construct it. *)
Lemma convert_response_eq (content : bytes) (s : State) :
  convert_response start_time client_ip f input_ext output_ext input_size
    mime_type content s
  = let s' := logged (complete_event client_ip input_ext output_ext input_size
                        (len content) (clock s - start_time)) s in
    if encodable f output_ext mime_type
    then Val (response f output_ext mime_type content) s'
    else Exn UnicodeEncodeError s'.
Proof.
  unfold convert_response, bind. cbn [time_time bind_res log_event].
  apply Response_init_disposition.
Qed.

Lemma admit_suspended (s : State) :
  locked (conversion_semaphore s) = false ->
  place f <> Unwritable ->
  exists k,
    admit_and_convert start_time client_ip f data input_ext output_ext
    filter_name mime_type input_size s
    = Susp (command f output_ext filter_name (next_tmp s)) (staged f data s) k
    /\ forall er s2,
        k er s2
        = resume start_time client_ip f input_ext output_ext mime_type input_size
            (next_tmp s) er s2.
Proof.
  intros Hl Hp. unfold admit_and_convert, bind at 1, admission_check.
  rewrite Hl. cbn [negb orb bind_res].
  unfold bind at 1, convert_job, async_with, bind at 1, acquire.
  rewrite Hl. cbn [negb bind_res].
  unfold try_finally, with_TemporaryDirectory, bind at 1, mkdtemp.
  cbn [bind_res]. fold (entered s).
  unfold try_finally, bind at 1, open_write, staged.
  destruct (place f) as [n| |] eqn:Ep; [| |contradiction].
  - change (listdir _ _) with (listdir (next_tmp s) (entered s)).
    rewrite listdir_entered. cbn [write_entry bind_res].
    unfold bind at 1, try_except, run_in_executor. cbn [except_res bind_res finally_res].
    eexists. split; [reflexivity|].
    intros er s2. destruct er as [rc err entries|entries|]; cbn.
    + destruct (rc =? 0)%Z; cbn.
      * unfold output_files.
        destruct (filter _ _) as [|[n' content] rest]; [reflexivity|].
        cbn [ret finally_res bind_res].
        exact (convert_response_eq content
                 (left (next_tmp s) (set_dir (next_tmp s) entries s2))).
      * destruct (decode err); reflexivity.
    + reflexivity.
    + reflexivity.
  - cbn [ret bind_res].
    unfold bind at 1, try_except, run_in_executor. cbn [except_res bind_res finally_res].
    eexists. split; [reflexivity|].
    intros er s2. destruct er as [rc err entries|entries|]; cbn.
    + destruct (rc =? 0)%Z; cbn.
      * unfold output_files.
        destruct (filter _ _) as [|[n' content] rest]; [reflexivity|].
        cbn [ret finally_res bind_res].
        exact (convert_response_eq content
                 (left (next_tmp s) (set_dir (next_tmp s) entries s2))).
      * destruct (decode err); reflexivity.
    + reflexivity.
    + reflexivity.
Qed.

End AfterValidationFacts.

Section Handler.

Variable config : Config.
Variable request : Request.
Variable file : UploadFile.
Variable to : str.

Lemma convert_handled (s : State) :
  handled config request file to s (convert config request file to s).
Proof.
  destruct (validation_cases config file to)
    as [H|f Hf Hne Hi|f outputs Hf Hne Hi Ho|f outputs Hf Hne Hi Ho Hsz
        |f outputs filter_name mime_type Hf Hne Hi Ho Hsz].
  - rewrite convert_no_filename by assumption. now constructor.
  - rewrite (convert_bad_input _ _ _ _ s f) by assumption. now constructor.
  - rewrite (convert_bad_pair _ _ _ _ s f outputs) by assumption.
    now apply handled_bad_pair.
  - rewrite (convert_too_large _ _ _ _ s f outputs) by assumption.
    now apply handled_too_large with (f := f) (outputs := outputs).
  - rewrite (convert_valid _ _ _ _ s f outputs filter_name mime_type) by assumption.
    fold (admit_and_convert (clock s) (get_client_ip request) f (payload file)
            (input_ext_of f) (output_ext_of to) filter_name mime_type
            (len (payload file))).
    assert (Hsem : conversion_semaphore (after_read s) = conversion_semaphore s)
      by reflexivity.
    destruct (locked (conversion_semaphore s)) eqn:Hl.
    + destruct (_value (conversion_semaphore s) >? 0)%Z eqn:Hv.
      * rewrite admit_parked by (rewrite Hsem; assumption).
        rewrite Hsem. now apply handled_parked with (f := f) (outputs := outputs) (filter_name := filter_name) (mime_type := mime_type).
      * rewrite admit_rejected by (rewrite Hsem; assumption).
        now apply handled_rejected with (f := f) (outputs := outputs) (filter_name := filter_name) (mime_type := mime_type).
    + destruct (place f) eqn:Hp.
      * destruct (admit_suspended (clock s) (get_client_ip request) f
                    (payload file) (input_ext_of f) (output_ext_of to)
                    filter_name mime_type (len (payload file)) (after_read s))
          as (k & -> & Hk); [rewrite Hsem; assumption|congruence|].
        change (next_tmp (after_read s)) with (next_tmp s) in *.
        apply handled_suspended with (outputs := outputs) (mime_type := mime_type);
          try assumption.
        congruence.
      * destruct (admit_suspended (clock s) (get_client_ip request) f
                    (payload file) (input_ext_of f) (output_ext_of to)
                    filter_name mime_type (len (payload file)) (after_read s))
          as (k & -> & Hk); [rewrite Hsem; assumption|congruence|].
        change (next_tmp (after_read s)) with (next_tmp s) in *.
        apply handled_suspended with (outputs := outputs) (mime_type := mime_type);
          try assumption.
        congruence.
      * rewrite admit_unwritable by (try rewrite Hsem; assumption).
        change (next_tmp (after_read s)) with (next_tmp s).
        now apply handled_unwritable with (f := f) (outputs := outputs) (filter_name := filter_name) (mime_type := mime_type).
Qed.

End Handler.

(* ------------------------------------------------------------------------- *)
(** ** The format table *)
(* ------------------------------------------------------------------------- *)

Lemma get_In {V : Type} (d : dict V) (k : str) (v : V) :
  get d k = Some v -> In (k, v) d.
Proof.
  induction d as [|[k' v'] d IH]; simpl; [discriminate|].
  destruct (str_eqb k k') eqn:E.
  - apply str_eqb_eq in E. intros [= ->]. subst. now left.
  - intros H. right. now apply IH.
Qed.

Lemma all_distinct_NoDup (l : list str) : all_distinct l = true -> NoDup l.
Proof.
  induction l as [|x l IH]; simpl; intros H; constructor.
  - apply andb_true_iff in H as [H _]. apply negb_true_iff in H.
    intros Hin. assert (existsb (str_eqb x) l = true); [|congruence].
    apply existsb_exists. exists x. split; [assumption|apply str_eqb_refl].
  - apply andb_true_iff in H as [_ H]. now apply IH.
Qed.

(** A property of every input extension and its outputs, decided by running
    over the table. *)
Lemma table_forall (P : str -> dict rule -> bool) :
  forallb (fun entry => P (fst entry) (snd entry)) CONVERSIONS = true ->
  forall e outputs, get CONVERSIONS e = Some outputs -> P e outputs = true.
Proof.
  intros H e outputs Hget. apply get_In in Hget.
  rewrite forallb_forall in H. exact (H _ Hget).
Qed.

Lemma input_keys_distinct : NoDup (keys CONVERSIONS).
Proof. apply all_distinct_NoDup. vm_compute. reflexivity. Qed.

Lemma output_keys_distinct (e : str) (outputs : dict rule) :
  get CONVERSIONS e = Some outputs -> NoDup (keys outputs).
Proof.
  intros H. apply all_distinct_NoDup.
  refine (table_forall (fun _ outs => all_distinct (keys outs)) _ e outputs H).
  vm_compute. reflexivity.
Qed.

Lemma no_self_pair (e : str) (outputs : dict rule) :
  get CONVERSIONS e = Some outputs -> contains outputs e = false.
Proof.
  intros H. apply negb_true_iff.
  refine (table_forall (fun i outs => negb (contains outs i)) _ e outputs H).
  vm_compute. reflexivity.
Qed.

Lemma empty_ext_unsupported : contains CONVERSIONS [] = false.
Proof. vm_compute. reflexivity. Qed.

(* ------------------------------------------------------------------------- *)
(** ** Error messages of the validation *)
(* ------------------------------------------------------------------------- *)

Lemma sorted_NoDup (l : list str) : NoDup l -> NoDup (sorted l).
Proof. apply Permutation_NoDup, sorted_Permutation. Qed.

(** C8. For a filename whose extension is not in the format table, the
    message of the error raised by [get_input_ext] lists the supported input
    extensions: all of them, each once, in alphabetical order.  For a
    supported input extension and an output that is not declared for it, the
    message of the error raised by [convert] lists the outputs declared for
    that input: all of them, each once, in alphabetical order. *)
Theorem C8_error_messages_enumerate_sorted :
  (forall (f : str) (s : State),
      contains CONVERSIONS (input_ext_of f) = false ->
      exists supported : list str,
        get_input_ext f s
        = Exn (HTTPException 400
                 (py "Unsupported input format: ." ++ input_ext_of f
                    ++ py ". Supported: " ++ join (py ", ") supported)) s
        /\ StronglySorted str_le supported
        /\ NoDup supported
        /\ (forall e, In e supported <-> contains CONVERSIONS e = true))
  /\
  (forall (config : Config) (request : Request) (file : UploadFile) (to : str)
          (s : State) (f : str) (outputs : dict rule),
      filename file = Some f ->
      get CONVERSIONS (input_ext_of f) = Some outputs ->
      contains outputs (output_ext_of to) = false ->
      exists available : list str,
        convert config request file to s
        = Exn (HTTPException 400
                 (py "Cannot convert ." ++ input_ext_of f ++ py " to ."
                    ++ output_ext_of to ++ py ". Available: "
                    ++ join (py ", ") available)) s
        /\ StronglySorted str_le available
        /\ NoDup available
        /\ (forall o, In o available <-> contains outputs o = true)).
Proof.
  split.
  - intros f s Hc. exists (sorted (keys CONVERSIONS)). repeat split.
    + unfold get_input_ext. fold (input_ext_of f). now rewrite Hc.
    + apply sorted_StronglySorted.
    + apply sorted_NoDup, input_keys_distinct.
    + intros H. apply contains_keys. now apply sorted_In.
    + intros H. apply sorted_In. now apply contains_keys.
  - intros config request file to s f outputs Hf Hi Ho.
    assert (Hne : f <> []).
    { intros ->. vm_compute in Hi. discriminate. }
    exists (sorted (keys outputs)). repeat split.
    + now apply convert_bad_pair.
    + apply sorted_StronglySorted.
    + apply sorted_NoDup. eapply output_keys_distinct; eassumption.
    + intros H. apply contains_keys. now apply sorted_In.
    + intros H. apply sorted_In. now apply contains_keys.
Qed.

Lemma C8_witness :
  (exists supported : list str,
      get_input_ext (py "notes.md") demo_state
      = Exn (HTTPException 400
               (py "Unsupported input format: ." ++ input_ext_of (py "notes.md")
                  ++ py ". Supported: " ++ join (py ", ") supported)) demo_state
      /\ StronglySorted str_le supported
      /\ NoDup supported
      /\ (forall e, In e supported <-> contains CONVERSIONS e = true))
  /\
  (exists available : list str,
      convert demo_config demo_request (upload "data.csv" "a,b") (py "pptx")
        demo_state
      = Exn (HTTPException 400
               (py "Cannot convert ." ++ input_ext_of (py "data.csv") ++ py " to ."
                  ++ output_ext_of (py "pptx") ++ py ". Available: "
                  ++ join (py ", ") available)) demo_state
      /\ StronglySorted str_le available
      /\ NoDup available
      /\ (forall o, In o available
                    <-> contains (get_default CONVERSIONS (py "csv") []) o = true)).
Proof.
  split.
  - apply (proj1 C8_error_messages_enumerate_sorted). vm_compute. reflexivity.
  - apply (proj2 C8_error_messages_enumerate_sorted) with (f := py "data.csv");
      vm_compute; reflexivity.
Defined.

(** C7. No input extension of the format table is declared as one of its own
    outputs.  Hence, when the output extension derived from [to] (lower-cased,
    leading dots removed) equals the supported input extension of the
    filename, [convert] raises the error of an undeclared pair and leaves the
    state as it is. *)
Theorem C7_same_extension_is_rejected :
  (forall (e : str) (outputs : dict rule),
      get CONVERSIONS e = Some outputs -> get outputs e = None)
  /\
  (forall (config : Config) (request : Request) (file : UploadFile) (to : str)
          (s : State) (f : str),
      filename file = Some f ->
      contains CONVERSIONS (input_ext_of f) = true ->
      output_ext_of to = input_ext_of f ->
      exists outputs : dict rule,
        get CONVERSIONS (input_ext_of f) = Some outputs
        /\ convert config request file to s
           = Exn (HTTPException 400
                    (py "Cannot convert ." ++ input_ext_of f ++ py " to ."
                       ++ input_ext_of f ++ py ". Available: "
                       ++ join (py ", ") (sorted (keys outputs)))) s).
Proof.
  split.
  - intros e outputs H. apply no_self_pair in H. unfold contains in H.
    destruct (get outputs e); [discriminate|reflexivity].
  - intros config request file to s f Hf Hc Hsame.
    destruct (contains_get _ _ Hc) as [outputs Hi]. exists outputs.
    split; [assumption|].
    assert (Hne : f <> []).
    { intros ->. vm_compute in Hi. discriminate. }
    rewrite (convert_bad_pair config request file to s f outputs); try assumption.
    + now rewrite Hsame.
    + rewrite Hsame. now apply no_self_pair.
Qed.

Lemma C7_witness :
  exists outputs : dict rule,
    get CONVERSIONS (input_ext_of (py "sheet.xlsx")) = Some outputs
    /\ convert demo_config demo_request (upload "sheet.xlsx" "1;2") (py "XLSX")
         demo_state
       = Exn (HTTPException 400
                (py "Cannot convert ." ++ input_ext_of (py "sheet.xlsx")
                   ++ py " to ." ++ input_ext_of (py "sheet.xlsx")
                   ++ py ". Available: "
                   ++ join (py ", ") (sorted (keys outputs)))) demo_state.
Proof.
  apply (proj2 C7_same_extension_is_rejected) with (f := py "sheet.xlsx");
    vm_compute; reflexivity.
Defined.

Lemma rfind_None (c : char) (s : str) : ~ In c s -> rfind c s = None.
Proof.
  induction s as [|x s IH]; simpl; intros H; [reflexivity|].
  rewrite IH by tauto.
  destruct (char_eqb x c) eqn:E; [|reflexivity].
  apply N.eqb_eq in E. subst. tauto.
Qed.

Lemma split_In (sep : char) (s w : str) (x : char) :
  In w (split sep s) -> In x w -> In x s.
Proof.
  revert w; induction s as [|c s IH]; simpl; intros w Hw Hx.
  - destruct Hw as [<-|[]]. destruct Hx.
  - destruct (char_eqb c sep).
    + destruct Hw as [<-|Hw]; [destruct Hx|]. right. eauto.
    + destruct (split sep s) as [|w0 ws] eqn:E.
      * destruct Hw as [<-|[]]. destruct Hx as [<-|[]]. now left.
      * destruct Hw as [<-|Hw].
        -- destruct Hx as [<-|Hx]; [now left|]. right. apply (IH w0); simpl; auto.
        -- right. apply (IH w); simpl; auto.
Qed.

Lemma last_In {A : Type} (l : list A) (d : A) : last l d = d \/ In (last l d) l.
Proof.
  induction l as [|x l IH]; [now left|].
  destruct l as [|y l]; [right; now left|].
  change (last (x :: y :: l) d) with (last (y :: l) d).
  destruct IH as [IH|IH]; [now left|right; now right].
Qed.

Lemma name_In (p : str) (x : char) : In x (name p) -> In x p.
Proof.
  unfold name. destruct (last_In (parts p) []) as [->|H]; [intros []|].
  intros Hx. unfold parts in H. apply filter_In in H as [H _].
  eapply split_In; eassumption.
Qed.

Lemma suffix_without_dot (p : str) : ~ In dot p -> suffix p = [].
Proof.
  intros H. unfold suffix. rewrite rfind_None; [reflexivity|].
  intros Hd. apply H. now apply name_In.
Qed.

(** C9. A filename that is not empty and contains no period has the empty
    string as its extension, which is not in the format table: [convert]
    raises the error of an unsupported input format, not the one of a missing
    filename.  The error of a missing filename is raised exactly when the
    filename is absent or empty. *)
Theorem C9_filename_without_period :
  (forall (config : Config) (request : Request) (file : UploadFile) (to : str)
          (s : State) (f : str),
      filename file = Some f -> f <> [] -> ~ In dot f ->
      input_ext_of f = []
      /\ contains CONVERSIONS [] = false
      /\ convert config request file to s
         = Exn (HTTPException 400
                  (py "Unsupported input format: ." ++ py ". Supported: "
                     ++ join (py ", ") (sorted (keys CONVERSIONS)))) s)
  /\
  (forall (config : Config) (request : Request) (file : UploadFile) (to : str)
          (s : State),
      (exists s', convert config request file to s
                  = Exn (HTTPException 400 (py "Filename required")) s')
      <-> (filename file = None \/ filename file = Some [])).
Proof.
  split.
  - intros config request file to s f Hf Hne Hdot.
    assert (He : input_ext_of f = []).
    { unfold input_ext_of. now rewrite suffix_without_dot. }
    split; [assumption|]. split; [apply empty_ext_unsupported|].
    rewrite (convert_bad_input config request file to s f); try assumption.
    + now rewrite He.
    + rewrite He. apply empty_ext_unsupported.
  - intros config request file to s. split.
    + intros [s' Hr]. revert Hr.
      destruct (convert_handled config request file to s); intros Hr;
        try discriminate Hr; try assumption;
        exfalso; injection Hr; clear Hr; intros;
        match goal with E : _ ++ _ = py _ |- _ => revert E end;
        py_eval; cbn [app]; discriminate.
    + intros H. exists s. now apply convert_no_filename.
Qed.

Lemma C9_witness :
  input_ext_of (py "README") = []
  /\ contains CONVERSIONS [] = false
  /\ convert demo_config demo_request (upload "README" "text") (py "pdf")
       demo_state
     = Exn (HTTPException 400
              (py "Unsupported input format: ." ++ py ". Supported: "
                 ++ join (py ", ") (sorted (keys CONVERSIONS)))) demo_state.
Proof.
  apply (proj1 C9_filename_without_period) with (f := py "README").
  - reflexivity.
  - vm_compute. discriminate.
  - vm_compute. intuition discriminate.
Defined.

(* ------------------------------------------------------------------------- *)
(** ** The command line of the engine *)
(* ------------------------------------------------------------------------- *)

Lemma handled_Susp_inv (config : Config) (request : Request) (file : UploadFile)
    (to : str) (s : State) (argv : list str) (s1 : State)
    (k : engine_result -> State -> res Response) :
  convert config request file to s = Susp argv s1 k ->
  exists f outputs filter_name mime_type,
    filename file = Some f /\ f <> []
    /\ get CONVERSIONS (input_ext_of f) = Some outputs
    /\ get outputs (output_ext_of to) = Some (filter_name, mime_type)
    /\ (len (payload file) <= MAX_FILE_SIZE config)%Z
    /\ locked (conversion_semaphore s) = false
    /\ place f <> Unwritable
    /\ argv = command f (output_ext_of to) filter_name (next_tmp s)
    /\ s1 = staged f (payload file) (after_read s)
    /\ (forall er s2,
           k er s2
           = resume (clock s) (get_client_ip request) f (input_ext_of f)
               (output_ext_of to) mime_type (len (payload file)) (next_tmp s)
               er s2).
Proof.
  intros H. pose proof (convert_handled config request file to s) as Hh.
  rewrite H in Hh. inversion Hh; subst.
  exists f, outputs, filter_name, mime_type. repeat split; assumption.
Qed.

(** C4. The convert-to directive.
    - In the conversion job, for any filter name: whenever the job hands a
      command to the engine, the third word of the command is
      [--convert-to] and the fourth is the output extension followed by a
      colon and the filter name, or the output extension alone when the
      filter name is empty.
    - In [convert]: the filter name is the one of the rule found in the
      format table for the pair of extensions.  For the filename
      [report.docx] and the target [pdf] the rule is
      [("writer_pdf_Export", "application/pdf")] and the word is
      [pdf:writer_pdf_Export]. *)
Theorem C4_convert_to_directive :
  (forall (client_ip f : str) (data : bytes)
          (input_ext output_ext filter_name : str) (input_size : Z)
          (s : State) (argv : list str) (s1 : State)
          (k : engine_result -> State -> res bytes),
      convert_job client_ip f data input_ext output_ext filter_name input_size s
      = Susp argv s1 k ->
      nth_error argv 2 = Some (py "--convert-to")
      /\ nth_error argv 3
         = Some (match filter_name with
                 | [] => output_ext
                 | _ :: _ => output_ext ++ py ":" ++ filter_name
                 end))
  /\
  (forall (config : Config) (request : Request) (file : UploadFile) (to : str)
          (s : State) (argv : list str) (s1 : State)
          (k : engine_result -> State -> res Response),
      convert config request file to s = Susp argv s1 k ->
      exists (f : str) (outputs : dict rule) (filter_name mime_type : str),
        filename file = Some f
        /\ get CONVERSIONS (input_ext_of f) = Some outputs
        /\ get outputs (output_ext_of to) = Some (filter_name, mime_type)
        /\ nth_error argv 2 = Some (py "--convert-to")
        /\ nth_error argv 3
           = Some (match filter_name with
                   | [] => output_ext_of to
                   | _ :: _ => output_ext_of to ++ py ":" ++ filter_name
                   end)
        /\ (f = py "report.docx" -> to = py "pdf" ->
            filter_name = py "writer_pdf_Export"
            /\ mime_type = py "application/pdf"
            /\ nth_error argv 3 = Some (py "pdf:writer_pdf_Export"))).
Proof.
  split.
  - intros client_ip f data input_ext output_ext filter_name input_size s argv
           s1 k H.
    destruct (convert_job_command _ _ _ _ _ _ _ _ _ _ _ H) as (_ & _ & -> & _).
    unfold command, directive. cbn [nth_error].
    split; [reflexivity|]. now destruct filter_name.
  - intros config request file to s argv s1 k H.
    destruct (handled_Susp_inv _ _ _ _ _ _ _ _ H)
      as (f & outputs & filter_name & mime_type & Hf & Hne & Hi & Ho & _ & _ & _
          & -> & _ & _).
    exists f, outputs, filter_name, mime_type.
    repeat (split; [assumption || reflexivity|]).
    split.
    + unfold command, directive. cbn [nth_error]. now destruct filter_name.
    + intros -> ->. vm_compute in Hi. injection Hi as <-.
      vm_compute in Ho. injection Ho as <- <-.
      repeat split.
Qed.

Lemma C4_witness :
  let job := convert_job (py "203.0.113.7") (py "report.docx")
               (ascii_bytes "hello") (py "docx") (py "pdf") [] 5 demo_state in
  let r := convert demo_config demo_request (upload "report.docx" "hello")
             (py "pdf") demo_state in
  (nth_error (awaited_argv job) 2 = Some (py "--convert-to")
   /\ nth_error (awaited_argv job) 3 = Some (py "pdf"))
  /\ exists (f : str) (outputs : dict rule) (filter_name mime_type : str),
      filename (upload "report.docx" "hello") = Some f
      /\ get CONVERSIONS (input_ext_of f) = Some outputs
      /\ get outputs (output_ext_of (py "pdf")) = Some (filter_name, mime_type)
      /\ nth_error (awaited_argv r) 2 = Some (py "--convert-to")
      /\ nth_error (awaited_argv r) 3
         = Some (match filter_name with
                 | [] => output_ext_of (py "pdf")
                 | _ :: _ => output_ext_of (py "pdf") ++ py ":" ++ filter_name
                 end)
      /\ (f = py "report.docx" -> py "pdf" = py "pdf" ->
          filter_name = py "writer_pdf_Export"
          /\ mime_type = py "application/pdf"
          /\ nth_error (awaited_argv r) 3 = Some (py "pdf:writer_pdf_Export")).
Proof.
  intros job r. split.
  - apply (proj1 C4_convert_to_directive (py "203.0.113.7") (py "report.docx")
             (ascii_bytes "hello") (py "docx") (py "pdf") [] 5%Z demo_state
             (awaited_argv job) (state_of job)
             (match job with Susp _ _ k => k | _ => fun _ s => Parked s end)).
    vm_compute. reflexivity.
  - apply (proj2 C4_convert_to_directive demo_config demo_request
             (upload "report.docx" "hello") (py "pdf") demo_state
             (awaited_argv r) (state_of r) (rest_of r)).
    vm_compute. reflexivity.
Defined.

(* ------------------------------------------------------------------------- *)
(** ** The size limit *)
(* ------------------------------------------------------------------------- *)

(** C5. [convert] raises the error of a payload that is too large exactly
    when the filename is present, the pair of extensions is declared in the
    format table and the payload is strictly longer than [MAX_FILE_SIZE]; a
    payload of exactly [MAX_FILE_SIZE] bytes is not refused.  When that error
    is raised the payload has been read; when the filename or the pair of
    extensions is refused the payload has not been read. *)
Theorem C5_payload_too_large :
  forall (config : Config) (request : Request) (file : UploadFile) (to : str)
         (s : State),
    ((exists detail s',
         convert config request file to s = Exn (HTTPException 413 detail) s')
     <-> (exists f outputs,
             filename file = Some f
             /\ get CONVERSIONS (input_ext_of f) = Some outputs
             /\ contains outputs (output_ext_of to) = true
             /\ (len (payload file) > MAX_FILE_SIZE config)%Z))
    /\ (forall detail s',
           convert config request file to s = Exn (HTTPException 413 detail) s' ->
           reads s' = S (reads s))
    /\ (forall detail s',
           convert config request file to s = Exn (HTTPException 400 detail) s' ->
           reads s' = reads s).
Proof.
  intros config request file to s. split; [split|split].
  - intros (detail & s' & Hr). revert Hr.
    destruct (convert_handled config request file to s); intros Hr;
      try discriminate Hr.
    exists f, outputs. auto.
  - intros (f & outputs & Hf & Hi & Ho & Hsz).
    assert (Hne : f <> []).
    { intros ->. vm_compute in Hi. discriminate. }
    rewrite (convert_too_large config request file to s f outputs) by assumption.
    eauto.
  - intros detail s' Hr. revert Hr.
    destruct (convert_handled config request file to s); intros Hr;
      try discriminate Hr.
    injection Hr as _ <-. reflexivity.
  - intros detail s' Hr. revert Hr.
    destruct (convert_handled config request file to s); intros Hr;
      try discriminate Hr; injection Hr as _ <-; reflexivity.
Qed.

Lemma C5_witness :
  (exists detail s',
      convert small_config demo_request (upload "a.docx" "123456") (py "pdf")
        demo_state = Exn (HTTPException 413 detail) s')
  /\ ~ (exists detail s',
           convert small_config demo_request (upload "a.docx" "12345") (py "pdf")
             demo_state = Exn (HTTPException 413 detail) s').
Proof.
  split.
  - apply (proj1 (C5_payload_too_large small_config demo_request
                    (upload "a.docx" "123456") (py "pdf") demo_state)).
    exists (py "a.docx"), (get_default CONVERSIONS (py "docx") []).
    vm_compute. repeat split; reflexivity.
  - intros H.
    apply (proj1 (C5_payload_too_large small_config demo_request
                    (upload "a.docx" "12345") (py "pdf") demo_state)) in H.
    destruct H as (f & outputs & _ & _ & _ & Hsz). vm_compute in Hsz.
    discriminate.
Defined.

(* ------------------------------------------------------------------------- *)
(** ** What the stages do to the state *)
(* ------------------------------------------------------------------------- *)

Lemma sink_left (d : nat) (s : State) : sink (left d s) = sink s.
Proof. reflexivity. Qed.

Lemma sink_set_dir (d : nat) (entries : directory) (s : State) :
  sink (set_dir d entries s) = sink s.
Proof. reflexivity. Qed.

Lemma sink_logged (r : LogRecord) (s : State) : sink (logged r s) = sink s ++ [r].
Proof. reflexivity. Qed.

Lemma sink_staged (f : str) (data : bytes) (s : State) :
  sink (staged f data s) = sink s.
Proof. unfold staged. now destruct (place f). Qed.

Lemma exists_dir_set_dir (d d' : nat) (entries : directory) (s : State) :
  exists_dir d (set_dir d' entries s) = exists_dir d s.
Proof.
  unfold exists_dir, set_dir. cbn.
  induction (scratch s) as [|[d0 l] fs IH]; [reflexivity|].
  cbn. rewrite IH. f_equal. destruct (Nat.eqb d0 d') eqn:E; [|reflexivity].
  cbn. apply Nat.eqb_eq in E. now subst.
Qed.

Lemma exists_dir_rmtree (d d' : nat) (s : State) :
  exists_dir d (rmtree d' s) = (exists_dir d s && negb (Nat.eqb d d'))%bool.
Proof.
  unfold exists_dir, rmtree. cbn.
  induction (scratch s) as [|[d0 l] fs IH]; [reflexivity|].
  cbn [filter existsb fst].
  destruct (Nat.eqb_spec d0 d'); cbn [negb existsb fst]; rewrite IH;
    destruct (Nat.eqb_spec d0 d); destruct (Nat.eqb_spec d d'); subst;
    try congruence; cbn; try reflexivity; apply andb_false_r.
Qed.

Lemma exists_dir_left (d d' : nat) (s : State) :
  exists_dir d (left d' s) = (exists_dir d s && negb (Nat.eqb d d'))%bool.
Proof. exact (exists_dir_rmtree d d' s). Qed.

Lemma exists_dir_logged (d : nat) (r : LogRecord) (s : State) :
  exists_dir d (logged r s) = exists_dir d s.
Proof. reflexivity. Qed.

Lemma exists_dir_entered (d : nat) (s : State) :
  exists_dir d (entered s) = (Nat.eqb (next_tmp s) d || exists_dir d s)%bool.
Proof. reflexivity. Qed.

Lemma exists_dir_staged (d : nat) (f : str) (data : bytes) (s : State) :
  exists_dir d (staged f data s) = (Nat.eqb (next_tmp s) d || exists_dir d s)%bool.
Proof.
  unfold staged. destruct (place f); try apply exists_dir_entered.
  rewrite exists_dir_set_dir. apply exists_dir_entered.
Qed.

Lemma listdir_set_dir (d : nat) (entries : directory) (s : State) :
  exists_dir d s = true -> listdir d (set_dir d entries s) = entries.
Proof.
  unfold exists_dir, listdir, set_dir. cbn.
  induction (scratch s) as [|[d0 l] fs IH]; [discriminate|].
  cbn. destruct (Nat.eqb d0 d) eqn:E; cbn.
  - now rewrite Nat.eqb_refl.
  - rewrite E. exact IH.
Qed.

Lemma listdir_set_dir_cases (d : nat) (entries : directory) (s : State) :
  listdir d (set_dir d entries s) = if exists_dir d s then entries else [].
Proof.
  destruct (exists_dir d s) eqn:E; [now apply listdir_set_dir|].
  unfold exists_dir, listdir, set_dir in *. cbn.
  induction (scratch s) as [|[d0 l] fs IH]; [reflexivity|].
  cbn in *. destruct (Nat.eqb d0 d) eqn:E0; [discriminate E|].
  cbn. rewrite E0. now apply IH.
Qed.

Lemma filter_none {A : Type} (p : A -> bool) (l : list A) :
  (forall x, In x l -> p x = false) -> filter p l = [].
Proof.
  induction l as [|x l IH]; intros H; cbn [filter]; [reflexivity|].
  rewrite (H x (or_introl eq_refl)). apply IH. intros y Hy. apply H. now right.
Qed.

Lemma filter_some {A : Type} (p : A -> bool) (l : list A) (x : A) :
  In x l -> p x = true -> exists y rest, filter p l = y :: rest.
Proof.
  intros Hin Hp. destruct (filter p l) as [|y rest] eqn:E; [|eauto].
  assert (H : In x (filter p l)) by (apply filter_In; now split).
  rewrite E in H. destruct H.
Qed.

Lemma listdir_staged (f : str) (data : bytes) (s : State) :
  listdir (next_tmp s) (staged f data s)
  = match place f with InScratch n => [(n, data)] | _ => [] end.
Proof.
  unfold staged. destruct (place f); try apply listdir_entered.
  apply listdir_set_dir. rewrite exists_dir_entered. now rewrite Nat.eqb_refl.
Qed.

(** The rest of the handler always ends, and what it leaves. *)
Lemma resume_ends (start_time : Z) (client_ip f input_ext output_ext mime_type : str)
    (input_size : Z) (d : nat) (er : engine_result) (s : State) :
  exists (s' : State) (events : list LogRecord),
    ((exists resp, resume start_time client_ip f input_ext output_ext mime_type
                     input_size d er s = Val resp s')
     \/ (exists e, resume start_time client_ip f input_ext output_ext mime_type
                     input_size d er s = Exn e s'))
    /\ sink s' = sink s ++ events
    /\ conversion_semaphore s' = conversion_semaphore (release s)
    /\ (forall d', exists_dir d' s' = (exists_dir d' s && negb (Nat.eqb d' d))%bool)
    /\ reads s' = reads s /\ next_tmp s' = next_tmp s.
Proof.
  destruct er as [rc err entries|entries|]; cbn [resume].
  - destruct (rc =? 0)%Z.
    + destruct (output_files _ _ _) as [|[n data] rest].
      * eexists _, []. split; [right; eauto|]. rewrite app_nil_r.
        repeat split. intros d'.
        now rewrite exists_dir_left, exists_dir_set_dir.
      * cbv zeta. destruct (encodable f output_ext mime_type).
        -- eexists _, [_]. split; [left; eauto|].
           repeat split. intros d'.
           now rewrite exists_dir_logged, exists_dir_left, exists_dir_set_dir.
        -- eexists _, [_]. split; [right; eauto|].
           repeat split. intros d'.
           now rewrite exists_dir_logged, exists_dir_left, exists_dir_set_dir.
    + destruct (decode err) as [text|].
      * eexists _, [_]. split; [right; eauto|].
        repeat split. intros d'.
        now rewrite exists_dir_left, exists_dir_logged, exists_dir_set_dir.
      * eexists _, []. split; [right; eauto|]. rewrite app_nil_r.
        repeat split. intros d'.
        now rewrite exists_dir_left, exists_dir_set_dir.
  - eexists _, [_]. split; [right; eauto|].
    repeat split. intros d'.
    now rewrite exists_dir_left, exists_dir_logged, exists_dir_set_dir.
  - eexists _, []. split; [right; eauto|]. rewrite app_nil_r.
    repeat split. intros d'. now rewrite exists_dir_left.
Qed.

(* ------------------------------------------------------------------------- *)
(** ** The engine exits with a non-zero status *)
(* ------------------------------------------------------------------------- *)




(* ------------------------------------------------------------------------- *)
(** ** Outcome events *)
(* ------------------------------------------------------------------------- *)


(** The same holds when the engine exits with status 0 without writing an
    output file: status 500, and no record. *)
Example no_output_emits_no_event :
  let file := upload "second.docx" "xyz" in
  let o := run idle_engine
             (convert small_config demo_request file (py "pdf") demo_state) in
  (exists s', o = Raised (HTTPException 500
                     (py "Conversion produced no output")) s')
  /\ events_between demo_state (final_state o) = 0%Z.
Proof.
  cbv zeta. split.
  - eexists. vm_compute. reflexivity.
  - vm_compute. reflexivity.
Qed.



(* ------------------------------------------------------------------------- *)
(** ** Temporary directories *)
(* ------------------------------------------------------------------------- *)



(* ------------------------------------------------------------------------- *)
(** ** The output file is not the input file *)
(* ------------------------------------------------------------------------- *)

Lemma lowercase_word_chars (w : str) (c : char) :
  lowercase_word w = true -> In c w -> (97 <= c <= 122)%N.
Proof.
  unfold lowercase_word. intros H Hc. apply andb_true_iff in H as [_ H].
  rewrite forallb_forall in H. specialize (H c Hc).
  apply andb_true_iff in H as [H1 H2].
  apply N.leb_le in H1, H2. lia.
Qed.

Lemma lowercase_word_no_dot (w : str) : lowercase_word w = true -> ~ In dot w.
Proof.
  intros H Hd. pose proof (lowercase_word_chars w dot H Hd). unfold dot in *. lia.
Qed.

Lemma lowercase_word_lower (w : str) : lowercase_word w = true -> lower w = w.
Proof.
  intros H. unfold lower. rewrite <- (map_id w) at 2. apply map_ext_in.
  intros c Hc. pose proof (lowercase_word_chars w c H Hc) as Hr.
  unfold lower_char.
  replace (N.leb c 90) with false by (symmetry; apply N.leb_gt; lia).
  now rewrite andb_false_r.
Qed.

Lemma lowercase_word_lstrip (w : str) :
  lowercase_word w = true -> lstrip [dot] w = w.
Proof.
  intros H. destruct w as [|c w]; [reflexivity|].
  pose proof (lowercase_word_chars (c :: w) c H (or_introl eq_refl)) as Hr.
  cbn [lstrip existsb]. unfold char_eqb.
  replace (N.eqb c dot) with false; [reflexivity|].
  symmetry. apply N.eqb_neq. unfold dot. lia.
Qed.

Lemma outputs_lowercase (e : str) (outputs : dict rule) (o : str) :
  get CONVERSIONS e = Some outputs -> contains outputs o = true ->
  lowercase_word o = true.
Proof.
  intros Hi Ho.
  assert (H : forallb lowercase_word (keys outputs) = true).
  { refine (table_forall (fun _ outs => forallb lowercase_word (keys outs)) _
              e outputs Hi).
    vm_compute. reflexivity. }
  rewrite forallb_forall in H. apply H. now apply contains_keys.
Qed.

Lemma inputs_lowercase (e : str) :
  contains CONVERSIONS e = true -> lowercase_word e = true.
Proof.
  intros H. apply contains_keys in H.
  assert (Hall : forallb lowercase_word (keys CONVERSIONS) = true)
    by (vm_compute; reflexivity).
  rewrite forallb_forall in Hall. now apply Hall.
Qed.

Lemma fnmatch_literal (pat n : str) :
  literal pat = true -> fnmatch pat n = true -> n = pat.
Proof.
  revert n; induction pat as [|p pat IH]; intros n Hl H.
  - destruct n; [reflexivity|discriminate].
  - cbn [literal forallb] in Hl. apply andb_true_iff in Hl as [Hp Hl].
    apply andb_true_iff in Hp as [H42 H63].
    apply negb_true_iff in H42, H63.
    cbn [fnmatch] in H. rewrite H42 in H.
    destruct n as [|c n]; [discriminate|].
    rewrite H63 in H. cbn [orb] in H.
    apply andb_true_iff in H as [Hc H]. apply N.eqb_eq in Hc. subst c.
    f_equal. now apply IH.
Qed.

Lemma fnmatch_star_literal (pat n : str) :
  literal pat = true -> fnmatch (42%N :: pat) n = true ->
  exists pre, n = pre ++ pat.
Proof.
  intros Hl. cbn [fnmatch]. change (char_eqb 42%N 42%N) with true. cbv iota.
  induction n as [|c n IH]; intros H.
  - apply orb_true_iff in H as [H|H]; [|discriminate].
    exists []. now apply fnmatch_literal.
  - apply orb_true_iff in H as [H|H].
    + exists []. now apply fnmatch_literal.
    + destruct (IH H) as [pre ->]. now exists (c :: pre).
Qed.

Lemma rfind_last (c : char) (pre rest : str) :
  ~ In c rest -> rfind c (pre ++ c :: rest) = Some (List.length pre).
Proof.
  intros H. induction pre as [|x pre IH]; cbn [app rfind List.length].
  - rewrite rfind_None by assumption. unfold char_eqb. now rewrite N.eqb_refl.
  - now rewrite IH.
Qed.

Lemma skipn_app_exact {A : Type} (l1 l2 : list A) :
  skipn (List.length l1) (l1 ++ l2) = l2.
Proof. induction l1; cbn; auto. Qed.

(** The name of a validated input file does not match the output pattern. *)
Lemma input_name_no_match (f : str) (outputs : dict rule) (o : str) :
  get CONVERSIONS (input_ext_of f) = Some outputs ->
  contains outputs o = true ->
  fnmatch (py "*." ++ o) (name f) = false.
Proof.
  intros Hi Ho. apply not_true_is_false. intros Hm.
  pose proof (outputs_lowercase _ _ _ Hi Ho) as Hlow.
  assert (Hlit : literal (dot :: o) = true).
  { cbn [literal forallb]. apply andb_true_iff. split; [reflexivity|].
    apply forallb_forall. intros c Hc.
    pose proof (lowercase_word_chars o c Hlow Hc). unfold char_eqb.
    replace (N.eqb c 42) with false by (symmetry; apply N.eqb_neq; lia).
    replace (N.eqb c 63) with false by (symmetry; apply N.eqb_neq; lia).
    reflexivity. }
  change (py "*." ++ o) with (42%N :: dot :: o) in Hm.
  destruct (fnmatch_star_literal _ _ Hlit Hm) as [pre Hname].
  assert (Hsuffix : suffix f = match pre with [] => [] | _ :: _ => dot :: o end).
  { unfold suffix. rewrite Hname.
    rewrite rfind_last by (now apply lowercase_word_no_dot).
    destruct pre as [|x pre]; [reflexivity|].
    destruct o as [|y o]; [discriminate Hlow|].
    replace (Nat.ltb (List.length (x :: pre))
               (List.length ((x :: pre) ++ dot :: y :: o) - 1)) with true.
    - cbn [Nat.ltb Nat.leb andb]. apply skipn_app_exact.
    - symmetry. apply Nat.ltb_lt. rewrite length_app. cbn [List.length]. lia. }
  unfold input_ext_of in Hi. rewrite Hsuffix in Hi.
  destruct pre as [|x pre].
  - vm_compute in Hi. discriminate.
  - change (lower (dot :: o)) with (dot :: lower o) in Hi.
    rewrite (lowercase_word_lower o Hlow) in Hi.
    change (lstrip [dot] (dot :: o)) with (lstrip [dot] o) in Hi.
    rewrite (lowercase_word_lstrip o Hlow) in Hi.
    apply no_self_pair in Hi. congruence.
Qed.

Lemma place_name (f n : str) : place f = InScratch n -> n = name f.
Proof.
  unfold place, name. destruct (is_absolute f); [discriminate|].
  destruct (parts f) as [|n0 [|n1 rest]]; [discriminate| |].
  - destruct (str_eqb n0 dotdot); [discriminate|]. now intros [= ->].
  - destruct (str_eqb n0 dotdot); discriminate.
Qed.

(** C10. For every pair of the format table the output extension differs from
    the input extension and neither contains a period.  Whenever the handler
    awaits the engine, no file of its temporary directory (where the input
    file has been written under its own name) matches the output pattern.
    So when the handler returns a response, its content is the content of a
    file that matches the pattern in what the engine left, and that file was
    not there before the engine ran. *)
Theorem C10_output_written_by_engine :
  (forall (e : str) (outputs : dict rule) (o : str),
      get CONVERSIONS e = Some outputs -> contains outputs o = true ->
      o <> e /\ ~ In dot e /\ ~ In dot o)
  /\
  (forall (config : Config) (request : Request) (file : UploadFile) (to : str)
          (s : State) (argv : list str) (s1 : State)
          (k : engine_result -> State -> res Response),
      convert config request file to s = Susp argv s1 k ->
      forall n data, In (n, data) (listdir (next_tmp s) s1) ->
                     fnmatch (py "*." ++ output_ext_of to) n = false)
  /\
  (forall (config : Config) (request : Request) (file : UploadFile) (to : str)
          (s : State) (engine : engine_model) (resp : Response) (s' : State),
      run engine (convert config request file to s) = Returned resp s' ->
      exists argv s1 k err entries n,
        convert config request file to s = Susp argv s1 k
        /\ engine argv (scratch s1) = Completed 0 err entries
        /\ In (n, content resp) entries
        /\ fnmatch (py "*." ++ output_ext_of to) n = true
        /\ forall data, ~ In (n, data) (listdir (next_tmp s) s1)).
Proof.
  assert (Hstaged :
    forall config request file to s argv s1 k,
      convert config request file to s = Susp argv s1 k ->
      forall n data, In (n, data) (listdir (next_tmp s) s1) ->
                     fnmatch (py "*." ++ output_ext_of to) n = false).
  { intros config request file to s argv s1 k Hs n data Hin.
    destruct (handled_Susp_inv _ _ _ _ _ _ _ _ Hs)
      as (f & outputs & filter_name & mime_type & _ & _ & Hi & Ho & _ & _ & _
          & _ & -> & _).
    change (next_tmp s) with (next_tmp (after_read s)) in Hin.
    rewrite listdir_staged in Hin.
    destruct (place f) as [n0| |] eqn:Hp; try destruct Hin.
    - injection H as <- _. apply place_name in Hp. subst n0.
      apply input_name_no_match with outputs; [assumption|].
      unfold contains. now rewrite Ho.
    - destruct H. }
  split; [|split; [exact Hstaged|]].
  - intros e outputs o Hi Ho. repeat split.
    + intros ->. apply no_self_pair in Hi. congruence.
    + apply lowercase_word_no_dot, inputs_lowercase.
      unfold contains. now rewrite Hi.
    + apply lowercase_word_no_dot. eapply outputs_lowercase; eassumption.
  - intros config request file to s engine resp s' Hrun.
    destruct (convert config request file to s) as [a s0|e s0|argv s1 k|s0] eqn:Hc;
      try discriminate Hrun.
    { pose proof (convert_handled config request file to s) as Hh.
      rewrite Hc in Hh. inversion Hh. }
    pose proof (Hstaged _ _ _ _ _ _ _ _ Hc) as Hno.
    destruct (handled_Susp_inv _ _ _ _ _ _ _ _ Hc)
      as (f & outputs & filter_name & mime_type & _ & _ & _ & _ & _ & _ & _
          & _ & Hs1 & Hk).
    cbn [run] in Hrun. rewrite Hk in Hrun.
    destruct (engine argv (scratch s1)) as [rc err entries|entries|] eqn:He;
      cbn [resume] in Hrun; try discriminate Hrun.
    destruct (rc =? 0)%Z eqn:Hrc;
      [|destruct (decode err); discriminate Hrun].
    apply Z.eqb_eq in Hrc. subst rc.
    unfold output_files in Hrun.
    rewrite listdir_set_dir in Hrun.
    2:{ rewrite Hs1, exists_dir_staged.
        change (next_tmp (after_read s)) with (next_tmp s).
        now rewrite Nat.eqb_refl. }
    destruct (filter _ entries) as [|[n data] rest] eqn:Hf;
      [discriminate Hrun|].
    cbv zeta in Hrun.
    destruct (encodable f (output_ext_of to) mime_type);
      [|discriminate Hrun].
    cbn [run] in Hrun. injection Hrun as <- _.
    assert (Hin : In (n, data) (filter
              (fun e => fnmatch (py "*." ++ output_ext_of to) (fst e)) entries))
      by (rewrite Hf; now left).
    apply filter_In in Hin as [Hin Hm]. cbn [fst] in Hm.
    exists argv, s1, k, err, entries, n. repeat split; try assumption.
    intros data0 Hin0. specialize (Hno _ _ Hin0). congruence.
Qed.

Lemma C10_witness :
  let file := upload "report.docx" "hello" in
  let r := convert demo_config demo_request file (py "pdf") demo_state in
  let o := run pdf_engine r in
  (py "pdf" <> py "docx" /\ ~ In dot (py "docx") /\ ~ In dot (py "pdf"))
  /\ (forall n data, In (n, data) (listdir (next_tmp demo_state) (state_of r)) ->
                     fnmatch (py "*." ++ output_ext_of (py "pdf")) n = false)
  /\ (exists argv s1 k err entries n,
         r = Susp argv s1 k
         /\ pdf_engine argv (scratch s1) = Completed 0 err entries
         /\ In (n, ascii_bytes "%PDF-1.7") entries
         /\ fnmatch (py "*." ++ output_ext_of (py "pdf")) n = true
         /\ forall data, ~ In (n, data) (listdir (next_tmp demo_state) s1)).
Proof.
  intros file r o.
  destruct C10_output_written_by_engine as (Hpairs & Hstaged & Hresp).
  split; [|split].
  - apply (Hpairs (py "docx") (get_default CONVERSIONS (py "docx") []) (py "pdf"));
      vm_compute; reflexivity.
  - apply (Hstaged demo_config demo_request file (py "pdf") demo_state
             (awaited_argv r) (state_of r) (rest_of r)).
    vm_compute. reflexivity.
  - apply (Hresp demo_config demo_request file (py "pdf") demo_state pdf_engine
             {| content := ascii_bytes "%PDF-1.7";
                media_type := py "application/pdf";
                headers := [(py "content-disposition",
                             py "attachment; filename=" ++ [34%N]
                               ++ py "report.pdf" ++ [34%N]);
                            (py "content-length", py "8");
                            (py "content-type", py "application/pdf")] |}
             (final_state o)).
    vm_compute. reflexivity.
Defined.

(* ------------------------------------------------------------------------- *)
(** ** The admission pool *)
(* ------------------------------------------------------------------------- *)

Lemma reaches_admission_valid (config : Config) (file : UploadFile) (to : str) :
  reaches_admission config file to = true ->
  exists f outputs filter_name mime_type,
    filename file = Some f /\ f <> []
    /\ get CONVERSIONS (input_ext_of f) = Some outputs
    /\ get outputs (output_ext_of to) = Some (filter_name, mime_type)
    /\ (len (payload file) <= MAX_FILE_SIZE config)%Z.
Proof.
  unfold reaches_admission. destruct (filename file) as [f|]; [|discriminate].
  intros H. apply andb_true_iff in H as [H Hsz].
  apply andb_true_iff in H as [Hne Hpair].
  destruct (get CONVERSIONS (input_ext_of f)) as [outputs|] eqn:Hi; [|discriminate].
  unfold contains in Hpair.
  destruct (get outputs (output_ext_of to)) as [[filter_name mime_type]|] eqn:Ho;
    [|discriminate].
  exists f, outputs, filter_name, mime_type.
  split; [reflexivity|]. split; [intros ->; discriminate|].
  split; [exact Hi|]. split; [exact Ho|]. now apply Z.leb_le.
Qed.

Section Pool.

Variable config : Config.

Lemma locked_no_waiters (sem : Semaphore) :
  _waiters sem = 0 -> locked sem = (_value sem =? 0)%Z.
Proof. unfold locked. intros ->. apply orb_false_r. Qed.

Lemma release_no_waiters (s : State) :
  _waiters (conversion_semaphore s) = 0 ->
  conversion_semaphore (release s)
  = {| _value := _value (conversion_semaphore s) + 1; _waiters := 0 |}.
Proof. unfold release, _wake_up_next. cbn. now intros ->. Qed.

Lemma step_invariant (p p' : Process) :
  pool_invariant config p -> step config p p' -> pool_invariant config p'.
Proof.
  intros (Hw & Hv & Hsum & Hjobs) Hstep.
  destruct Hstep as [p request file to|p before after k er Hin|p now].
  - destruct (convert_handled config request file to (shared p))
      as [| | | | |f outputs filter_name mime_type _ _ _ _ _ Hl Hpos
          |f outputs filter_name mime_type _ _ _ _ _ Hl _
          |f outputs filter_name mime_type k _ _ _ _ _ Hl _ Hk];
      try (repeat split; assumption).
    + rewrite locked_no_waiters in Hl by assumption.
      apply Z.eqb_eq in Hl. rewrite Hl in Hpos. discriminate.
    + rewrite locked_no_waiters in Hl by assumption. apply Z.eqb_neq in Hl.
      unfold pool_invariant, settle. cbn [shared in_flight].
      assert (Hsem : conversion_semaphore
                       (left (next_tmp (shared p)) (entered (after_read (shared p))))
                     = conversion_semaphore (shared p)).
      { unfold left. rewrite release_no_waiters by (cbn; assumption). cbn.
        destruct (conversion_semaphore (shared p)) as [v w]. cbn in *. subst w.
        f_equal. lia. }
      rewrite Hsem. repeat split; assumption.
    + rewrite locked_no_waiters in Hl by assumption. apply Z.eqb_neq in Hl.
      unfold pool_invariant, settle. cbn [shared in_flight List.length].
      assert (Hsem : conversion_semaphore (staged f (payload file) (after_read (shared p)))
                     = {| _value := _value (conversion_semaphore (shared p)) - 1;
                          _waiters := _waiters (conversion_semaphore (shared p)) |}).
      { unfold staged. now destruct (place f). }
      rewrite Hsem. cbn [_value _waiters]. repeat split; try assumption; try lia.
      constructor; [|assumption].
      intros er s. rewrite Hk.
      destruct (resume_ends (clock (shared p)) (get_client_ip request) f
                  (input_ext_of f) (output_ext_of to) mime_type
                  (len (payload file)) (next_tmp (shared p)) er s)
        as (s' & events & Hend & _ & Hsem' & _).
      exists s'. split; assumption.
  - rewrite Hin in Hjobs, Hsum.
    apply Forall_app in Hjobs as [Hb Hjobs].
    apply Forall_cons_iff in Hjobs as [Hk Ha].
    destruct (Hk er (shared p)) as (s' & Hend & Hsem).
    rewrite release_no_waiters in Hsem by assumption.
    rewrite length_app in Hsum. cbn [List.length] in Hsum.
    assert (Hp' : pool_invariant config {| shared := s'; in_flight := before ++ after |}).
    { unfold pool_invariant. cbn [shared in_flight]. rewrite Hsem.
      cbn [_value _waiters]. rewrite length_app. repeat split; try lia.
      apply Forall_app. split; assumption. }
    destruct Hend as [[resp ->]|[e ->]]; exact Hp'.
  - repeat split; assumption.
Qed.

Lemma reachable_invariant (p : Process) : reachable config p -> pool_invariant config p.
Proof.
  induction 1 as [auth_enabled now s0 Hs|p p' _ IH Hstep].
  - unfold lifespan, Asyncio.new in Hs.
    destruct (MAX_CONCURRENT config <? 0)%Z eqn:Hneg; [discriminate|].
    injection Hs as <-. apply Z.ltb_ge in Hneg.
    unfold pool_invariant. cbn. repeat split; try lia. constructor.
  - eapply step_invariant; eassumption.
Qed.

End Pool.

Lemma semaphore_left_entered (s : State) :
  locked (conversion_semaphore s) = false ->
  conversion_semaphore (left (next_tmp s) (entered s)) = conversion_semaphore s.
Proof.
  intros Hl. unfold locked in Hl. apply orb_false_iff in Hl as [_ Hw].
  apply negb_false_iff, Nat.eqb_eq in Hw.
  unfold left, release, _wake_up_next, entered. cbn.
  destruct (conversion_semaphore s) as [v w]. cbn in *. subst w.
  f_equal. lia.
Qed.

(** C2. In every state a worker can reach from its start:
    - the handlers in flight, each of which holds one permit, are never more
      than [MAX_CONCURRENT]; the counter of the semaphore is [MAX_CONCURRENT]
      minus their number, and no coroutine waits in its queue;
    - while fewer than [MAX_CONCURRENT] handlers are in flight, a request
      that passes validation is admitted: it is not rejected and does not
      wait, it takes one permit and goes on to the engine, unless its input
      file cannot be written, in which case it ends with [OSError] and the
      permit is back;
    - when [MAX_CONCURRENT] handlers are in flight, a request that passes
      validation is rejected with status 429 by the admission check itself:
      the handler ends there, nothing is queued, no permit moves;
    - as soon as one of the handlers in flight is over, the admission check
      lets a request through, [acquire] returns at once with a permit, and a
      request that passes validation goes on to the engine (or fails on
      writing its input file) instead of being rejected. *)
Theorem C2_admission_pool :
  forall (config : Config) (p : Process),
    reachable config p ->
    let sem := conversion_semaphore (shared p) in
    let held := Z.of_nat (List.length (in_flight p)) in
    (held <= MAX_CONCURRENT config)%Z
    /\ _value sem = (MAX_CONCURRENT config - held)%Z
    /\ _waiters sem = 0
    /\ (forall request file to,
           reaches_admission config file to = true ->
           (held < MAX_CONCURRENT config)%Z ->
           (exists argv s1 k,
               convert config request file to (shared p) = Susp argv s1 k
               /\ conversion_semaphore s1
                  = {| _value := _value sem - 1; _waiters := 0 |})
           \/ (exists s',
                  convert config request file to (shared p) = Exn OSError s'
                  /\ conversion_semaphore s' = sem))
    /\ (forall request file to,
           reaches_admission config file to = true ->
           held = MAX_CONCURRENT config ->
           convert config request file to (shared p)
           = Exn (HTTPException 429
                    (py "Too many concurrent requests. Please retry later."))
                 (after_read (shared p)))
    /\ (forall before k after er,
           in_flight p = before ++ k :: after ->
           let p' := settle (k er (shared p)) (before ++ after) in
           in_flight p' = before ++ after
           /\ admission_check (shared p') = Val tt (shared p')
           /\ acquire (shared p')
              = Val tt (set_semaphore
                          {| _value := _value (conversion_semaphore (shared p')) - 1;
                             _waiters := 0 |} (shared p'))
           /\ forall request file to,
               reaches_admission config file to = true ->
               exists s',
                 (exists argv k',
                     convert config request file to (shared p') = Susp argv s' k')
                 \/ convert config request file to (shared p') = Exn OSError s').
Proof.
  intros config p Hreach sem held.
  destruct (reachable_invariant config p Hreach) as (Hw & Hv & Hsum & Hjobs).
  fold sem in Hw, Hv, Hsum. fold held in Hsum.
  split; [lia|]. split; [lia|]. split; [assumption|]. split; [|split].
  - intros request file to Hvalid Hfree.
    destruct (reaches_admission_valid _ _ _ Hvalid)
      as (f & outputs & filter_name & mime_type & Hf & Hne & Hi & Ho & Hsz).
    rewrite (convert_valid config request file to (shared p) f outputs
               filter_name mime_type) by assumption.
    fold (admit_and_convert (clock (shared p)) (get_client_ip request) f
            (payload file) (input_ext_of f) (output_ext_of to) filter_name
            mime_type (len (payload file))).
    assert (Hlocked : locked (conversion_semaphore (after_read (shared p))) = false).
    { change (conversion_semaphore (after_read (shared p))) with sem.
      rewrite locked_no_waiters by assumption. apply Z.eqb_neq. lia. }
    destruct (place f) eqn:Hplace.
    + left.
      destruct (admit_suspended (clock (shared p)) (get_client_ip request) f
                  (payload file) (input_ext_of f) (output_ext_of to)
                  filter_name mime_type (len (payload file))
                  (after_read (shared p)))
        as (k' & -> & _); [assumption|congruence|].
      eexists _, _, _. split; [reflexivity|].
      unfold staged. rewrite Hplace. cbn. fold sem. now rewrite Hw.
    + left.
      destruct (admit_suspended (clock (shared p)) (get_client_ip request) f
                  (payload file) (input_ext_of f) (output_ext_of to)
                  filter_name mime_type (len (payload file))
                  (after_read (shared p)))
        as (k' & -> & _); [assumption|congruence|].
      eexists _, _, _. split; [reflexivity|].
      unfold staged. rewrite Hplace. cbn. fold sem. now rewrite Hw.
    + right. rewrite admit_unwritable by assumption.
      eexists. split; [reflexivity|].
      now rewrite semaphore_left_entered.
  - intros request file to Hvalid Hfull.
    destruct (reaches_admission_valid _ _ _ Hvalid)
      as (f & outputs & filter_name & mime_type & Hf & Hne & Hi & Ho & Hsz).
    rewrite (convert_valid config request file to (shared p) f outputs
               filter_name mime_type) by assumption.
    apply admit_rejected.
    + change (conversion_semaphore (after_read (shared p))) with sem.
      rewrite locked_no_waiters by assumption. apply Z.eqb_eq. lia.
    + change (conversion_semaphore (after_read (shared p))) with sem.
      rewrite Z.gtb_ltb. apply Z.ltb_ge. lia.
  - intros before k after er Hin p'.
    rewrite Hin in Hjobs. apply Forall_app in Hjobs as [_ Hjobs].
    apply Forall_cons_iff in Hjobs as [Hk _].
    destruct (Hk er (shared p)) as (s' & Hend & Hsem).
    rewrite release_no_waiters in Hsem by assumption. fold sem in Hsem.
    assert (Hp' : p' = {| shared := s'; in_flight := before ++ after |}).
    { subst p'. destruct Hend as [[resp ->]|[e ->]]; reflexivity. }
    rewrite Hp'. cbn [shared in_flight].
    assert (Hlocked : locked (conversion_semaphore s') = false).
    { rewrite Hsem. unfold locked. cbn. rewrite orb_false_r.
      apply Z.eqb_neq. lia. }
    split; [reflexivity|]. split; [|split].
    + unfold admission_check. now rewrite Hlocked.
    + unfold acquire. rewrite Hlocked. cbn [negb]. now rewrite Hsem.
    + intros request file to Hvalid.
      destruct (reaches_admission_valid _ _ _ Hvalid)
        as (f & outputs & filter_name & mime_type & Hf & Hne & Hi & Ho & Hsz).
      rewrite (convert_valid config request file to s' f outputs
                 filter_name mime_type) by assumption.
      fold (admit_and_convert (clock s') (get_client_ip request) f (payload file)
              (input_ext_of f) (output_ext_of to) filter_name mime_type
              (len (payload file))).
      destruct (place f) eqn:Hplace.
      * destruct (admit_suspended (clock s') (get_client_ip request) f
                    (payload file) (input_ext_of f) (output_ext_of to)
                    filter_name mime_type (len (payload file)) (after_read s'))
          as (k' & -> & _); [assumption|congruence|]. eauto.
      * destruct (admit_suspended (clock s') (get_client_ip request) f
                    (payload file) (input_ext_of f) (output_ext_of to)
                    filter_name mime_type (len (payload file)) (after_read s'))
          as (k' & -> & _); [assumption|congruence|]. eauto.
      * rewrite admit_unwritable by assumption. eauto.
Qed.

Lemma C2_witness :
  let first := upload "first.docx" "abc" in
  let second := upload "second.docx" "xyz" in
  let k := rest_of (convert small_config demo_request first (py "pdf")
                      (shared idle_process)) in
  let p' := settle (k (Completed 0 [] []) (shared busy_process)) [] in
  (* one permit, one handler in flight *)
  ((Z.of_nat (List.length (in_flight busy_process)) <= MAX_CONCURRENT small_config)%Z
   /\ _value (conversion_semaphore (shared busy_process)) = (1 - 1)%Z
   /\ _waiters (conversion_semaphore (shared busy_process)) = 0)
  (* the permit is free: the first request is admitted *)
  /\ ((exists argv s1 k1,
          convert small_config demo_request first (py "pdf") (shared idle_process)
          = Susp argv s1 k1
          /\ conversion_semaphore s1 = {| _value := 1 - 1; _waiters := 0 |})
      \/ (exists s',
             convert small_config demo_request first (py "pdf")
               (shared idle_process) = Exn OSError s'
             /\ conversion_semaphore s' = conversion_semaphore (shared idle_process)))
  (* the permit is held: the second request is rejected *)
  /\ convert small_config demo_request second (py "pdf") (shared busy_process)
     = Exn (HTTPException 429
              (py "Too many concurrent requests. Please retry later."))
           (after_read (shared busy_process))
  (* the first handler is over: the second request gets through *)
  /\ (in_flight p' = []
      /\ admission_check (shared p') = Val tt (shared p')
      /\ acquire (shared p')
         = Val tt (set_semaphore
                     {| _value := _value (conversion_semaphore (shared p')) - 1;
                        _waiters := 0 |} (shared p'))
      /\ exists s',
          (exists argv k',
              convert small_config demo_request second (py "pdf") (shared p')
              = Susp argv s' k')
          \/ convert small_config demo_request second (py "pdf") (shared p')
             = Exn OSError s').
Proof.
  intros first second k p'.
  assert (Hidle : reachable small_config idle_process).
  { apply (reach_start small_config false 0). reflexivity. }
  assert (Hbusy : reachable small_config busy_process).
  { eapply reach_step; [exact Hidle|].
    exact (step_request small_config idle_process demo_request first (py "pdf")). }
  pose proof (C2_admission_pool small_config idle_process Hidle) as Hi.
  pose proof (C2_admission_pool small_config busy_process Hbusy) as Hb.
  cbv zeta in Hi, Hb.
  destruct Hi as (_ & _ & _ & Hfree & _ & _).
  destruct Hb as (Hle & Hval & Hwait & _ & Hfull & Hrelease).
  split; [|split; [|split]].
  - split; [exact Hle|]. split; [exact Hval|exact Hwait].
  - apply Hfree; [vm_compute; reflexivity|simpl; lia].
  - apply Hfull; [vm_compute; reflexivity|reflexivity].
  - destruct (Hrelease [] k [] (Completed 0 [] []) eq_refl)
      as (Hflight & Hcheck & Hacquire & Hnext).
    split; [exact Hflight|]. split; [exact Hcheck|]. split; [exact Hacquire|].
    apply Hnext. vm_compute. reflexivity.
Defined.

(* ------------------------------------------------------------------------- *)
(** ** The scenarios, evaluated *)
(* ------------------------------------------------------------------------- *)

Example supported_inputs_in_order :
  sorted (keys CONVERSIONS)
  = [py "csv"; py "doc"; py "docx"; py "odp"; py "ods"; py "odt"; py "ppt";
     py "pptx"; py "rtf"; py "xls"; py "xlsx"].
Proof. vm_compute. reflexivity. Qed.

Example scenario_B :
  convert demo_config demo_request (upload "data.csv" "a,b") (py "pptx") demo_state
  = Exn (HTTPException 400
           (py "Cannot convert .csv to .pptx. Available: ods, xls, xlsx"))
        demo_state.
Proof. vm_compute. reflexivity. Qed.

Example scenario_C :
  convert demo_config demo_request (upload "sheet.xlsx" "1;2") (py "XLSX")
    demo_state
  = Exn (HTTPException 400
           (py "Cannot convert .xlsx to .xlsx. Available: csv, ods, pdf, xls"))
        demo_state.
Proof. vm_compute. reflexivity. Qed.

Example scenario_D :
  let p := arrivals demo_config 10 {| shared := demo_state; in_flight := [] |} in
  List.length (in_flight p) = 10
  /\ _value (conversion_semaphore (shared p)) = 0%Z
  /\ convert demo_config demo_request (upload "report.docx" "hello") (py "pdf")
       (shared p)
     = Exn (HTTPException 429
              (py "Too many concurrent requests. Please retry later."))
           (after_read (shared p)).
Proof. vm_compute. repeat split. Qed.

(** An error stream of 600 characters is logged as its first 500. *)
Example long_error_stream_is_cut :
  let r := convert demo_config demo_request (upload "report.docx" "hello")
             (py "pdf") demo_state in
  let err := repeat "x"%byte 600 in
  match rest_of r (Completed 1 err []) (state_of r) with
  | Exn (HTTPException 500 detail) s' =>
      List.length detail = 19 + 600
      /\ match last (sink s') (event [] []) with
         | {| extra := fields |} =>
             match get fields (py "error") with
             | Some (VStr text) => List.length text = 500
             | _ => False
             end
         end
  | _ => False
  end.
Proof. vm_compute. split; reflexivity. Qed.

(* ========================================================================= *)
(** * Further properties *)
(* ========================================================================= *)

(* ------------------------------------------------------------------------- *)
(** ** Authentication and the endpoints *)
(* ------------------------------------------------------------------------- *)

Lemma partition_space_app (before after : str) :
  ~ In 32%N before ->
  partition_space (before ++ 32%N :: after) = (before, after).
Proof.
  induction before as [|c before IH]; intros H; cbn [app partition_space].
  - reflexivity.
  - unfold char_eqb.
    replace (N.eqb c 32) with false
      by (symmetry; apply N.eqb_neq; intros ->; apply H; now left).
    rewrite IH; [reflexivity|]. intros Hin. apply H. now right.
Qed.

Lemma lower_char_fixes (c : char) (x : char) :
  (x < 65 \/ 122 < x)%N -> lower_char c = x -> c = x.
Proof.
  unfold lower_char. intros Hx.
  destruct (N.leb 65 c && N.leb c 90)%bool eqn:E; [|trivial].
  apply andb_true_iff in E as [E1 E2]. apply N.leb_le in E1, E2. lia.
Qed.

Lemma bearer_has_no_space (sch : str) : lower sch = py "bearer" -> ~ In 32%N sch.
Proof.
  intros H Hin. apply (in_map lower_char) in Hin. fold (lower sch) in Hin.
  rewrite H in Hin. vm_compute in Hin. intuition discriminate.
Qed.

Lemma security_bearer (sch token : str) :
  lower sch = py "bearer" -> token <> [] ->
  security (Some (sch ++ 32%N :: token))
  = Some {| scheme := sch; credentials := token |}.
Proof.
  intros Hs Ht. unfold security, get_authorization_scheme_param.
  assert (Hne : truthy sch = true).
  { destruct sch; [discriminate Hs|reflexivity]. }
  assert (Hall : truthy (sch ++ 32%N :: token) = true).
  { destruct sch; [discriminate Hne|reflexivity]. }
  rewrite Hall, partition_space_app by (now apply bearer_has_no_space).
  rewrite Hne, Hs. destruct token; [contradiction|]. reflexivity.
Qed.

Lemma security_Some (authorization : option str) (c : HTTPAuthorizationCredentials) :
  security authorization = Some c ->
  credentials c <> [] /\ lower (scheme c) = py "bearer".
Proof.
  unfold security.
  destruct (get_authorization_scheme_param authorization) as [sch param].
  destruct (match authorization with Some v => truthy v | None => false end
            && truthy sch && truthy param)%bool eqn:E;
    cbn [negb]; [|discriminate].
  apply andb_true_iff in E as [_ Hp].
  destruct (str_eqb (lower sch) (py "bearer")) eqn:Eb; cbn [negb]; [|discriminate].
  intros [= <-]. cbn [credentials scheme]. split.
  - intros ->. discriminate Hp.
  - now apply str_eqb_eq.
Qed.

Lemma verify_auth_refuses (auth : AuthConfig)
    (creds : option HTTPAuthorizationCredentials) (s : State) :
  AUTH_ENABLED auth = true ->
  (forall c, creds = Some c -> credentials c <> AUTH_TOKEN auth) ->
  exists detail, verify_auth auth creds s = Exn (HTTPException 401 detail) s.
Proof.
  intros He Hc. unfold verify_auth. rewrite He. cbn [negb].
  destruct creds as [c|]; [|eexists; reflexivity].
  specialize (Hc c eq_refl). apply str_eqb_neq in Hc. rewrite Hc.
  eexists. reflexivity.
Qed.

Lemma verify_auth_accepts (auth : AuthConfig)
    (creds : option HTTPAuthorizationCredentials) (s : State) :
  AUTH_ENABLED auth = false
  \/ (exists c, creds = Some c /\ credentials c = AUTH_TOKEN auth) ->
  verify_auth auth creds s = Val tt s.
Proof.
  unfold verify_auth. intros [H|(c & -> & H)].
  - now rewrite H.
  - destruct (AUTH_ENABLED auth); [|reflexivity]. cbn [negb].
    rewrite H, str_eqb_refl. reflexivity.
Qed.

(** X1. With authentication enabled, a request whose [Authorization] header
    is absent, is not a bearer header, or carries another token than
    [AUTH_TOKEN] is answered with status 401 by [POST /convert] and by
    [GET /formats], whatever the file and the target; the state of the worker
    is left as it was: no payload read, no record logged, no permit taken,
    no temporary directory. *)
Theorem X1_unauthorized_request_changes_nothing :
  forall (auth : AuthConfig) (config : Config) (authorization : option str)
         (request : Request) (file : UploadFile) (to : str) (s : State),
    AUTH_ENABLED auth = true ->
    (forall c, security authorization = Some c ->
               credentials c <> AUTH_TOKEN auth) ->
    exists detail,
      post_convert auth config authorization request file to s
      = Exn (HTTPException 401 detail) s
      /\ get_formats auth authorization s = Exn (HTTPException 401 detail) s.
Proof.
  intros auth config authorization request file to s He Hc.
  destruct (verify_auth_refuses auth (security authorization) s He Hc)
    as [detail Hv].
  exists detail. unfold post_convert, get_formats, bind. rewrite Hv.
  split; reflexivity.
Qed.

Lemma X1_witness :
  exists detail,
    post_convert secured demo_config (Some (py "Bearer guess")) demo_request
      (upload "report.docx" "hello") (py "pdf") demo_state
    = Exn (HTTPException 401 detail) demo_state
    /\ get_formats secured (Some (py "Bearer guess")) demo_state
       = Exn (HTTPException 401 detail) demo_state.
Proof.
  apply (X1_unauthorized_request_changes_nothing secured demo_config
           (Some (py "Bearer guess")) demo_request
           (upload "report.docx" "hello") (py "pdf") demo_state).
  - reflexivity.
  - intros c Hc. vm_compute in Hc. injection Hc as <-. vm_compute. discriminate.
Defined.

(** X2. With authentication disabled every request reaches the handler.  With
    authentication enabled and a token that is not empty, the header made of
    the word [bearer] in any letter case, one space and the token is let
    through: [POST /convert] then does what [convert] does and [GET /formats]
    returns the table of formats. *)
Theorem X2_authorized_request_reaches_handler :
  forall (auth : AuthConfig) (config : Config) (authorization : option str)
         (request : Request) (file : UploadFile) (to : str) (s : State),
    AUTH_ENABLED auth = false
    \/ (exists sch, lower sch = py "bearer" /\ AUTH_TOKEN auth <> []
                    /\ authorization = Some (sch ++ 32%N :: AUTH_TOKEN auth)) ->
    post_convert auth config authorization request file to s
    = convert config request file to s
    /\ get_formats auth authorization s = Val list_formats s.
Proof.
  intros auth config authorization request file to s H.
  assert (Hv : verify_auth auth (security authorization) s = Val tt s).
  { apply verify_auth_accepts. destruct H as [H|(sch & Hs & Ht & ->)].
    - now left.
    - right. rewrite security_bearer by assumption. eexists. split; reflexivity. }
  unfold post_convert, get_formats, bind. rewrite Hv. split; reflexivity.
Qed.

Lemma X2_witness :
  post_convert secured demo_config (Some (py "BEARER s3cret")) demo_request
    (upload "report.docx" "hello") (py "pdf") demo_state
  = convert demo_config demo_request (upload "report.docx" "hello") (py "pdf")
      demo_state
  /\ get_formats secured (Some (py "BEARER s3cret")) demo_state
     = Val list_formats demo_state.
Proof.
  apply (X2_authorized_request_reaches_handler secured demo_config
           (Some (py "BEARER s3cret")) demo_request
           (upload "report.docx" "hello") (py "pdf") demo_state).
  right. exists (py "BEARER"). repeat split.
  vm_compute. discriminate.
Defined.

(** X3. With authentication enabled and [AUTH_TOKEN] left empty (its
    default), no header is accepted: every request to [POST /convert] and to
    [GET /formats] is answered with status 401. *)
Theorem X3_empty_token_locks_everyone_out :
  forall (auth : AuthConfig) (config : Config) (authorization : option str)
         (request : Request) (file : UploadFile) (to : str) (s : State),
    AUTH_ENABLED auth = true ->
    AUTH_TOKEN auth = [] ->
    exists detail,
      post_convert auth config authorization request file to s
      = Exn (HTTPException 401 detail) s
      /\ get_formats auth authorization s = Exn (HTTPException 401 detail) s.
Proof.
  intros auth config authorization request file to s He Ht.
  assert (Hc : forall c, security authorization = Some c ->
                         credentials c <> AUTH_TOKEN auth).
  { intros c Hc. rewrite Ht. now apply security_Some in Hc. }
  destruct (verify_auth_refuses auth (security authorization) s He Hc)
    as [detail Hv].
  exists detail. unfold post_convert, get_formats, bind. rewrite Hv.
  split; reflexivity.
Qed.

Lemma X3_witness :
  exists detail,
    post_convert {| AUTH_ENABLED := true; AUTH_TOKEN := [] |} demo_config
      (Some (py "Bearer ")) demo_request (upload "report.docx" "hello")
      (py "pdf") demo_state
    = Exn (HTTPException 401 detail) demo_state
    /\ get_formats {| AUTH_ENABLED := true; AUTH_TOKEN := [] |}
         (Some (py "Bearer ")) demo_state
       = Exn (HTTPException 401 detail) demo_state.
Proof.
  apply (X3_empty_token_locks_everyone_out
           {| AUTH_ENABLED := true; AUTH_TOKEN := [] |} demo_config
           (Some (py "Bearer ")) demo_request (upload "report.docx" "hello")
           (py "pdf") demo_state); reflexivity.
Defined.

Lemma get_map_values {V W : Type} (g : V -> W) (d : dict V) (k : str) :
  get (map (fun entry => (fst entry, g (snd entry))) d) k = option_map g (get d k).
Proof.
  induction d as [|[k' v] d IH]; cbn; [reflexivity|].
  destruct (str_eqb k k'); [reflexivity|exact IH].
Qed.

(** X4. [GET /formats] and [POST /convert] agree: for a request with a
    filename, the output extension derived from [to] is in the list that
    [list_formats] gives for the input extension of the filename exactly when
    [convert] does not refuse the request with status 400. *)
Theorem X4_listed_pairs_are_the_accepted_pairs :
  forall (config : Config) (request : Request) (file : UploadFile) (to : str)
         (s : State) (f : str),
    filename file = Some f ->
    ((exists outs, get list_formats (input_ext_of f) = Some outs
                   /\ In (output_ext_of to) outs)
     <-> ~ (exists detail s',
               convert config request file to s = Exn (HTTPException 400 detail) s')).
Proof.
  intros config request file to s f Hf. unfold list_formats.
  rewrite get_map_values. split.
  - intros (outs & Hget & Hin) (detail & s' & Hr).
    destruct (get CONVERSIONS (input_ext_of f)) as [outputs|] eqn:Hi;
      [|discriminate Hget].
    injection Hget as <-. apply contains_keys in Hin.
    revert Hr.
    destruct (convert_handled config request file to s)
      as [[H|H]|f0 H _ Hc|f0 outs0 H _ Hi0 Ho0| | | | |]; intros Hr;
      try discriminate Hr; rewrite Hf in H; try discriminate H.
    + injection H as ->. vm_compute in Hi. discriminate.
    + injection H as <-. unfold contains in Hc. now rewrite Hi in Hc.
    + injection H as <-. rewrite Hi in Hi0. injection Hi0 as <-. congruence.
  - intros Hno.
    destruct (validation_cases config file to)
      as [H|f0 H Hne Hi|f0 outputs H Hne Hi Ho|f0 outputs H Hne Hi Ho Hsz
          |f0 outputs filter_name mime_type H Hne Hi Ho Hsz].
    + exfalso. apply Hno. eexists _, _. now apply convert_no_filename.
    + exfalso. apply Hno. eexists _, _. eapply convert_bad_input; eassumption.
    + exfalso. apply Hno. eexists _, _. eapply convert_bad_pair; eassumption.
    + rewrite Hf in H. injection H as <-. rewrite Hi. exists (keys outputs).
      split; [reflexivity|]. now apply contains_keys.
    + rewrite Hf in H. injection H as <-. rewrite Hi. exists (keys outputs).
      split; [reflexivity|]. apply contains_keys. unfold contains. now rewrite Ho.
Qed.

Lemma X4_witness :
  (exists outs, get list_formats (input_ext_of (py "slides.PPTX")) = Some outs
                /\ In (output_ext_of (py ".odp")) outs)
  <-> ~ (exists detail s',
            convert demo_config demo_request (upload "slides.PPTX" "x") (py ".odp")
              demo_state = Exn (HTTPException 400 detail) s').
Proof.
  apply (X4_listed_pairs_are_the_accepted_pairs demo_config demo_request
           (upload "slides.PPTX" "x") (py ".odp") demo_state (py "slides.PPTX")).
  reflexivity.
Defined.

(* ------------------------------------------------------------------------- *)
(** ** The client address *)
(* ------------------------------------------------------------------------- *)

Lemma split_app (sep : char) (a rest : str) :
  ~ In sep a -> split sep (a ++ sep :: rest) = a :: split sep rest.
Proof.
  induction a as [|c a IH]; intros H; cbn [app split].
  - unfold char_eqb. now rewrite N.eqb_refl.
  - unfold char_eqb.
    replace (N.eqb c sep) with false
      by (symmetry; apply N.eqb_neq; intros ->; apply H; now left).
    rewrite IH; [reflexivity|]. intros Hin. apply H. now right.
Qed.

Lemma split_no_sep (sep : char) (s : str) : ~ In sep s -> split sep s = [s].
Proof.
  induction s as [|c s IH]; intros H; cbn [split]; [reflexivity|].
  unfold char_eqb.
  replace (N.eqb c sep) with false
    by (symmetry; apply N.eqb_neq; intros ->; apply H; now left).
  rewrite IH; [reflexivity|]. intros Hin. apply H. now right.
Qed.

Lemma split_hd_no_sep (sep : char) (s : str) : ~ In sep (hd [] (split sep s)).
Proof.
  induction s as [|c s IH]; cbn [split]; [intros []|].
  destruct (char_eqb c sep) eqn:E; [intros []|].
  destruct (split sep s) as [|w ws]; cbn [hd] in *.
  - intros [->|[]]. unfold char_eqb in E. now rewrite N.eqb_refl in E.
  - intros [->|H]; [|now apply IH].
    unfold char_eqb in E. now rewrite N.eqb_refl in E.
Qed.

Lemma lstrip_In (chars s : str) (c : char) : In c (lstrip chars s) -> In c s.
Proof.
  induction s as [|x s IH]; cbn [lstrip]; [trivial|].
  destruct (existsb (char_eqb x) chars); [|trivial].
  intros H. right. now apply IH.
Qed.

Lemma lstrip_hd (chars s : str) (c : char) (r : str) :
  lstrip chars s = c :: r -> ~ In c chars.
Proof.
  induction s as [|x s IH]; cbn [lstrip]; [discriminate|].
  destruct (existsb (char_eqb x) chars) eqn:E; [exact IH|].
  intros [= -> _] Hin.
  assert (existsb (char_eqb c) chars = true); [|congruence].
  apply existsb_exists. exists c. split; [assumption|apply N.eqb_refl].
Qed.

Lemma strip_In (s : str) (c : char) : In c (strip s) -> In c s.
Proof.
  unfold strip, rstrip. intros H. apply in_rev in H. apply lstrip_In in H.
  apply in_rev in H. now apply lstrip_In in H.
Qed.

Lemma strip_last (s r : str) (c : char) :
  strip s = r ++ [c] -> ~ In c whitespace.
Proof.
  unfold strip, rstrip. intros H.
  apply (f_equal (@rev char)) in H. rewrite rev_involutive, rev_app_distr in H.
  cbn [rev app] in H. now apply lstrip_hd in H.
Qed.

Lemma lstrip_suffix (chars s : str) : exists p, p ++ lstrip chars s = s.
Proof.
  induction s as [|x s [p IH]]; cbn [lstrip]; [now exists []|].
  destruct (existsb (char_eqb x) chars); [|now exists []].
  exists (x :: p). cbn [app]. now rewrite IH.
Qed.

Lemma rstrip_prefix (chars s : str) : exists u, rstrip chars s ++ u = s.
Proof.
  unfold rstrip. destruct (lstrip_suffix chars (rev s)) as [p Hp].
  exists (rev p). rewrite <- rev_app_distr, Hp. apply rev_involutive.
Qed.

Lemma strip_hd (s r : str) (c : char) :
  strip s = c :: r -> ~ In c whitespace.
Proof.
  unfold strip. intros H.
  destruct (rstrip_prefix whitespace (lstrip whitespace s)) as [u Hu].
  rewrite H in Hu. cbn [app] in Hu. symmetry in Hu. now apply lstrip_hd in Hu.
Qed.

(** X5. When the [x-forwarded-for] header is present and not empty,
    [get_client_ip] returns its first comma-separated element with the white
    space around it removed: the result contains no comma, neither begins nor
    ends with white space, is decided by what precedes the first comma, and
    does not depend on the address of the peer. *)
Theorem X5_client_ip_from_forwarded_header :
  forall (request : Request) (h : str),
    x_forwarded_for request = Some h -> h <> [] ->
    let ip := get_client_ip request in
    ~ In 44%N ip
    /\ (forall c r, ip = c :: r -> ~ In c whitespace)
    /\ (forall c r, ip = r ++ [c] -> ~ In c whitespace)
    /\ (forall a rest, h = a ++ 44%N :: rest -> ~ In 44%N a -> ip = strip a)
    /\ (~ In 44%N h -> ip = strip h)
    /\ (forall peer,
           get_client_ip {| x_forwarded_for := Some h; client := peer |} = ip).
Proof.
  intros request h Hh Hne ip.
  assert (Hip : ip = strip (hd [] (split 44%N h))).
  { unfold ip, get_client_ip. rewrite Hh. destruct h; [contradiction|reflexivity]. }
  repeat split.
  - rewrite Hip. intros H. apply strip_In in H. now apply split_hd_no_sep in H.
  - intros c r H. rewrite Hip in H. now apply strip_hd in H.
  - intros c r H. rewrite Hip in H. now apply strip_last in H.
  - intros a rest -> Ha. rewrite Hip, split_app by assumption. reflexivity.
  - intros H. rewrite Hip, split_no_sep by assumption. reflexivity.
  - intros peer. rewrite Hip. unfold get_client_ip. cbn [x_forwarded_for].
    destruct h; [contradiction|reflexivity].
Qed.

Lemma X5_witness :
  let request := {| x_forwarded_for := Some (py " 198.51.100.4 , 10.0.0.1");
                    client := Some (py "10.0.0.9") |} in
  let ip := get_client_ip request in
  ~ In 44%N ip
  /\ (forall c r, ip = c :: r -> ~ In c whitespace)
  /\ (forall c r, ip = r ++ [c] -> ~ In c whitespace)
  /\ (forall a rest, py " 198.51.100.4 , 10.0.0.1" = a ++ 44%N :: rest ->
                     ~ In 44%N a -> ip = strip a)
  /\ (~ In 44%N (py " 198.51.100.4 , 10.0.0.1") ->
      ip = strip (py " 198.51.100.4 , 10.0.0.1"))
  /\ (forall peer,
         get_client_ip {| x_forwarded_for := Some (py " 198.51.100.4 , 10.0.0.1");
                          client := peer |} = ip).
Proof.
  intros request.
  apply (X5_client_ip_from_forwarded_header request
           (py " 198.51.100.4 , 10.0.0.1")).
  - reflexivity.
  - vm_compute. discriminate.
Defined.

(* ------------------------------------------------------------------------- *)
(** ** The command, the response and the failures of the engine *)
(* ------------------------------------------------------------------------- *)


Lemma mime_by_output (e1 e2 : str) (outputs1 outputs2 : dict rule)
    (o f1 m1 f2 m2 : str) :
  get CONVERSIONS e1 = Some outputs1 -> get outputs1 o = Some (f1, m1) ->
  get CONVERSIONS e2 = Some outputs2 -> get outputs2 o = Some (f2, m2) ->
  m1 = m2.
Proof.
  intros H1 Ho1 H2 Ho2.
  assert (H : forallb
                (fun item1 =>
                   forallb
                     (fun entry2 =>
                        match get (snd entry2) (fst item1) with
                        | Some (_, m) => str_eqb m (snd (snd item1))
                        | None => true
                        end) CONVERSIONS) outputs1 = true).
  { refine (table_forall
              (fun _ outs =>
                 forallb
                   (fun item1 =>
                      forallb
                        (fun entry2 =>
                           match get (snd entry2) (fst item1) with
                           | Some (_, m) => str_eqb m (snd (snd item1))
                           | None => true
                           end) CONVERSIONS) outs)
              _ e1 outputs1 H1).
    vm_compute. reflexivity. }
  rewrite forallb_forall in H. apply get_In in Ho1. specialize (H _ Ho1).
  cbn [fst snd] in H. rewrite forallb_forall in H.
  apply get_In in H2. specialize (H _ H2). cbn [fst snd] in H.
  unfold rule in *. rewrite Ho2 in H. apply str_eqb_eq in H. now symmetry.
Qed.



Lemma encodable_latin1_app (a b : str) :
  encodable_latin1 (a ++ b) = (encodable_latin1 a && encodable_latin1 b)%bool.
Proof. apply forallb_app. Qed.

(** The MIME types of the format table are latin-1 text and none of them
    names a character set. *)
Lemma mime_types_plain (e : str) (outputs : dict rule) (o filter_name mime_type : str) :
  get CONVERSIONS e = Some outputs ->
  get outputs o = Some (filter_name, mime_type) ->
  encodable_latin1 mime_type = true
  /\ str_in (py "charset=") (lower mime_type) = false.
Proof.
  intros Hi Ho.
  assert (H : forallb (fun item =>
                         encodable_latin1 (snd (snd item))
                         && negb (str_in (py "charset=") (lower (snd (snd item)))))
                outputs = true).
  { refine (table_forall
              (fun _ outs =>
                 forallb (fun item =>
                            encodable_latin1 (snd (snd item))
                            && negb (str_in (py "charset=")
                                       (lower (snd (snd item))))) outs)
              _ e outputs Hi).
    vm_compute. reflexivity. }
  rewrite forallb_forall in H. apply get_In in Ho. specialize (H _ Ho).
  cbn [fst snd] in H. apply andb_true_iff in H as [H1 H2].
  split; [exact H1|]. now apply negb_true_iff in H2.
Qed.

(** For a pair of the format table the header [content-type] is the MIME type,
    followed by the character set for the text types, and the response can be
    constructed exactly when the stem of the filename is latin-1 text. *)
Lemma encodable_stem (f to : str) (outputs : dict rule) (filter_name mime_type : str) :
  get CONVERSIONS (input_ext_of f) = Some outputs ->
  get outputs (output_ext_of to) = Some (filter_name, mime_type) ->
  content_type mime_type
  = (if startswith (py "text/") mime_type
     then mime_type ++ py "; charset=utf-8" else mime_type)
  /\ encodable f (output_ext_of to) mime_type = encodable_latin1 (stem f).
Proof.
  intros Hi Ho.
  destruct (mime_types_plain _ _ _ _ _ Hi Ho) as [Hm Hc].
  assert (Hct : content_type mime_type
                = (if startswith (py "text/") mime_type
                   then mime_type ++ py "; charset=utf-8" else mime_type)).
  { unfold content_type. rewrite Hc. cbn [negb]. now rewrite andb_true_r. }
  split; [exact Hct|].
  assert (Ho' : encodable_latin1 (output_ext_of to) = true).
  { apply forallb_forall. intros c Hin. apply N.ltb_lt.
    assert (Hw : lowercase_word (output_ext_of to) = true).
    { apply (outputs_lowercase _ _ _ Hi). unfold contains. now rewrite Ho. }
    pose proof (lowercase_word_chars _ _ Hw Hin). lia. }
  unfold encodable, disposition. rewrite Hct.
  rewrite !encodable_latin1_app, Ho'.
  replace (encodable_latin1 (py "attachment; filename=")) with true
    by (vm_compute; reflexivity).
  replace (encodable_latin1 (py ".")) with true by (vm_compute; reflexivity).
  replace (encodable_latin1 [34%N]) with true by (vm_compute; reflexivity).
  assert (Hlast : encodable_latin1
                    (if startswith (py "text/") mime_type
                     then mime_type ++ py "; charset=utf-8" else mime_type) = true).
  { destruct (startswith (py "text/") mime_type); [|exact Hm].
    rewrite encodable_latin1_app, Hm. vm_compute. reflexivity. }
  rewrite Hlast. cbn [andb]. now rewrite !andb_true_r.
Qed.

(** What a returned response is made of. *)
Lemma returned_response (config : Config) (request : Request) (file : UploadFile)
    (to : str) (s : State) (engine : engine_model) (resp : Response) (s' : State) :
  run engine (convert config request file to s) = Returned resp s' ->
  exists f outputs filter_name mime_type argv s1 k err entries n rest,
    filename file = Some f
    /\ get CONVERSIONS (input_ext_of f) = Some outputs
    /\ get outputs (output_ext_of to) = Some (filter_name, mime_type)
    /\ convert config request file to s = Susp argv s1 k
    /\ engine argv (scratch s1) = Completed 0 err entries
    /\ filter (fun e => fnmatch (py "*." ++ output_ext_of to) (fst e)) entries
       = (n, content resp) :: rest
    /\ encodable f (output_ext_of to) mime_type = true
    /\ resp = response f (output_ext_of to) mime_type (content resp)
    /\ sink s'
       = sink s
         ++ [complete_event (get_client_ip request) (input_ext_of f)
               (output_ext_of to) (len (payload file)) (len (content resp))
               (clock s - clock s)].
Proof.
  intros Hrun.
  destruct (convert config request file to s) as [a s0|e s0|argv s1 k|s0] eqn:Hc;
    try discriminate Hrun.
  { pose proof (convert_handled config request file to s) as Hh.
    rewrite Hc in Hh. inversion Hh. }
  destruct (handled_Susp_inv _ _ _ _ _ _ _ _ Hc)
    as (f & outputs & filter_name & mime_type & Hf & _ & Hi & Ho & _ & _ & _
        & _ & Hs1 & Hk).
  cbn [run] in Hrun. rewrite Hk in Hrun.
  destruct (engine argv (scratch s1)) as [rc err entries|entries|] eqn:He;
    cbn [resume] in Hrun; try discriminate Hrun.
  destruct (rc =? 0)%Z eqn:Hrc; [|destruct (decode err); discriminate Hrun].
  apply Z.eqb_eq in Hrc. subst rc.
  unfold output_files in Hrun. rewrite listdir_set_dir in Hrun.
  2:{ rewrite Hs1, exists_dir_staged.
      change (next_tmp (after_read s)) with (next_tmp s).
      now rewrite Nat.eqb_refl. }
  destruct (filter _ entries) as [|[n data] rest] eqn:Hfilter;
    [discriminate Hrun|].
  cbv zeta in Hrun.
  destruct (encodable f (output_ext_of to) mime_type) eqn:Henc;
    [|discriminate Hrun].
  cbn [run] in Hrun. injection Hrun as <- <-.
  exists f, outputs, filter_name, mime_type, argv, s1, k, err, entries, n, rest.
  repeat (split; [assumption || reflexivity|]).
  subst s1.
  assert (Hclock : clock (staged f (payload file) (after_read s)) = clock s)
    by (unfold staged; destruct (place f); reflexivity).
  rewrite sink_logged, sink_left, sink_set_dir, sink_staged, Hclock.
  reflexivity.
Qed.

(** X7. When a request ends with a response, the content of the response is
    the content of the first file, in the order of the directory listing, that
    matches [*.EXT] in what the engine left; its media type is the MIME type
    the format table gives for the pair of extensions; its headers are, in
    this order, [content-disposition] with the stem of the uploaded filename
    followed by the output extension, [content-length] with the length of the
    content, and [content-type] with the media type, followed by
    [; charset=utf-8] for the text types; the stem of the filename is latin-1
    text; and the record logged carries the sizes of the payload and of the
    content. *)
Theorem X7_response_on_success :
  forall (config : Config) (request : Request) (file : UploadFile) (to : str)
         (s : State) (engine : engine_model) (resp : Response) (s' : State),
    run engine (convert config request file to s) = Returned resp s' ->
    exists f outputs filter_name argv s1 k err entries n rest rec,
      filename file = Some f
      /\ get CONVERSIONS (input_ext_of f) = Some outputs
      /\ get outputs (output_ext_of to) = Some (filter_name, media_type resp)
      /\ headers resp
         = [(py "content-disposition",
             py "attachment; filename=" ++ [34%N]
               ++ (stem f ++ py "." ++ output_ext_of to) ++ [34%N]);
            (py "content-length", str_of_int (len (content resp)));
            (py "content-type",
             if startswith (py "text/") (media_type resp)
             then media_type resp ++ py "; charset=utf-8"
             else media_type resp)]
      /\ encodable_latin1 (stem f) = true
      /\ convert config request file to s = Susp argv s1 k
      /\ engine argv (scratch s1) = Completed 0 err entries
      /\ filter (fun e => fnmatch (py "*." ++ output_ext_of to) (fst e)) entries
         = (n, content resp) :: rest
      /\ sink s' = sink s ++ [rec]
      /\ get (extra rec) (py "input_size_bytes") = Some (VInt (len (payload file)))
      /\ get (extra rec) (py "output_size_bytes") = Some (VInt (len (content resp))).
Proof.
  intros config request file to s engine resp s' Hrun.
  destruct (returned_response _ _ _ _ _ _ _ _ Hrun)
    as (f & outputs & filter_name & mime_type & argv & s1 & k & err & entries
        & n & rest & Hf & Hi & Ho & Hc & He & Hfilter & Henc & Hresp & Hsink).
  destruct (encodable_stem f to outputs filter_name mime_type Hi Ho)
    as [Hct Hstem].
  assert (Hmt : media_type resp = mime_type) by (rewrite Hresp; reflexivity).
  assert (Hh : headers resp
               = [(py "content-disposition", disposition f (output_ext_of to));
                  (py "content-length", str_of_int (len (content resp)));
                  (py "content-type", content_type mime_type)])
    by (rewrite Hresp at 1; reflexivity).
  eexists f, outputs, filter_name, argv, s1, k, err, entries, n, rest, _.
  rewrite Hh, Hmt, Hct. unfold disposition.
  split; [exact Hf|]. split; [exact Hi|]. split; [exact Ho|].
  split; [reflexivity|]. split; [now rewrite <- Hstem|].
  split; [exact Hc|]. split; [exact He|]. split; [exact Hfilter|].
  split; [exact Hsink|]. split; reflexivity.
Qed.

Lemma X7_witness :
  let file := upload "notes.odt" "hello" in
  let engine : engine_model := fun _ _ =>
    Completed 0 [] [(py "notes.txt", ascii_bytes "hello")] in
  let o := run engine
             (convert demo_config demo_request file (py "txt") demo_state) in
  let resp := {| content := ascii_bytes "hello";
                 media_type := py "text/plain";
                 headers := [(py "content-disposition",
                              py "attachment; filename=" ++ [34%N]
                                ++ py "notes.txt" ++ [34%N]);
                             (py "content-length", py "5");
                             (py "content-type",
                              py "text/plain; charset=utf-8")] |} in
  exists f outputs filter_name argv s1 k err entries n rest rec,
    filename file = Some f
    /\ get CONVERSIONS (input_ext_of f) = Some outputs
    /\ get outputs (output_ext_of (py "txt")) = Some (filter_name, media_type resp)
    /\ headers resp
       = [(py "content-disposition",
           py "attachment; filename=" ++ [34%N]
             ++ (stem f ++ py "." ++ output_ext_of (py "txt")) ++ [34%N]);
          (py "content-length", str_of_int (len (content resp)));
          (py "content-type",
           if startswith (py "text/") (media_type resp)
           then media_type resp ++ py "; charset=utf-8"
           else media_type resp)]
    /\ encodable_latin1 (stem f) = true
    /\ convert demo_config demo_request file (py "txt") demo_state
       = Susp argv s1 k
    /\ engine argv (scratch s1) = Completed 0 err entries
    /\ filter (fun e => fnmatch (py "*." ++ output_ext_of (py "txt")) (fst e))
         entries
       = (n, content resp) :: rest
    /\ sink (final_state o) = sink demo_state ++ [rec]
    /\ get (extra rec) (py "input_size_bytes") = Some (VInt (len (payload file)))
    /\ get (extra rec) (py "output_size_bytes")
       = Some (VInt (len (content resp))).
Proof.
  intros file engine o resp.
  apply (X7_response_on_success demo_config demo_request file (py "txt")
           demo_state engine resp (final_state o)).
  vm_compute. reflexivity.
Defined.

(** X20. A filename whose stem has a character above U+00FF.  When the
    engine has exited with status 0 and left a file that matches the output
    pattern, the handler removes the temporary directory, hands the
    [conversion_complete] record to the logger, and then fails to construct
    the response: it raises [UnicodeEncodeError], because the
    [Content-Disposition] header, which carries the stem, is not latin-1
    text.  The log says the conversion is complete and the client gets no
    document. *)
Theorem X20_stem_outside_latin1 :
  forall (config : Config) (request : Request) (file : UploadFile) (to : str)
         (s : State) (argv : list str) (s1 : State)
         (k : engine_result -> State -> res Response) (f : str)
         (err : bytes) (entries : directory) (n : str) (data : bytes)
         (s2 : State),
    convert config request file to s = Susp argv s1 k ->
    filename file = Some f ->
    encodable_latin1 (stem f) = false ->
    exists_dir (next_tmp s) s2 = true ->
    In (n, data) entries ->
    fnmatch (py "*." ++ output_ext_of to) n = true ->
    exists rec s3,
      k (Completed 0 err entries) s2 = Exn UnicodeEncodeError s3
      /\ sink s3 = sink s2 ++ [rec]
      /\ msg rec = py "conversion_complete"
      /\ exists_dir (next_tmp s) s3 = false.
Proof.
  intros config request file to s argv s1 k f err entries n data s2 H Hf Hstem
         Hdir Hin Hm.
  destruct (handled_Susp_inv _ _ _ _ _ _ _ _ H)
    as (f0 & outputs & filter_name & mime_type & Hf0 & _ & Hi & Ho & _ & _ & _
        & _ & _ & Hk).
  rewrite Hf in Hf0. injection Hf0 as <-.
  rewrite Hk. cbn [resume Z.eqb].
  unfold output_files. rewrite listdir_set_dir by exact Hdir.
  destruct (filter_some
              (fun e => fnmatch (py "*." ++ output_ext_of to) (fst e))
              entries (n, data) Hin Hm) as ([n' data'] & rest & ->).
  cbv zeta.
  rewrite (proj2 (encodable_stem f to outputs filter_name mime_type Hi Ho)), Hstem.
  eexists _, _. split; [reflexivity|]. split; [reflexivity|].
  split; [reflexivity|].
  rewrite exists_dir_logged, exists_dir_left, exists_dir_set_dir, Hdir.
  now rewrite Nat.eqb_refl.
Qed.

Lemma X20_witness :
  let name := [25253; 21578]%N ++ py ".docx" in
  let file := {| filename := Some name; payload := ascii_bytes "hello" |} in
  let r := convert demo_config demo_request file (py "pdf") demo_state in
  exists rec s3,
    rest_of r (Completed 0 [] [(py "out.pdf", ascii_bytes "%PDF-1.7")])
      (state_of r)
    = Exn UnicodeEncodeError s3
    /\ sink s3 = sink (state_of r) ++ [rec]
    /\ msg rec = py "conversion_complete"
    /\ exists_dir (next_tmp demo_state) s3 = false.
Proof.
  intros name file r.
  apply (X20_stem_outside_latin1 demo_config demo_request file (py "pdf")
           demo_state (awaited_argv r) (state_of r) (rest_of r) name []
           [(py "out.pdf", ascii_bytes "%PDF-1.7")]
           (py "out.pdf") (ascii_bytes "%PDF-1.7") (state_of r)).
  - vm_compute. reflexivity.
  - reflexivity.
  - vm_compute. reflexivity.
  - vm_compute. reflexivity.
  - simpl. left. reflexivity.
  - vm_compute. reflexivity.
Defined.

(** X8. The media type of a response depends on the output extension only:
    two requests that end with a response and whose targets have the same
    normal form get the same media type, whatever their input formats,
    configurations and engines. *)
Theorem X8_media_type_by_output_extension :
  forall (config1 config2 : Config) (request1 request2 : Request)
         (file1 file2 : UploadFile) (to1 to2 : str) (s1 s2 : State)
         (engine1 engine2 : engine_model) (resp1 resp2 : Response)
         (s1' s2' : State),
    run engine1 (convert config1 request1 file1 to1 s1) = Returned resp1 s1' ->
    run engine2 (convert config2 request2 file2 to2 s2) = Returned resp2 s2' ->
    output_ext_of to1 = output_ext_of to2 ->
    media_type resp1 = media_type resp2.
Proof.
  intros config1 config2 request1 request2 file1 file2 to1 to2 s1 s2
         engine1 engine2 resp1 resp2 s1' s2' H1 H2 Hto.
  destruct (returned_response _ _ _ _ _ _ _ _ H1)
    as (f1 & outputs1 & filter1 & mime1 & _ & _ & _ & _ & _ & _ & _ & _ & Hi1
        & Ho1 & _ & _ & _ & _ & Hr1 & _).
  destruct (returned_response _ _ _ _ _ _ _ _ H2)
    as (f2 & outputs2 & filter2 & mime2 & _ & _ & _ & _ & _ & _ & _ & _ & Hi2
        & Ho2 & _ & _ & _ & _ & Hr2 & _).
  rewrite Hr1, Hr2. cbn [media_type response]. rewrite <- Hto in Ho2.
  exact (mime_by_output _ _ _ _ _ _ _ _ _ Hi1 Ho1 Hi2 Ho2).
Qed.

Lemma X8_witness :
  let pdf := {| content := ascii_bytes "%PDF-1.7";
                media_type := py "application/pdf";
                headers := [(py "content-disposition",
                             py "attachment; filename=" ++ [34%N]
                               ++ py "report.pdf" ++ [34%N]);
                            (py "content-length", py "8");
                            (py "content-type", py "application/pdf")] |} in
  let pdf' := {| content := ascii_bytes "%PDF-1.7";
                 media_type := py "application/pdf";
                 headers := [(py "content-disposition",
                              py "attachment; filename=" ++ [34%N]
                                ++ py "sheet.pdf" ++ [34%N]);
                             (py "content-length", py "8");
                             (py "content-type", py "application/pdf")] |} in
  media_type pdf = media_type pdf'.
Proof.
  intros pdf pdf'.
  apply (X8_media_type_by_output_extension demo_config demo_config
           demo_request demo_request
           (upload "report.docx" "hello") (upload "sheet.xlsx" "1;2")
           (py "pdf") (py ".PDF") demo_state demo_state pdf_engine pdf_engine
           pdf pdf'
           (final_state (run pdf_engine
              (convert demo_config demo_request (upload "report.docx" "hello")
                 (py "pdf") demo_state)))
           (final_state (run pdf_engine
              (convert demo_config demo_request (upload "sheet.xlsx" "1;2")
                 (py ".PDF") demo_state)))).
  - vm_compute. reflexivity.
  - vm_compute. reflexivity.
  - vm_compute. reflexivity.
Defined.

(** X9. Three ways the engine can fail leave no record in the log.  For a
    handler that awaits the engine, resumed in any state:
    - when the engine could not be started, the handler raises [OSError];
    - when the engine exits with a non-zero status and its error stream is
      not valid UTF-8, the handler raises [UnicodeDecodeError] instead of the
      HTTP error of a failed conversion;
    - when the engine exits with status 0 and none of the files it left
      matches [*.EXT], the handler raises [HTTPException(500, "Conversion
      produced no output")].
    In the three cases the logger has handled nothing. *)
Theorem X9_failures_without_a_record :
  forall (config : Config) (request : Request) (file : UploadFile) (to : str)
         (s : State) (argv : list str) (s1 : State)
         (k : engine_result -> State -> res Response),
    convert config request file to s = Susp argv s1 k ->
    forall s2 : State,
      (exists s3, k NotStarted s2 = Exn OSError s3 /\ sink s3 = sink s2)
      /\ (forall rc err entries,
             rc <> 0%Z -> decode err = None ->
             exists s3, k (Completed rc err entries) s2 = Exn UnicodeDecodeError s3
                        /\ sink s3 = sink s2)
      /\ (forall err entries,
             (forall n data, In (n, data) entries ->
                             fnmatch (py "*." ++ output_ext_of to) n = false) ->
             exists s3,
               k (Completed 0 err entries) s2
               = Exn (HTTPException 500 (py "Conversion produced no output")) s3
               /\ sink s3 = sink s2).
Proof.
  intros config request file to s argv s1 k H s2.
  destruct (handled_Susp_inv _ _ _ _ _ _ _ _ H)
    as (f & outputs & filter_name & mime_type & _ & _ & _ & _ & _ & _ & _ & _
        & _ & Hk).
  split; [|split].
  - rewrite Hk. cbn [resume]. eexists. split; reflexivity.
  - intros rc err entries Hrc Hdec. rewrite Hk. cbn [resume].
    replace (rc =? 0)%Z with false by (symmetry; now apply Z.eqb_neq).
    rewrite Hdec. eexists. split; reflexivity.
  - intros err entries Hno. rewrite Hk. cbn [resume Z.eqb].
    unfold output_files. rewrite listdir_set_dir_cases.
    rewrite filter_none.
    + eexists. split; reflexivity.
    + intros [n data] Hin. cbn [fst].
      destruct (exists_dir (next_tmp s) s2); [|destruct Hin].
      eapply Hno; eassumption.
Qed.

Lemma X9_witness :
  let r := convert demo_config demo_request (upload "report.docx" "hello")
             (py "pdf") demo_state in
  let s2 := state_of r in
  (exists s3, rest_of r NotStarted s2 = Exn OSError s3 /\ sink s3 = sink s2)
  /\ (forall rc err entries,
         rc <> 0%Z -> decode err = None ->
         exists s3, rest_of r (Completed rc err entries) s2
                    = Exn UnicodeDecodeError s3
                    /\ sink s3 = sink s2)
  /\ (forall err entries,
         (forall n data, In (n, data) entries ->
                         fnmatch (py "*." ++ output_ext_of (py "pdf")) n = false) ->
         exists s3,
           rest_of r (Completed 0 err entries) s2
           = Exn (HTTPException 500 (py "Conversion produced no output")) s3
           /\ sink s3 = sink s2).
Proof.
  intros r s2.
  apply (X9_failures_without_a_record demo_config demo_request
           (upload "report.docx" "hello") (py "pdf") demo_state
           (awaited_argv r) (state_of r) (rest_of r)).
  vm_compute. reflexivity.
Defined.



(** X11. Every permit taken is given back, once.  When [convert] awaits the
    engine it holds one permit: the counter is one less than before.  Resumed
    in any state in which no coroutine waits for the semaphore, the handler
    ends, on every path, with the counter one more than in that state.  So a
    request run from start to end while nothing else runs leaves the
    semaphore exactly as it found it. *)
Theorem X11_permit_returned_on_every_path :
  forall (config : Config) (request : Request) (file : UploadFile) (to : str)
         (s : State),
    (forall argv s1 k,
        convert config request file to s = Susp argv s1 k ->
        _value (conversion_semaphore s1) = (_value (conversion_semaphore s) - 1)%Z
        /\ forall er s2,
            _waiters (conversion_semaphore s2) = 0 ->
            conversion_semaphore (state_of (k er s2))
            = {| _value := _value (conversion_semaphore s2) + 1; _waiters := 0 |})
    /\ (forall engine,
           _waiters (conversion_semaphore s) = 0 ->
           conversion_semaphore
             (final_state (run engine (convert config request file to s)))
           = conversion_semaphore s).
Proof.
  intros config request file to s.
  assert (Hresume :
    forall start_time client_ip f input_ext output_ext mime_type input_size d er s2,
      _waiters (conversion_semaphore s2) = 0 ->
      conversion_semaphore
        (state_of (resume start_time client_ip f input_ext output_ext mime_type
                     input_size d er s2))
      = {| _value := _value (conversion_semaphore s2) + 1; _waiters := 0 |}).
  { intros start_time client_ip f input_ext output_ext mime_type input_size d
           er s2 Hw.
    destruct (resume_ends start_time client_ip f input_ext output_ext mime_type
                input_size d er s2) as (s3 & events & Hend & _ & Hsem & _).
    rewrite release_no_waiters in Hsem by assumption.
    destruct Hend as [[resp ->]|[e ->]]; exact Hsem. }
  assert (Hstaged :
    forall f data st,
      conversion_semaphore (staged f data st)
      = {| _value := _value (conversion_semaphore st) - 1;
           _waiters := _waiters (conversion_semaphore st) |}).
  { intros f data st. unfold staged. now destruct (place f). }
  split.
  - intros argv s1 k H.
    destruct (handled_Susp_inv _ _ _ _ _ _ _ _ H)
      as (f & outputs & filter_name & mime_type & _ & _ & _ & _ & _ & _ & _ & _
          & -> & Hk).
    split; [now rewrite Hstaged|].
    intros er s2 Hw. rewrite Hk. now apply Hresume.
  - intros engine Hw.
    destruct (convert_handled config request file to s)
      as [| | | | |f outputs filter_name mime_type _ _ _ _ _ Hl Hpos
          |f outputs filter_name mime_type _ _ _ _ _ Hl _
          |f outputs filter_name mime_type k _ _ _ _ _ Hl _ Hk];
      cbn [run final_state]; try reflexivity.
    + rewrite locked_no_waiters in Hl by assumption.
      apply Z.eqb_eq in Hl. rewrite Hl in Hpos. discriminate.
    + now apply (semaphore_left_entered (after_read s)).
    + rewrite Hk.
      destruct (resume_ends (clock s) (get_client_ip request) f (input_ext_of f)
                  (output_ext_of to) mime_type (len (payload file)) (next_tmp s)
                  (engine (command f (output_ext_of to) filter_name (next_tmp s))
                     (scratch (staged f (payload file) (after_read s))))
                  (staged f (payload file) (after_read s)))
        as (s3 & events & Hend & _ & Hsem & _).
      rewrite release_no_waiters in Hsem by (rewrite Hstaged; exact Hw).
      rewrite Hstaged in Hsem. cbn [_value _waiters] in Hsem.
      change (conversion_semaphore (after_read s)) with (conversion_semaphore s)
        in Hsem.
      destruct Hend as [[resp ->]|[e ->]]; cbn [run final_state]; rewrite Hsem;
        destruct (conversion_semaphore s) as [v w]; cbn in *; subst w;
        f_equal; lia.
Qed.

Lemma X11_witness :
  let s := demo_state in
  let file := upload "report.docx" "hello" in
  (forall argv s1 k,
      convert demo_config demo_request file (py "pdf") s = Susp argv s1 k ->
      _value (conversion_semaphore s1) = (_value (conversion_semaphore s) - 1)%Z
      /\ forall er s2,
          _waiters (conversion_semaphore s2) = 0 ->
          conversion_semaphore (state_of (k er s2))
          = {| _value := _value (conversion_semaphore s2) + 1; _waiters := 0 |})
  /\ (conversion_semaphore
         (final_state (run pdf_engine
                         (convert demo_config demo_request file (py "pdf") s)))
       = conversion_semaphore s).
Proof.
  intros s file.
  destruct (X11_permit_returned_on_every_path demo_config demo_request file
              (py "pdf") s) as [Hk Hrun].
  split; [exact Hk|]. apply (Hrun pdf_engine). reflexivity.
Defined.

(* ------------------------------------------------------------------------- *)
(** ** Letter case and leading periods *)
(* ------------------------------------------------------------------------- *)

Lemma lower_char_is (c x : char) :
  (x < 65 \/ 122 < x)%N -> (lower_char c = x <-> c = x).
Proof.
  intros Hx. split; [now apply lower_char_fixes|].
  intros ->. unfold lower_char.
  destruct (N.leb 65 x && N.leb x 90)%bool eqn:E; [|reflexivity].
  apply andb_true_iff in E as [E1 E2]. apply N.leb_le in E1, E2. lia.
Qed.

Lemma char_eqb_lower (c x : char) :
  (x < 65 \/ 122 < x)%N -> char_eqb (lower_char c) x = char_eqb c x.
Proof.
  intros Hx. unfold char_eqb.
  destruct (N.eqb_spec c x) as [->|Hne].
  - apply N.eqb_eq. now apply lower_char_is.
  - apply N.eqb_neq. intros H. apply Hne. now apply (lower_char_is c x).
Qed.

Lemma lower_char_idempotent (c : char) : lower_char (lower_char c) = lower_char c.
Proof.
  unfold lower_char.
  destruct (N.leb 65 c && N.leb c 90)%bool eqn:E; [|now rewrite E].
  apply andb_true_iff in E as [E1 E2]. apply N.leb_le in E1, E2.
  destruct (N.leb 65 (c + 32) && N.leb (c + 32) 90)%bool eqn:E'; [|reflexivity].
  apply andb_true_iff in E' as [_ E']. apply N.leb_le in E'. lia.
Qed.

Lemma lower_idempotent (s : str) : lower (lower s) = lower s.
Proof.
  unfold lower. rewrite map_map. apply map_ext. apply lower_char_idempotent.
Qed.

Lemma split_lower (sep : char) (s : str) :
  (sep < 65 \/ 122 < sep)%N ->
  split sep (lower s) = map lower (split sep s).
Proof.
  intros Hsep. induction s as [|c s IH]; [reflexivity|].
  cbn [lower map split]. fold (lower s). rewrite char_eqb_lower by assumption.
  destruct (char_eqb c sep); cbn [map]; rewrite IH; [reflexivity|].
  destruct (split sep s) as [|w ws]; reflexivity.
Qed.

Lemma str_eqb_lower_dot (w : str) :
  str_eqb (lower w) [Pathlib.dot] = str_eqb w [Pathlib.dot].
Proof.
  destruct w as [|c w]; [reflexivity|].
  cbn [lower map str_eqb]. rewrite char_eqb_lower by (unfold Pathlib.dot; lia).
  destruct w; reflexivity.
Qed.

Lemma parts_lower (p : str) : parts (lower p) = map lower (parts p).
Proof.
  unfold parts. rewrite split_lower by (unfold Pathlib.sep; lia).
  induction (split Pathlib.sep p) as [|w ws IH]; [reflexivity|].
  cbn [map filter]. rewrite str_eqb_lower_dot.
  replace (truthy (lower w)) with (truthy w) by (now destruct w).
  destruct (truthy w && negb (str_eqb w [Pathlib.dot]))%bool; cbn [map];
    now rewrite IH.
Qed.

Lemma last_map {A B : Type} (h : A -> B) (l : list A) (d : A) :
  last (map h l) (h d) = h (last l d).
Proof.
  induction l as [|x l IH]; [reflexivity|].
  destruct l as [|y l]; [reflexivity|]. exact IH.
Qed.

Lemma name_lower (p : str) : name (lower p) = lower (name p).
Proof.
  unfold name. rewrite parts_lower. exact (last_map lower (parts p) []).
Qed.

Lemma rfind_lower (c : char) (s : str) :
  (c < 65 \/ 122 < c)%N -> rfind c (lower s) = rfind c s.
Proof.
  intros Hc. induction s as [|x s IH]; [reflexivity|].
  cbn [lower map rfind]. fold (lower s). rewrite IH.
  now rewrite char_eqb_lower.
Qed.

Lemma suffix_lower (p : str) : suffix (lower p) = lower (suffix p).
Proof.
  unfold suffix. rewrite name_lower, rfind_lower by (unfold Pathlib.dot; lia).
  replace (List.length (lower (name p))) with (List.length (name p))
    by (unfold lower; now rewrite length_map).
  destruct (rfind Pathlib.dot (name p)) as [i|]; [|reflexivity].
  destruct (Nat.ltb 0 i && Nat.ltb i (List.length (name p) - 1))%bool;
    [|reflexivity].
  unfold lower. apply skipn_map.
Qed.

Lemma input_ext_of_lower (f : str) : input_ext_of (lower f) = input_ext_of f.
Proof.
  unfold input_ext_of. now rewrite suffix_lower, lower_idempotent.
Qed.

(** X12. For filenames made of ASCII characters, the letter case of the
    filename does not matter to [get_input_ext]: two such filenames that are
    equal once lower-cased get the same extension, or the same error.  (The
    filenames are taken in ASCII because that is where [lower] is
    [str.lower]; outside of it [str.lower] depends on the characters around,
    and lower-casing the suffix is not the same as taking the suffix of the
    lower-cased name.) *)
Theorem X12_filename_case_is_ignored :
  forall (f g : str) (s : State),
    ascii_text f = true -> ascii_text g = true ->
    lower f = lower g ->
    get_input_ext f s = get_input_ext g s.
Proof.
  intros f g s _ _ H.
  assert (He : input_ext_of f = input_ext_of g).
  { rewrite <- (input_ext_of_lower f), <- (input_ext_of_lower g). now rewrite H. }
  unfold get_input_ext. fold (input_ext_of f). fold (input_ext_of g).
  now rewrite He.
Qed.

Lemma X12_witness :
  get_input_ext (py "Quarterly.Report.DOCX") demo_state
  = get_input_ext (py "QUARTERLY.report.docx") demo_state.
Proof.
  apply (X12_filename_case_is_ignored (py "Quarterly.Report.DOCX")
           (py "QUARTERLY.report.docx") demo_state).
  - vm_compute. reflexivity.
  - vm_compute. reflexivity.
  - vm_compute. reflexivity.
Defined.

Lemma lstrip_dot_lower (s : str) :
  lstrip [Pathlib.dot] (lower s) = lower (lstrip [Pathlib.dot] s).
Proof.
  induction s as [|c s IH]; [reflexivity|].
  cbn [lower map lstrip existsb]. fold (lower s).
  rewrite char_eqb_lower by (unfold Pathlib.dot; lia).
  destruct (char_eqb c Pathlib.dot); [exact IH|reflexivity].
Qed.

Lemma lstrip_idempotent (chars s : str) :
  lstrip chars (lstrip chars s) = lstrip chars s.
Proof.
  induction s as [|c s IH]; [reflexivity|]. cbn [lstrip].
  destruct (existsb (char_eqb c) chars) eqn:E; [exact IH|].
  cbn [lstrip]. now rewrite E.
Qed.

(** X13. [convert] uses the target only through its normal form (lower case,
    leading periods removed).  Normalising is idempotent, ignores leading
    periods and ignores letter case; and two targets with the same normal
    form give the same run of [convert] for the same request in the same
    state. *)
Theorem X13_target_used_through_its_normal_form :
  (forall to, output_ext_of (output_ext_of to) = output_ext_of to)
  /\ (forall to, output_ext_of (Pathlib.dot :: to) = output_ext_of to)
  /\ (forall to, output_ext_of (lower to) = output_ext_of to)
  /\ (forall (config : Config) (request : Request) (file : UploadFile)
             (to1 to2 : str) (s : State),
         output_ext_of to1 = output_ext_of to2 ->
         convert config request file to1 s = convert config request file to2 s).
Proof.
  split; [|split; [|split]].
  - intros to. unfold output_ext_of.
    rewrite (lstrip_dot_lower to), lower_idempotent.
    now rewrite (lstrip_dot_lower (lstrip [Pathlib.dot] to)), lstrip_idempotent.
  - intros to. reflexivity.
  - intros to. unfold output_ext_of. now rewrite lower_idempotent.
  - intros config request file to1 to2 s H. unfold convert, output_ext_of in *.
    pattern (lstrip [Pathlib.dot] (lower to1)). rewrite H. reflexivity.
Qed.

Lemma X13_witness :
  convert demo_config demo_request (upload "report.docx" "hello") (py "..PDF")
    demo_state
  = convert demo_config demo_request (upload "report.docx" "hello") (py "pdf")
      demo_state.
Proof.
  apply (proj2 (proj2 (proj2 X13_target_used_through_its_normal_form))).
  vm_compute. reflexivity.
Defined.

(* ------------------------------------------------------------------------- *)
(** ** Where the input file is written *)
(* ------------------------------------------------------------------------- *)

Lemma plain_name_parts (f : str) :
  plain_name f = true -> is_absolute f = false /\ parts f = [f].
Proof.
  unfold plain_name. intros H.
  apply andb_true_iff in H as [H _]. apply andb_true_iff in H as [H Hdot].
  apply andb_true_iff in H as [Hne Hsep].
  apply negb_true_iff in Hsep, Hdot.
  assert (Hno : ~ In Pathlib.sep f).
  { intros Hin. assert (existsb (char_eqb Pathlib.sep) f = true); [|congruence].
    apply existsb_exists. exists Pathlib.sep. split; [assumption|apply N.eqb_refl]. }
  split.
  - unfold is_absolute. destruct f as [|c f]; [reflexivity|].
    cbn [startswith]. unfold char_eqb.
    replace (N.eqb Pathlib.sep c) with false; [reflexivity|].
    symmetry. apply N.eqb_neq. intros <-. apply Hno. now left.
  - unfold parts. rewrite split_no_sep by assumption. cbn [filter].
    now rewrite Hne, Hdot.
Qed.

(** X14. The path of the input file in the command of the engine.
    - For a filename that is a single path component, the temporary directory
      holds exactly one file when the handler awaits the engine, with that
      name and the payload as content, and the last word of the command is
      the path of that file in the temporary directory.
    - For a filename that is an absolute path, the last word of the command
      is a path that starts with [/] and is the same whatever the temporary
      directory is: joining the temporary directory and the filename gives
      the filename back, so the input path is chosen by the client, while the
      output directory of the command is still the temporary directory. *)
Theorem X14_where_the_input_is_staged :
  (forall (config : Config) (request : Request) (file : UploadFile) (to : str)
          (s : State) (argv : list str) (s1 : State)
          (k : engine_result -> State -> res Response) (f : str),
      convert config request file to s = Susp argv s1 k ->
      filename file = Some f ->
      plain_name f = true ->
      listdir (next_tmp s) s1 = [(f, payload file)]
      /\ nth_error argv 6 = Some (tmp_path (next_tmp s) ++ Pathlib.sep :: f))
  /\
  (forall (config : Config) (request : Request) (file : UploadFile) (to : str)
          (s : State) (argv : list str) (s1 : State)
          (k : engine_result -> State -> res Response) (f : str),
      convert config request file to s = Susp argv s1 k ->
      filename file = Some f ->
      is_absolute f = true ->
      (exists rest, nth_error argv 6 = Some (Pathlib.sep :: rest))
      /\ (forall base, nth_error argv 6 = Some (joinpath base f))
      /\ nth_error argv 5 = Some (tmp_path (next_tmp s))).
Proof.
  split; intros config request file to s argv s1 k f H Hf;
    destruct (handled_Susp_inv _ _ _ _ _ _ _ _ H)
      as (f0 & outputs & filter_name & mime_type & Hf0 & _ & _ & _ & _ & _ & _
          & -> & -> & _);
    rewrite Hf in Hf0; injection Hf0 as <-.
  - intros Hplain.
    pose proof (listdir_staged f (payload file) (after_read s)) as Hdir.
    change (next_tmp (after_read s)) with (next_tmp s) in Hdir.
    rewrite !Hdir.
    destruct (plain_name_parts f Hplain) as [Habs Hparts].
    unfold place. rewrite Habs, Hparts.
    unfold plain_name in Hplain. apply andb_true_iff in Hplain as [_ Hdd].
    apply negb_true_iff in Hdd. rewrite Hdd.
    split; [reflexivity|].
    unfold command. cbn [nth_error]. unfold joinpath. rewrite Habs, Hparts.
    reflexivity.
  - intros Habs.
    unfold command. cbn [nth_error]. unfold joinpath. rewrite Habs.
    split; [|split; reflexivity].
    destruct (startswith [Pathlib.sep; Pathlib.sep] f
              && negb (startswith [Pathlib.sep; Pathlib.sep; Pathlib.sep] f))%bool;
      cbn [app]; eauto.
Qed.

Lemma X14_witness :
  let file := upload "report.docx" "hello" in
  let r := convert demo_config demo_request file (py "pdf") demo_state in
  let file' := upload "/srv/data/report.docx" "hello" in
  let r' := convert demo_config demo_request file' (py "pdf") demo_state in
  (listdir (next_tmp demo_state) (state_of r) = [(py "report.docx", payload file)]
   /\ nth_error (awaited_argv r) 6
      = Some (tmp_path (next_tmp demo_state) ++ Pathlib.sep :: py "report.docx"))
  /\ ((exists rest, nth_error (awaited_argv r') 6 = Some (Pathlib.sep :: rest))
      /\ (forall base,
             nth_error (awaited_argv r') 6
             = Some (joinpath base (py "/srv/data/report.docx")))
      /\ nth_error (awaited_argv r') 5 = Some (tmp_path (next_tmp demo_state))).
Proof.
  intros file r file' r'. split.
  - apply (proj1 X14_where_the_input_is_staged demo_config demo_request file
             (py "pdf") demo_state (awaited_argv r) (state_of r) (rest_of r)
             (py "report.docx")).
    + vm_compute. reflexivity.
    + reflexivity.
    + vm_compute. reflexivity.
  - apply (proj2 X14_where_the_input_is_staged demo_config demo_request file'
             (py "pdf") demo_state (awaited_argv r') (state_of r') (rest_of r')
             (py "/srv/data/report.docx")).
    + vm_compute. reflexivity.
    + reflexivity.
    + vm_compute. reflexivity.
Defined.

(** The same, evaluated: the file named in the command is
    [/srv/data/report.docx], and the output directory is [/tmp/tmp0]. *)
Example absolute_filename_escapes :
  let r := convert demo_config demo_request (upload "/srv/data/report.docx" "hello")
             (py "pdf") demo_state in
  nth_error (awaited_argv r) 6 = Some (py "/srv/data/report.docx")
  /\ nth_error (awaited_argv r) 5 = Some (py "/tmp/tmp0").
Proof. vm_compute. repeat split. Qed.

(* ------------------------------------------------------------------------- *)
(** ** The capacity of the server *)
(* ------------------------------------------------------------------------- *)

Lemma fresh_reachable (config : Config) (p : Process) :
  fresh config p -> reachable config p.
Proof.
  intros (auth_enabled & now & s0 & Hs & ->). now apply reach_start with auth_enabled now.
Qed.

Lemma server_workers (config : Config) (workers : nat) (ps : Server) :
  server_reachable config workers ps ->
  List.length ps = workers /\ Forall (reachable config) ps.
Proof.
  induction 1 as [ps Hlen Hfresh|ps ps' _ [IHlen IHall] Hstep].
  - split; [assumption|]. eapply Forall_impl; [|exact Hfresh].
    intros p. apply fresh_reachable.
  - destruct Hstep as [before after p p' Hp|before after p p' Hp];
      rewrite length_app in *; cbn [List.length] in *;
      (split; [assumption|]);
      apply Forall_app in IHall as [Hb Ha];
      apply Forall_cons_iff in Ha as [Hr Ha];
      apply Forall_app; split; try assumption; constructor; try assumption.
    + now apply reach_step with p.
    + now apply fresh_reachable.
Qed.

Lemma total_in_flight_bound (m : nat) (ps : Server) :
  Forall (fun p => List.length (in_flight p) <= m) ps ->
  total_in_flight ps <= List.length ps * m.
Proof.
  unfold total_in_flight.
  induction 1 as [|p ps Hp _ IH]; unfold list_sum in *;
    cbn [map fold_right List.length Nat.mul] in *; lia.
Qed.

(** X15. [MAX_CONCURRENT] bounds each worker process, not the server.  In a
    server of [workers] processes, each with its own semaphore, the number of
    processes stays [workers] through requests, resumptions and restarts;
    each process has at most [MAX_CONCURRENT] conversions in flight; and the
    conversions in flight in the whole server are at most [workers] times
    [MAX_CONCURRENT]. *)
Theorem X15_capacity_is_per_worker :
  forall (config : Config) (workers : nat) (ps : Server),
    server_reachable config workers ps ->
    List.length ps = workers
    /\ Forall (fun p => (Z.of_nat (List.length (in_flight p))
                         <= MAX_CONCURRENT config)%Z) ps
    /\ (Z.of_nat (total_in_flight ps)
        <= Z.of_nat workers * MAX_CONCURRENT config)%Z.
Proof.
  intros config workers ps H.
  destruct (server_workers config workers ps H) as [Hlen Hall].
  assert (Hbound : Forall (fun p => (Z.of_nat (List.length (in_flight p))
                                     <= MAX_CONCURRENT config)%Z) ps).
  { eapply Forall_impl; [|exact Hall]. intros p Hp.
    destruct (reachable_invariant config p Hp) as (_ & Hv & Hsum & _). lia. }
  split; [assumption|]. split; [assumption|].
  destruct ps as [|p0 ps0] eqn:E.
  - cbn in *. subst workers. cbn. lia.
  - assert (Hmax : (0 <= MAX_CONCURRENT config)%Z).
    { apply Forall_inv in Hbound. lia. }
    rewrite <- E in *. clear E p0 ps0.
    pose proof (total_in_flight_bound (Z.to_nat (MAX_CONCURRENT config)) ps) as Ht.
    assert (Hnat : Forall (fun p => List.length (in_flight p)
                                    <= Z.to_nat (MAX_CONCURRENT config)) ps).
    { eapply Forall_impl; [|exact Hbound]. cbn. intros p Hp. lia. }
    specialize (Ht Hnat). rewrite Hlen in Ht. nia.
Qed.

Lemma X15_witness :
  List.length two_busy_workers = 2
  /\ Forall (fun p => (Z.of_nat (List.length (in_flight p))
                       <= MAX_CONCURRENT small_config)%Z) two_busy_workers
  /\ (Z.of_nat (total_in_flight two_busy_workers)
      <= Z.of_nat 2 * MAX_CONCURRENT small_config)%Z.
Proof.
  apply (X15_capacity_is_per_worker small_config 2 two_busy_workers).
  pose (start := {| shared :=
                      {| conversion_semaphore := {| _value := 1; _waiters := 0 |};
                         scratch := []; next_tmp := 0;
                         sink := [event (py "startup")
                                    [(py "auth_enabled", VBool false);
                                     (py "max_concurrent", VInt 1);
                                     (py "max_file_size", VInt 5);
                                     (py "timeout", VInt 300)]];
                         reads := 0; clock := 0 |};
                    in_flight := [] |}).
  assert (Hfresh : fresh small_config start).
  { exists false, 0%Z, (shared start). split; reflexivity. }
  assert (Hstep : step small_config start busy_process).
  { exact (step_request small_config start demo_request
             (upload "first.docx" "abc") (py "pdf")). }
  apply server_next with [busy_process; start].
  - apply server_next with [start; start].
    + apply server_start; [reflexivity|]. repeat constructor; assumption.
    + exact (worker_step small_config [] [start] start busy_process Hstep).
  - exact (worker_step small_config [busy_process] [] start busy_process Hstep).
Defined.

Example two_conversions_with_one_permit_each :
  total_in_flight two_busy_workers = 2 /\ MAX_CONCURRENT small_config = 1%Z.
Proof. vm_compute. split; reflexivity. Qed.

(** X16. With [MAX_CONCURRENT] at zero or below, no conversion ever runs: a
    negative value keeps [lifespan] from starting the worker, and with zero
    the worker starts, never has a conversion in flight, and answers every
    request that passes validation with status 429. *)
Theorem X16_no_capacity_no_conversion :
  forall (config : Config) (p : Process),
    reachable config p ->
    (MAX_CONCURRENT config <= 0)%Z ->
    MAX_CONCURRENT config = 0%Z
    /\ in_flight p = []
    /\ forall request file to,
        reaches_admission config file to = true ->
        convert config request file to (shared p)
        = Exn (HTTPException 429
                 (py "Too many concurrent requests. Please retry later."))
              (after_read (shared p)).
Proof.
  intros config p Hreach Hmax.
  destruct (reachable_invariant config p Hreach) as (Hw & Hv & Hsum & _).
  assert (Hzero : MAX_CONCURRENT config = 0%Z) by lia.
  assert (Hnone : in_flight p = []).
  { destruct (in_flight p); [reflexivity|]. cbn [List.length] in Hsum. lia. }
  split; [assumption|]. split; [assumption|].
  intros request file to Hvalid.
  destruct (reaches_admission_valid _ _ _ Hvalid)
    as (f & outputs & filter_name & mime_type & Hf & Hne & Hi & Ho & Hsz).
  rewrite (convert_valid config request file to (shared p) f outputs
             filter_name mime_type) by assumption.
  rewrite Hnone in Hsum. cbn [List.length] in Hsum.
  apply admit_rejected.
  - change (conversion_semaphore (after_read (shared p)))
      with (conversion_semaphore (shared p)).
    rewrite locked_no_waiters by assumption. apply Z.eqb_eq. lia.
  - change (conversion_semaphore (after_read (shared p)))
      with (conversion_semaphore (shared p)).
    rewrite Z.gtb_ltb. apply Z.ltb_ge. lia.
Qed.

Lemma X16_witness :
  let p := {| shared :=
                {| conversion_semaphore := {| _value := 0; _waiters := 0 |};
                   scratch := []; next_tmp := 0;
                   sink := [event (py "startup")
                              [(py "auth_enabled", VBool false);
                               (py "max_concurrent", VInt 0);
                               (py "max_file_size", VInt 524288000);
                               (py "timeout", VInt 300)]];
                   reads := 0; clock := 0 |};
              in_flight := [] |} in
  MAX_CONCURRENT closed_config = 0%Z
  /\ in_flight p = []
  /\ forall request file to,
      reaches_admission closed_config file to = true ->
      convert closed_config request file to (shared p)
      = Exn (HTTPException 429
               (py "Too many concurrent requests. Please retry later."))
            (after_read (shared p)).
Proof.
  intros p.
  apply (X16_no_capacity_no_conversion closed_config p).
  - apply (reach_start closed_config false 0). reflexivity.
  - vm_compute. discriminate.
Defined.

(* ------------------------------------------------------------------------- *)
(** ** The lines of the log *)
(* ------------------------------------------------------------------------- *)

Lemma hex_digit_printable (n : N) : (32 <= Json.hex_digit n)%N.
Proof. unfold Json.hex_digit. destruct (N.ltb n 10); lia. Qed.

Lemma escape_char_printable (c x : char) :
  In x (Json.escape_char c) -> (32 <= x)%N.
Proof.
  unfold Json.escape_char.
  repeat match goal with
         | |- context [if ?b then _ else _] => destruct b eqn:?
         end;
    cbn [In]; intros H;
    repeat match goal with
           | H : _ \/ _ |- _ => destruct H as [H|H]
           end;
    try contradiction; subst; try lia; try apply hex_digit_printable.
  match goal with E : N.ltb _ 32 = false |- _ => apply N.ltb_ge in E; exact E end.
Qed.

Lemma dumps_str_printable (s : str) (x : char) :
  In x (Json.dumps_str s) -> (32 <= x)%N.
Proof.
  unfold Json.dumps_str. cbn [In]. intros [<-|H]; [lia|].
  apply in_app_or in H as [H|[<-|[]]]; [|lia].
  apply in_flat_map in H as (c & _ & H). now apply escape_char_printable in H.
Qed.

Lemma uint_printable (d : Decimal.uint) (x : char) :
  In x (py (NilEmpty.string_of_uint d)) -> (32 <= x)%N.
Proof.
  unfold py. induction d; cbn; intros H; try contradiction;
    destruct H as [<-|H]; try lia; now apply IHd.
Qed.

Lemma str_of_int_printable (n : Z) (x : char) :
  In x (str_of_int n) -> (32 <= x)%N.
Proof.
  unfold str_of_int, NilZero.string_of_int.
  destruct (Z.to_int n) as [d|d]; unfold NilZero.string_of_uint.
  - destruct d; try apply uint_printable.
    unfold py. cbn. intros [<-|[]]. lia.
  - change (py (String "-" ?s)) with (45%N :: py s).
    intros [<-|H]; [lia|]. revert H.
    destruct d; try apply uint_printable.
    unfold py. cbn. intros [<-|[]]. lia.
Qed.

Lemma dumps_value_printable (v : value) (x : char) :
  In x (Json.dumps_value v) -> (32 <= x)%N.
Proof.
  destruct v as [s|n|[|]]; cbn [Json.dumps_value].
  - apply dumps_str_printable.
  - apply str_of_int_printable.
  - vm_compute. intuition (subst; discriminate).
  - vm_compute. intuition (subst; discriminate).
Qed.

Lemma join_In (sep : str) (items : list str) (x : char) :
  In x (join sep items) -> In x sep \/ exists item, In item items /\ In x item.
Proof.
  induction items as [|a items IH]; cbn [join]; [intros []|].
  destruct items as [|b items].
  - intros H. right. exists a. split; [now left|assumption].
  - intros H. apply in_app_or in H as [H|H].
    + right. exists a. split; [now left|assumption].
    + apply in_app_or in H as [H|H]; [now left|].
      destruct (IH H) as [Hs|(item & Hi & Hx)]; [now left|].
      right. exists item. split; [now right|assumption].
Qed.

Lemma dumps_printable (d : dict value) (x : char) :
  In x (Json.dumps d) -> (32 <= x)%N.
Proof.
  unfold Json.dumps. intros H.
  apply in_app_or in H as [H|H].
  { vm_compute in H. destruct H as [<-|[]]. lia. }
  apply in_app_or in H as [H|H].
  2:{ vm_compute in H. destruct H as [<-|[]]. lia. }
  apply join_In in H as [H|(item & Hitem & H)].
  { vm_compute in H. intuition (subst; lia). }
  apply in_map_iff in Hitem as ([k v] & <- & _). cbn [fst snd] in H.
  apply in_app_or in H as [H|H]; [now apply dumps_str_printable in H|].
  apply in_app_or in H as [H|H]; [|now apply dumps_value_printable in H].
  vm_compute in H. intuition (subst; lia).
Qed.

(** X17. A record formatted by [JSONFormatter] is one line: whatever the
    timestamp, the message and the fields are (an error stream with line
    breaks, for instance), the text contains no character below U+0020, so
    neither a line feed nor a carriage return. *)
Theorem X17_json_record_is_one_line :
  forall (timestamp : str) (record : LogRecord),
    (forall x, In x (JSONFormatter_format timestamp record) -> (32 <= x)%N)
    /\ ~ In 10%N (JSONFormatter_format timestamp record)
    /\ ~ In 13%N (JSONFormatter_format timestamp record).
Proof.
  intros timestamp record.
  assert (H : forall x, In x (JSONFormatter_format timestamp record) -> (32 <= x)%N).
  { intros x. unfold JSONFormatter_format. apply dumps_printable. }
  split; [exact H|].
  split; intros Hin; apply H in Hin; lia.
Qed.

Lemma setitem_fresh {V : Type} (d : dict V) (k : str) (v : V) :
  ~ In k (keys d) -> setitem d k v = d ++ [(k, v)].
Proof.
  induction d as [|[k' v'] d IH]; cbn [setitem keys map fst app In]; intros H;
    [reflexivity|].
  destruct (str_eqb k k') eqn:E.
  - apply str_eqb_eq in E. subst. tauto.
  - f_equal. apply IH. tauto.
Qed.

Lemma update_fresh {V : Type} (d other : dict V) :
  NoDup (keys other) ->
  (forall k, In k (keys other) -> ~ In k (keys d)) ->
  update d other = d ++ other.
Proof.
  unfold update. revert d.
  induction other as [|[k v] other IH]; intros d Hnd Hdisj; cbn [fold_left fst snd].
  - now rewrite app_nil_r.
  - cbn [keys map fst] in Hnd. inversion Hnd as [|? ? Hk Hnd']; subst.
    rewrite setitem_fresh by (apply Hdisj; now left).
    rewrite IH.
    + now rewrite <- app_assoc.
    + exact Hnd'.
    + intros k' Hk' Hin. unfold keys in Hin. rewrite map_app in Hin.
      apply in_app_or in Hin as [Hin|[<-|[]]].
      * apply (Hdisj k'); [now right|exact Hin].
      * now apply Hk.
Qed.

(** X18. The line [JSONFormatter] writes for [log_event(name, **kwargs)].
    When the keyword arguments have distinct names, none of which is
    [timestamp], [level], [message] or [event], the line is the JSON object
    with the fields [timestamp], [level] ([info]), [message] and [event]
    (both the name of the event) followed by the keyword arguments in their
    order.  A keyword argument named [level] takes the place of the level of
    the record. *)
Theorem X18_json_line_of_an_event :
  (forall (timestamp name : str) (kwargs : dict value) (s : State),
      NoDup (keys kwargs) ->
      (forall k, In k (keys kwargs) ->
                 ~ In k [py "timestamp"; py "level"; py "message"; py "event"]) ->
      exists record,
        log_event name kwargs s = Val tt (set_sink (sink s ++ [record]) s)
        /\ JSONFormatter_format timestamp record
           = Json.dumps ([(py "timestamp", VStr timestamp);
                          (py "level", VStr (py "info"));
                          (py "message", VStr name);
                          (py "event", VStr name)] ++ kwargs))
  /\ (forall (timestamp name : str) (v : value) (s : State),
         exists record,
           log_event name [(py "level", v)] s
           = Val tt (set_sink (sink s ++ [record]) s)
           /\ JSONFormatter_format timestamp record
              = Json.dumps [(py "timestamp", VStr timestamp);
                            (py "level", v);
                            (py "message", VStr name);
                            (py "event", VStr name)]).
Proof.
  split.
  - intros timestamp name kwargs s Hnd Hdisj.
    eexists. split; [reflexivity|].
    unfold JSONFormatter_format. cbn [levelno msg extra].
    change (lower (getLevelName INFO)) with (lower (py "INFO")).
    replace (lower (py "INFO")) with (py "info") by (vm_compute; reflexivity).
    f_equal. unfold update. cbn [fold_left fst snd].
    change (setitem _ (py "event") (VStr name))
      with ([(py "timestamp", VStr timestamp); (py "level", VStr (py "info"));
             (py "message", VStr name)] ++ [(py "event", VStr name)]).
    cbn [app].
    apply (update_fresh
             [(py "timestamp", VStr timestamp); (py "level", VStr (py "info"));
              (py "message", VStr name); (py "event", VStr name)]
             kwargs Hnd).
    intros k Hk Hin. apply (Hdisj k Hk). exact Hin.
  - intros timestamp name v s. eexists. split; reflexivity.
Qed.

Lemma X18_witness :
  exists record,
    log_event (py "conversion_timeout")
      [(py "input_format", VStr (py "docx"));
       (py "output_format", VStr (py "pdf"));
       (py "input_size_bytes", VInt 5);
       (py "client_ip", VStr (py "203.0.113.7"))] demo_state
    = Val tt (set_sink (sink demo_state ++ [record]) demo_state)
    /\ JSONFormatter_format (py "2026-01-01T00:00:00+00:00") record
       = Json.dumps ([(py "timestamp", VStr (py "2026-01-01T00:00:00+00:00"));
                      (py "level", VStr (py "info"));
                      (py "message", VStr (py "conversion_timeout"));
                      (py "event", VStr (py "conversion_timeout"))]
                     ++ [(py "input_format", VStr (py "docx"));
                         (py "output_format", VStr (py "pdf"));
                         (py "input_size_bytes", VInt 5);
                         (py "client_ip", VStr (py "203.0.113.7"))]).
Proof.
  apply (proj1 X18_json_line_of_an_event).
  - apply all_distinct_NoDup. vm_compute. reflexivity.
  - intros k Hk Hin. vm_compute in Hk, Hin.
    repeat match goal with
           | H : _ \/ _ |- _ => destruct H as [H|H]
           end; try contradiction; subst; discriminate.
Defined.

(** X19. With [LOG_FORMAT] set to anything that is not [json] in some letter
    case, the line written for [log_event(name, **kwargs)] is the time, the
    word [INFO] and the name of the event: none of the keyword arguments
    appears in it, so the sizes, the formats, the client address and the
    error text of an event are not in the log. *)
Theorem X19_text_format_drops_the_fields :
  forall (v asctime name : str) (kwargs : dict value) (s : State),
    lower v <> py "json" ->
    exists record,
      log_event name kwargs s = Val tt (set_sink (sink s ++ [record]) s)
      /\ setup_logging (Config_LOG_FORMAT (Some v)) asctime record
         = asctime ++ py " - INFO - " ++ name.
Proof.
  intros v asctime name kwargs s Hv.
  eexists. split; [reflexivity|].
  unfold setup_logging, Config_LOG_FORMAT.
  destruct (str_eqb (lower v) (py "json")) eqn:E.
  { apply str_eqb_eq in E. contradiction. }
  unfold Formatter_format. cbn [levelno msg].
  replace (getLevelName INFO) with (py "INFO") by (vm_compute; reflexivity).
  reflexivity.
Qed.

Lemma X19_witness :
  exists record,
    log_event (py "conversion_error")
      [(py "error", VStr (py "source file could not be loaded"))] demo_state
    = Val tt (set_sink (sink demo_state ++ [record]) demo_state)
    /\ setup_logging (Config_LOG_FORMAT (Some (py "Text")))
         (py "2026-01-01 00:00:00,000") record
       = py "2026-01-01 00:00:00,000" ++ py " - INFO - " ++ py "conversion_error".
Proof.
  apply X19_text_format_drops_the_fields.
  vm_compute. discriminate.
Defined.
